(** * ESP32 CI matrix scripts: [generate_matrix.py] and [get_app_info.py]

    A shallow embedding of the two configuration scripts of
    [examples/esp32/scripts] and the properties of their resolution,
    validation and lookup functions.

    Both scripts work on the document that [yaml.safe_load] returns for
    [app_config.yml]: a dynamically typed value.  The embedding keeps it
    dynamically typed, and every Python operation that can raise returns a
    [result]. *)

From stdpp Require Import base option list strings gmap.
From Stdlib Require Import Ascii DecimalString.

#[local] Set Warnings "-register-all".

Open Scope string_scope.
Open Scope nat_scope.
Open Scope list_scope.

(** ** Python values and the operations the scripts apply to them *)

Module Py.

(** The values of a loaded YAML document.  Mappings keep their key order
    (Python dictionaries iterate in insertion order) and carry string keys,
    as every mapping of [app_config.yml] does; a key occurs once in a
    mapping.  Floats, timestamps and binary scalars are left out. *)
Inductive yaml : Type :=
  | YNull
  | YBool (b : bool)
  | YInt (n : Z)
  | YStr (s : string)
  | YList (elems : list yaml)
  | YDict (entries : list (string * yaml)).

(** The exceptions the modelled code can raise; [SystemExit] carries the
    exit status and the line printed to the error stream before [sys.exit]. *)
Inductive exn : Type :=
  | KeyError
  | IndexError
  | TypeError
  | AttributeError
  | SystemExit (status : Z) (stderr : string).

Inductive result (A : Type) : Type :=
  | Ok (a : A)
  | Raise (e : exn).
Arguments Ok {A} a.
Arguments Raise {A} e.

#[global] Instance result_ret : MRet result := λ A, Ok.
#[global] Instance result_bind : MBind result := λ A B f m,
  match m with
  | Ok a => f a
  | Raise e => Raise e
  end.

(** [for x in xs: body], where the body updates the loop's state [s] and
    may raise. *)
Fixpoint for_each {A S : Type} (xs : list A) (body : A → S → result S)
    (s : S) : result S :=
  match xs with
  | [] => Ok s
  | x :: xs' => s' ← body x s; for_each xs' body s'
  end.

(** [enumerate(xs, start)]. *)
Fixpoint enumerate_from {A : Type} (start : nat) (xs : list A) : list (nat * A) :=
  match xs with
  | [] => []
  | x :: xs' => (start, x) :: enumerate_from (S start) xs'
  end.
Definition enumerate {A : Type} (xs : list A) : list (nat * A) :=
  enumerate_from 0 xs.

(** Lookup in a mapping by key. *)
Fixpoint dict_get (k : string) (d : list (string * yaml)) : option yaml :=
  match d with
  | [] => None
  | (k', v) :: d' => if decide (k = k') then Some v else dict_get k d'
  end.

Definition dict_has (k : string) (d : list (string * yaml)) : bool :=
  bool_decide (is_Some (dict_get k d)).

(** [a == b].  A boolean compares as the integer 0 or 1; two mappings are
    equal when they have the same size and agree on every key. *)
Fixpoint py_eq (a b : yaml) {struct a} : bool :=
  match a, b with
  | YNull, YNull => true
  | YBool x, YBool y => bool_decide (x = y)
  | YBool x, YInt n | YInt n, YBool x => bool_decide (Z.b2z x = n)
  | YInt m, YInt n => bool_decide (m = n)
  | YStr s, YStr t => bool_decide (s = t)
  | YList l, YList m =>
      (fix go (l m : list yaml) {struct l} : bool :=
         match l, m with
         | [], [] => true
         | x :: l', y :: m' => py_eq x y && go l' m'
         | _, _ => false
         end) l m
  | YDict d, YDict e =>
      bool_decide (length d = length e) &&
      (fix go (d : list (string * yaml)) : bool :=
         match d with
         | [] => true
         | (k, v) :: d' =>
             match dict_get k e with
             | Some w => py_eq v w && go d'
             | None => false
             end
         end) d
  | _, _ => false
  end.

(** [bool(v)]. *)
Definition truthy (v : yaml) : bool :=
  match v with
  | YNull => false
  | YBool b => b
  | YInt n => negb (bool_decide (n = 0%Z))
  | YStr s => negb (bool_decide (s = ""))
  | YList l => negb (bool_decide (l = []))
  | YDict d => negb (bool_decide (d = []))
  end.

Definition isinstance_list (v : yaml) : bool :=
  match v with YList _ => true | _ => false end.

Definition isinstance_str (v : yaml) : bool :=
  match v with YStr _ => true | _ => false end.

(** The characters of a string, each as a one-character string. *)
Fixpoint chars (s : string) : list yaml :=
  match s with
  | EmptyString => []
  | String c s' => YStr (String c EmptyString) :: chars s'
  end.

(** [p in s] for two strings: [p] occurs in [s]. *)
Fixpoint is_substring (p s : string) : bool :=
  String.prefix p s ||
  match s with
  | EmptyString => false
  | String _ s' => is_substring p s'
  end.

(** [o[k]] for a string [k]. *)
Definition py_getitem (o : yaml) (k : string) : result yaml :=
  match o with
  | YDict d =>
      match dict_get k d with
      | Some v => Ok v
      | None => Raise KeyError
      end
  | _ => Raise TypeError
  end.

(** [o[i]] for an index [i >= 0]. *)
Definition py_index (o : yaml) (i : nat) : result yaml :=
  match o with
  | YList l =>
      match l !! i with
      | Some v => Ok v
      | None => Raise IndexError
      end
  | YStr s =>
      match chars s !! i with
      | Some c => Ok c
      | None => Raise IndexError
      end
  | YDict _ => Raise KeyError
  | _ => Raise TypeError
  end.

(** [o.get(k, default)]: only a mapping has the method. *)
Definition py_get (o : yaml) (k : string) (default : yaml) : result yaml :=
  match o with
  | YDict d => Ok (from_option id default (dict_get k d))
  | _ => Raise AttributeError
  end.

(** [k in o] for a string [k]. *)
Definition py_in (k : string) (o : yaml) : result bool :=
  match o with
  | YDict d => Ok (dict_has k d)
  | YList l => Ok (existsb (py_eq (YStr k)) l)
  | YStr s => Ok (is_substring k s)
  | _ => Raise TypeError
  end.

(** The elements a [for] loop over [o] visits. *)
Definition py_iter (o : yaml) : result (list yaml) :=
  match o with
  | YList l => Ok l
  | YStr s => Ok (chars s)
  | YDict d => Ok (YStr <$> d.*1)
  | _ => Raise TypeError
  end.

(** [len(o)]. *)
Definition py_len (o : yaml) : result nat :=
  match o with
  | YList l => Ok (length l)
  | YStr s => Ok (String.length s)
  | YDict d => Ok (length d)
  | _ => Raise TypeError
  end.

(** [o.items()]. *)
Definition py_items (o : yaml) : result (list (string * yaml)) :=
  match o with
  | YDict d => Ok d
  | _ => Raise AttributeError
  end.

(** [s.replace(a, b)] for one-character [a] and [b]. *)
Fixpoint str_replace (a b : ascii) (s : string) : string :=
  match s with
  | EmptyString => EmptyString
  | String c s' => String (if decide (c = a) then b else c) (str_replace a b s')
  end.

(** The keys of a dictionary built by the code itself: the hashable values,
    with [True] and [False] the keys [1] and [0]. *)
Inductive hkey : Type :=
  | KNone
  | KNum (n : Z)
  | KStr (s : string).

#[global] Instance hkey_eq_dec : EqDecision hkey.
Proof. solve_decision. Defined.

Definition hkey_encode (k : hkey) : () + Z + string :=
  match k with
  | KNone => inl (inl ())
  | KNum n => inl (inr n)
  | KStr s => inr s
  end.

Definition hkey_decode (x : () + Z + string) : hkey :=
  match x with
  | inl (inl _) => KNone
  | inl (inr n) => KNum n
  | inr s => KStr s
  end.

#[global] Instance hkey_countable : Countable hkey :=
  inj_countable' hkey_encode hkey_decode
    (λ k, match k with KNone => eq_refl | KNum _ => eq_refl | KStr _ => eq_refl end).

(** [hash(v)]: lists and mappings are unhashable. *)
Definition py_hash (v : yaml) : result hkey :=
  match v with
  | YNull => Ok KNone
  | YBool b => Ok (KNum (Z.b2z b))
  | YInt n => Ok (KNum n)
  | YStr s => Ok (KStr s)
  | YList _ | YDict _ => Raise TypeError
  end.

(** [str(i)] for an index. *)
Definition str_of_nat (i : nat) : string :=
  NilEmpty.string_of_uint (Nat.to_uint i).

End Py.

Import Py.

(** ** [generate_matrix.py] *)

Module GenerateMatrix.

(** One entry of the [include] list: the dictionary [candidate] that
    [generate_matrix] builds, with its seven fixed keys.  [idf_version] is
    a string, since [candidate] exists only after [idf_version.replace]
    succeeded. *)
Record MatrixEntry : Type := {
  idf_version : string;
  idf_version_docker : string;
  idf_version_file : string;
  build_type : yaml;
  app_name : string;
  target : yaml;
  config_source : string
}.

(** The entry as the dictionary the code holds. *)
Definition entry_dict (e : MatrixEntry) : list (string * yaml) :=
  [ ("idf_version", YStr (idf_version e));
    ("idf_version_docker", YStr (idf_version_docker e));
    ("idf_version_file", YStr (idf_version_file e));
    ("build_type", build_type e);
    ("app_name", YStr (app_name e));
    ("target", target e);
    ("config_source", YStr (config_source e)) ].

(** [idf_version.replace('/', '-')] *)
Definition docker_safe_version (idf_version : string) : string :=
  str_replace "/" "-" idf_version.

(** [idf_version.replace('/', '_').replace('.', '_')] *)
Definition file_safe_version (idf_version : string) : string :=
  str_replace "." "_" (str_replace "/" "_" idf_version).

Definition default_build_types : yaml := YList [YStr "Debug"; YStr "Release"].

(** The loop that fills [idf_to_build_types] from the two global lists. *)
Definition build_idf_to_build_types
    (global_idf_versions global_build_types_per_idf : yaml)
    : result (gmap hkey yaml) :=
  versions ← py_iter global_idf_versions;
  for_each (enumerate versions)
    (λ '(i, idf_version) idf_to_build_types,
       n ← py_len global_build_types_per_idf;
       build_types ←
         (if bool_decide (i < n) then py_index global_build_types_per_idf i
          else Ok default_build_types);
       k ← py_hash idf_version;
       Ok (<[k := build_types]> idf_to_build_types))
    ∅.

(** [all(k in entry and entry[k] == v for k, v in exc.items())] *)
Definition rule_matches (entry : MatrixEntry) (exc : list (string * yaml)) : bool :=
  forallb
    (λ '(k, v),
       match dict_get k (entry_dict entry) with
       | Some x => py_eq x v
       | None => false
       end)
    exc.

(** The loop of [is_excluded] over the rules, returning at the first rule
    that matches. *)
Fixpoint is_excluded_loop (rules : list yaml) (entry : MatrixEntry) : result bool :=
  match rules with
  | [] => Ok false
  | exc :: rules' =>
      items ← py_items exc;
      if rule_matches entry items then Ok true
      else is_excluded_loop rules' entry
  end.

Definition is_excluded (exclude_combinations : yaml) (entry : MatrixEntry)
    : result bool :=
  rules ← py_iter exclude_combinations;
  is_excluded_loop rules entry.

(** The body of the loop over [enumerate(per_app_idf_versions)]: the build
    types paired with the version at position [i]. *)
Definition version_build_types (app_config : yaml)
    (idf_to_build_types : gmap hkey yaml) (i : nat) (idf_version : yaml)
    : result (list yaml) :=
  declared ← py_in "build_types" app_config;
  if declared : bool then
    app_build_types ← py_getitem app_config "build_types";
    first ← py_index app_build_types 0;
    if isinstance_list first then
      n ← py_len app_build_types;
      if bool_decide (i < n) then
        at_i ← py_index app_build_types i;
        py_iter at_i
      else py_iter default_build_types
    else py_iter app_build_types
  else
    k ← py_hash idf_version;
    py_iter (from_option id default_build_types (idf_to_build_types !! k)).

(** The list [effective_combinations] of one app. *)
Definition effective_combinations (app_config : yaml)
    (idf_to_build_types : gmap hkey yaml) (per_app_idf_versions : yaml)
    : result (list (yaml * yaml)) :=
  versions ← py_iter per_app_idf_versions;
  for_each (enumerate versions)
    (λ '(i, idf_version) combinations,
       build_types ← version_build_types app_config idf_to_build_types i idf_version;
       Ok (combinations ++ ((λ build_type, (idf_version, build_type)) <$> build_types)))
    [].

(** The dictionary [candidate] for one combination. *)
Definition make_candidate (config : yaml) (app_name : string) (app_config : yaml)
    (idf_version build_type : yaml) : result MatrixEntry :=
  match idf_version with
  | YStr version =>
      metadata ← py_getitem config "metadata";
      target ← py_get metadata "target" (YStr "esp32c6");
      has_build_types ← py_in "build_types" app_config;
      overridden ←
        (if has_build_types : bool then Ok true
         else py_in "idf_versions" app_config);
      Ok {| idf_version := version;
            idf_version_docker := docker_safe_version version;
            idf_version_file := file_safe_version version;
            build_type := build_type;
            app_name := app_name;
            target := target;
            config_source := if overridden : bool then "app" else "global" |}
  | _ => Raise AttributeError
  end.

(** The loop over [effective_combinations] that builds the candidates of
    one app and appends those that no rule excludes. *)
Definition generate_entries (config exclude_combinations : yaml)
    (app_name : string) (app_config : yaml)
    (combinations : list (yaml * yaml)) (include : list MatrixEntry)
    : result (list MatrixEntry) :=
  for_each combinations
    (λ '(idf_version, build_type) include,
       candidate ← make_candidate config app_name app_config idf_version build_type;
       excluded ← is_excluded exclude_combinations candidate;
       Ok (if excluded : bool then include else include ++ [candidate]))
    include.

(** The body of the loop over [config['apps'].items()]: the [include] list
    after the app has been handled. *)
Definition app_entries (config : yaml) (idf_to_build_types : gmap hkey yaml)
    (global_idf_versions exclude_combinations : yaml)
    (app_name : string) (app_config : yaml) (include : list MatrixEntry)
    : result (list MatrixEntry) :=
  ci_enabled ← py_get app_config "ci_enabled" (YBool true);
  if negb (truthy ci_enabled) then Ok include
  else
    per_app_idf_versions ← py_get app_config "idf_versions" global_idf_versions;
    combinations ←
      effective_combinations app_config idf_to_build_types per_app_idf_versions;
    generate_entries config exclude_combinations app_name app_config
      combinations include.

(** [generate_matrix], on the configuration [load_config] returned; the
    result is the list under the key [include]. *)
Definition generate_matrix (config : yaml) : result (list MatrixEntry) :=
  metadata ← py_getitem config "metadata";
  global_idf_versions ← py_get metadata "idf_versions" (YList [YStr "release/v5.5"]);
  global_build_types_per_idf ←
    py_get metadata "build_types" (YList [default_build_types]);
  idf_to_build_types ←
    build_idf_to_build_types global_idf_versions global_build_types_per_idf;
  ci_config ← py_get config "ci_config" (YDict []);
  excludes ← py_get ci_config "exclude_combinations" (YList []);
  let exclude_combinations := if truthy excludes then excludes else YList [] in
  apps ← py_getitem config "apps";
  items ← py_items apps;
  for_each items
    (λ '(app_name, app_config) include,
       app_entries config idf_to_build_types global_idf_versions
         exclude_combinations app_name app_config include)
    [].

(** *** [validate_config]

    The function works on three objects: the configuration it is given and
    its two local lists.  They are the state of the monad [V]; the only
    writes the code performs are [errors.append] and [warnings.append]. *)

Record vstate : Type := VState {
  st_config : yaml;
  st_errors : list string;
  st_warnings : list string
}.

Definition V (A : Type) : Type := vstate → result (A * vstate).

#[global] Instance V_ret : MRet V := λ A a st, Ok (a, st).
#[global] Instance V_bind : MBind V := λ A B f m st,
  match m st with
  | Ok (a, st') => f a st'
  | Raise e => Raise e
  end.

(** A read-only Python operation inside [validate_config]. *)
Definition lift {A : Type} (r : result A) : V A := λ st,
  match r with
  | Ok a => Ok (a, st)
  | Raise e => Raise e
  end.

Definition the_config : V yaml := λ st, Ok (st_config st, st).
Definition the_errors : V (list string) := λ st, Ok (st_errors st, st).
Definition the_warnings : V (list string) := λ st, Ok (st_warnings st, st).

Definition errors_append (msg : string) : V () := λ st,
  Ok ((), VState (st_config st) (st_errors st ++ [msg]) (st_warnings st)).

Definition warnings_append (msg : string) : V () := λ st,
  Ok ((), VState (st_config st) (st_errors st) (st_warnings st ++ [msg])).

(** [if b: body] *)
Definition when_ (b : bool) (body : V ()) : V () :=
  if b then body else mret ().

Fixpoint for_each_V {A : Type} (xs : list A) (body : A → V ()) : V () :=
  match xs with
  | [] => mret ()
  | x :: xs' => _ ← body x; for_each_V xs' body
  end.

(** [all(isinstance(x, str) for x in v)] *)
Definition all_str (v : yaml) : result bool :=
  xs ← py_iter v;
  Ok (forallb isinstance_str xs).

(** The body of the loop over [config['apps'].items()]. *)
Definition validate_app_config (app_name : string) (app_config : yaml) : V () :=
  has_description ← lift (py_in "description" app_config);
  _ ← when_ (negb has_description)
        (warnings_append ("App '" +:+ app_name +:+ "' missing description"));
  has_source_file ← lift (py_in "source_file" app_config);
  _ ← when_ (negb has_source_file)
        (warnings_append ("App '" +:+ app_name +:+ "' missing source_file"));
  has_build_types ← lift (py_in "build_types" app_config);
  _ ← when_ has_build_types
        (build_types ← lift (py_getitem app_config "build_types");
         if isinstance_list build_types then
           nested ← lift (if truthy build_types
                          then first ← py_index build_types 0;
                               Ok (isinstance_list first)
                          else Ok false);
           if nested : bool then
             elems ← lift (py_iter build_types);
             for_each_V (enumerate elems)
               (λ '(i, bt_list),
                  if negb (isinstance_list bt_list) then
                    errors_append ("App '" +:+ app_name +:+ "' build_types["
                                   +:+ str_of_nat i +:+ "] is not a list")
                  else
                    strings ← lift (all_str bt_list);
                    when_ (negb strings)
                      (errors_append ("App '" +:+ app_name +:+ "' build_types["
                                      +:+ str_of_nat i
                                      +:+ "] contains non-string values")))
           else
             strings ← lift (all_str build_types);
             when_ (negb strings)
               (errors_append ("App '" +:+ app_name
                               +:+ "' build_types contains non-string values"))
         else
           errors_append ("App '" +:+ app_name +:+ "' build_types is not a list"));
  has_idf_versions ← lift (py_in "idf_versions" app_config);
  when_ has_idf_versions
    (idf_versions ← lift (py_getitem app_config "idf_versions");
     if negb (isinstance_list idf_versions) then
       errors_append ("App '" +:+ app_name +:+ "' idf_versions is not a list")
     else
       strings ← lift (all_str idf_versions);
       when_ (negb strings)
         (errors_append ("App '" +:+ app_name
                         +:+ "' idf_versions contains non-string values"))).

(** [# Validate metadata section] *)
Definition validate_metadata (metadata : yaml) : V () :=
  has_idf_versions ← lift (py_in "idf_versions" metadata);
  _ ← when_ (negb has_idf_versions)
        (warnings_append "No 'idf_versions' specified in metadata, using default");
  has_build_types ← lift (py_in "build_types" metadata);
  _ ← when_ (negb has_build_types)
        (warnings_append "No 'build_types' specified in metadata, using default");
  has_target ← lift (py_in "target" metadata);
  when_ (negb has_target)
    (warnings_append "No 'target' specified in metadata, using default").

(** [# Validate apps section] *)
Definition validate_apps (apps : yaml) : V () :=
  if negb (truthy apps) then
    errors_append "No apps defined in configuration"
  else
    items ← lift (py_items apps);
    for_each_V items (λ '(app_name, app_config),
                        validate_app_config app_name app_config).

(** [# Validate ci_config if present] *)
Definition validate_ci_config (config : yaml) : V () :=
  has_ci_config ← lift (py_in "ci_config" config);
  when_ has_ci_config
    (ci_config ← lift (py_getitem config "ci_config");
     has_excludes ← lift (py_in "exclude_combinations" ci_config);
     when_ has_excludes
       (excludes ← lift (py_getitem ci_config "exclude_combinations");
        when_ (truthy excludes && negb (isinstance_list excludes))
          (errors_append "ci_config.exclude_combinations is not a list"))).

Definition validate_config_body : V (bool * list string * list string) :=
  config ← the_config;
  has_metadata ← lift (py_in "metadata" config);
  _ ← when_ (negb has_metadata)
        (errors_append "Missing required 'metadata' section");
  has_apps ← lift (py_in "apps" config);
  _ ← when_ (negb has_apps)
        (errors_append "Missing required 'apps' section");
  errors ← the_errors;
  if negb (bool_decide (errors = [])) then
    warnings ← the_warnings;
    mret (false, errors, warnings)
  else
    metadata ← lift (py_getitem config "metadata");
    _ ← validate_metadata metadata;
    apps ← lift (py_getitem config "apps");
    _ ← validate_apps apps;
    _ ← validate_ci_config config;
    errors ← the_errors;
    warnings ← the_warnings;
    mret (bool_decide (length errors = 0), errors, warnings).

(** [validate_config(config)]: the returned triple, and the configuration
    object as the call leaves it. *)
Definition validate_config (config : yaml)
    : result (bool * list string * list string * yaml) :=
  '(r, st) ← validate_config_body (VState config [] []);
  Ok (r, st_config st).

End GenerateMatrix.

(** ** [get_app_info.py] *)

Module GetAppInfo.

(** [get_app_source_file], on the configuration [load_config] returned. *)
Definition get_app_source_file (app_type : string) (config : yaml) : result yaml :=
  apps ← py_getitem config "apps";
  known ← py_in app_type apps;
  if negb known then
    Raise (SystemExit 1 ("Error: Unknown app type: " +:+ app_type))
  else
    app ← py_getitem apps app_type;
    py_getitem app "source_file".

(** [list_apps]: [list(config['apps'].keys())]. *)
Definition list_apps (config : yaml) : result (list string) :=
  apps ← py_getitem config "apps";
  items ← match apps with
          | YDict d => Ok d
          | _ => Raise AttributeError
          end;
  Ok (items.*1).

(** [validate_app]: [app_type in config['apps']]. *)
Definition validate_app (app_type : string) (config : yaml) : result bool :=
  apps ← py_getitem config "apps";
  py_in app_type apps.

End GetAppInfo.


(** ** The runs of the two scripts *)

Module Process.

(** What stops a run before its last statement: [sys.exit(status)], an
    exception of the modelled code that nothing catches, or the [OSError]
    of a file that cannot be opened or written, which nothing catches
    either. *)
Inductive stop : Type :=
  | Exit (status : Z)
  | Uncaught (e : exn)
  | UncaughtOSError.

Inductive outcome (A : Type) : Type :=
  | Done (a : A)
  | Stopped (s : stop).
Arguments Done {A} a.
Arguments Stopped {A} s.

(** A run: the events it produced, in order, and how it went on. *)
Definition proc (E A : Type) : Type := list E * outcome A.

#[global] Instance proc_ret {E} : MRet (proc E) := λ A a, ([], Done a).
#[global] Instance proc_bind {E} : MBind (proc E) := λ A B f m,
  match m with
  | (events, Done a) => let '(events', o) := f a in (events ++ events', o)
  | (events, Stopped s) => (events, Stopped s)
  end.

Definition emit {E} (e : E) : proc E () := ([e], Done ()).

(** [sys.exit(status)] *)
Definition sys_exit {E A} (status : Z) : proc E A := ([], Stopped (Exit status)).

(** The [OSError] that [open] or a write raises. *)
Definition os_error {E A} : proc E A := ([], Stopped UncaughtOSError).

(** A call of a modelled function: an exception it raises stops the run;
    for [SystemExit], the line it carries went to the error stream. *)
Definition call {E A} (stderr : string → E) (r : result A) : proc E A :=
  match r with
  | Ok a => ([], Done a)
  | Raise (SystemExit status line) => ([stderr line], Stopped (Exit status))
  | Raise e => ([], Stopped (Uncaught e))
  end.

(** [if b: body] *)
Definition only_if {E} (b : bool) (body : proc E ()) : proc E () :=
  if b then body else mret ().

(** [for x in xs: body] *)
Fixpoint each {E A} (xs : list A) (body : A → proc E ()) : proc E () :=
  match xs with
  | [] => mret ()
  | x :: xs' => _ ← body x; each xs' body
  end.

(** A command-line argument that is given and not empty. *)
Definition given (arg : option string) : bool :=
  match arg with
  | Some s => negb (bool_decide (s = ""))
  | None => false
  end.

End Process.

(** *** [main] of [generate_matrix.py]

    The run of [main] on the parsed arguments and on the configuration
    that [load_config] returns (the same for the call in [main] and the
    call in [generate_matrix]).  The text of [show_help], the path of the
    script, [str] of a value and the serializers are left as events.  The
    file system is a parameter of the run: [writable path] tells whether
    [open(path, 'w')] and the write to the file succeed; when they do not,
    the [OSError] ends the run and no matrix is in the file. *)
Module GenerateMatrixMain.
Import GenerateMatrix Process.

Inductive format : Type := Json | Yaml.

Record Args : Type := {
  arg_help : bool;
  arg_output : option string;
  arg_format : format;
  arg_filter : option string;
  arg_verbose : bool;
  arg_validate : bool
}.

(** A piece of a printed line: literal text, [str(v)] of a value, or the
    path [Path(__file__).resolve().parent.parent / 'app_config.yml']. *)
Inductive text : Type :=
  | Lit (s : string)
  | Str (v : yaml)
  | ScriptConfigFile.

Inductive event : Type :=
  (** [show_help()]: the help text on the output stream *)
  | Help
  (** [print(...)] of one line *)
  | Print (line : list text)
  (** a line on the error stream *)
  | PrintErr (line : string)
  (** [print(json.dumps(matrix_config))], or
      [print(yaml.dump(matrix_config, indent=2))] *)
  | PrintMatrix (fmt : format) (include : list MatrixEntry)
  (** [f.write(json.dumps(matrix_config, indent=2))], or
      [f.write(yaml.dump(matrix_config, indent=2))], on the file [path] *)
  | WriteMatrix (path : string) (fmt : format) (include : list MatrixEntry).

Definition say (line : list text) : proc event () := emit (Print line).

(** The first [if args.verbose:] block. *)
Definition report_configuration (config : yaml) : proc event () :=
  _ ← say [Lit "Loading configuration..."];
  _ ← say [Lit "Config file: "; ScriptConfigFile];
  apps ← call PrintErr (py_getitem config "apps");
  n ← call PrintErr (py_len apps);
  _ ← say [Lit "Apps found: "; Lit (str_of_nat n)];
  metadata ← call PrintErr (py_getitem config "metadata");
  target ← call PrintErr (py_get metadata "target" (YStr "esp32c6"));
  _ ← say [Lit "Target: "; Str target];
  metadata ← call PrintErr (py_getitem config "metadata");
  idf_versions ← call PrintErr (py_get metadata "idf_versions"
                                  (YList [YStr "release/v5.5"]));
  _ ← say [Lit "IDF versions: "; Str idf_versions];
  say [].

(** The [if args.validate:] block. *)
Definition run_validation (verbose : bool) (config : yaml) : proc event () :=
  '(is_valid, errors, warnings, _) ← call PrintErr (validate_config config);
  _ ← only_if verbose
        (_ ← only_if (negb (bool_decide (warnings = [])))
               (_ ← say [Lit "Configuration warnings:"];
                each warnings (λ warning, say [Lit ("  " +:+ warning)]));
         say []);
  if negb is_valid then
    _ ← say [Lit "Configuration validation failed:"];
    _ ← each errors (λ error, say [Lit ("  " +:+ error)]);
    sys_exit 1
  else
    _ ← say [Lit "Configuration validation passed"];
    _ ← only_if (negb (bool_decide (warnings = [])))
          (say [Lit ("  " +:+ str_of_nat (length warnings) +:+ " warnings found")]);
    say [].

(** [[entry for entry in matrix_config['include']
      if entry['app_name'] == args.filter]] *)
Definition filter_include (name : string) (include : list MatrixEntry)
    : list MatrixEntry :=
  filter (λ entry, app_name entry = name) include.

Definition main (writable : string → bool) (args : Args) (config : yaml)
    : proc event () :=
  if arg_help args then
    _ ← emit Help; sys_exit 0
  else
    _ ← only_if (arg_verbose args) (report_configuration config);
    _ ← only_if (arg_validate args) (run_validation (arg_verbose args) config);
    _ ← only_if (arg_verbose args) (say [Lit "Generating CI matrix..."]);
    include ← call PrintErr (generate_matrix config);
    _ ← only_if (arg_verbose args)
          (_ ← say [Lit "Matrix entries: "; Lit (str_of_nat (length include))];
           say []);
    include ←
      (if given (arg_filter args) then
         let name := default "" (arg_filter args) in
         let filtered_matrix := filter_include name include in
         _ ← only_if (arg_verbose args)
               (say [Lit ("Filtered matrix for app: " +:+ name +:+ " ("
                          +:+ str_of_nat (length filtered_matrix) +:+ " entries)")]);
         mret filtered_matrix
       else mret include);
    if given (arg_output args) then
      let path := default "" (arg_output args) in
      if writable path then
        _ ← emit (WriteMatrix path (arg_format args) include);
        say [Lit ("Matrix written to " +:+ path)]
      else os_error
    else
      emit (PrintMatrix (arg_format args) include).

End GenerateMatrixMain.

(** *** [main] of [get_app_info.py] *)
Module GetAppInfoMain.
Import GetAppInfo Process.

Record Args : Type := {
  arg_help : bool;
  arg_command : option string;
  arg_app_type : option string
}.

Inductive event : Type :=
  (** [show_help()]: the help text on the output stream *)
  | Help
  (** [print(x)]: the printed object, a [YStr] for a text *)
  | Stdout (x : yaml)
  (** a line on the error stream *)
  | Stderr (line : string).

Definition main (args : Args) (config : yaml) : proc event () :=
  if arg_help args || negb (given (arg_command args)) then
    _ ← emit Help; sys_exit 0
  else
    let command := default "" (arg_command args) in
    let app_type := default "" (arg_app_type args) in
    if decide (command = "source_file") then
      if negb (given (arg_app_type args)) then
        _ ← emit (Stderr "Usage: get_app_info.py source_file <app_type>");
        sys_exit 1
      else
        source_file ← call Stderr (get_app_source_file app_type config);
        emit (Stdout source_file)
    else if decide (command = "list") then
      apps ← call Stderr (list_apps config);
      emit (Stdout (YStr (String.concat " " apps)))
    else if decide (command = "validate") then
      if negb (given (arg_app_type args)) then
        _ ← emit (Stderr "Usage: get_app_info.py validate <app_type>");
        sys_exit 1
      else
        is_valid ← call Stderr (validate_app app_type config);
        _ ← emit (Stdout (YStr (if is_valid : bool then "true" else "false")));
        if negb is_valid then sys_exit 1 else mret ()
    else
      _ ← emit (Stderr ("Error: Unknown command: " +:+ command));
      sys_exit 1.

End GetAppInfoMain.

(** ** Views of a configuration used to state the properties *)

Import GenerateMatrix GetAppInfo.

(** The value [config['metadata'].get('target', 'esp32c6')] of a metadata
    mapping. *)
Definition target_of (metadata : list (string * yaml)) : yaml :=
  from_option id (YStr "esp32c6") (dict_get "target" metadata).

(** The provenance of an app: ["app"] when the app mapping has the key
    [build_types] or the key [idf_versions]. *)
Definition source_of (app : list (string * yaml)) : string :=
  if dict_has "build_types" app || dict_has "idf_versions" app
  then "app" else "global".

(** The candidate for a version string and a build type. *)
Definition entry_of (target : yaml) (name source : string)
    (combination : string * yaml) : MatrixEntry :=
  {| idf_version := combination.1;
     idf_version_docker := docker_safe_version combination.1;
     idf_version_file := file_safe_version combination.1;
     build_type := combination.2;
     app_name := name;
     target := target;
     config_source := source |}.

(** Some rule of the list matches the entry. *)
Definition excluded_by (rules : list (list (string * yaml))) (e : MatrixEntry) : bool :=
  existsb (rule_matches e) rules.

(** Every version crossed with every build type: versions in list order,
    build types in list order within a version. *)
Definition cross_product {A B : Type} (versions : list A) (build_types : list B)
    : list (A * B) :=
  v ← versions; (λ b, (v, b)) <$> build_types.

(** The (version, build type) pair of an entry. *)
Definition combination_of (e : MatrixEntry) : string * yaml :=
  (idf_version e, build_type e).

(** *** The shape of a configuration that [generate_matrix] resolves

    The data model of [app_config.yml]: lists of version strings, build
    types as a list of strings or a list of such lists, rules as mappings.
    An app's [build_types], when declared, is not empty. *)

Definition isinstance_dict (v : yaml) : bool :=
  match v with YDict _ => true | _ => false end.

Definition is_str_list (v : yaml) : bool :=
  match v with YList l => forallb isinstance_str l | _ => false end.

Definition is_nested_str_list (v : yaml) : bool :=
  match v with YList l => forallb is_str_list l | _ => false end.

Definition is_dict_list (v : yaml) : bool :=
  match v with YList l => forallb isinstance_dict l | _ => false end.

(** A check on an optional key: absent, or present with a value that
    passes. *)
Definition optional (check : yaml → bool) (o : option yaml) : bool :=
  from_option check true o.

Definition app_well_shaped (app : yaml) : bool :=
  match app with
  | YDict a =>
      optional is_str_list (dict_get "idf_versions" a) &&
      optional (λ bt, truthy bt && (is_str_list bt || is_nested_str_list bt))
        (dict_get "build_types" a)
  | _ => false
  end.

Definition ci_config_well_shaped (ci_config : yaml) : bool :=
  match ci_config with
  | YDict ci =>
      optional (λ ex, negb (truthy ex) || is_dict_list ex)
        (dict_get "exclude_combinations" ci)
  | _ => false
  end.

Definition well_shaped (config : yaml) : bool :=
  match config with
  | YDict c =>
      match dict_get "metadata" c, dict_get "apps" c with
      | Some (YDict m), Some (YDict apps) =>
          optional is_str_list (dict_get "idf_versions" m) &&
          optional is_nested_str_list (dict_get "build_types" m) &&
          forallb (λ '(_, app), app_well_shaped app) apps &&
          optional ci_config_well_shaped (dict_get "ci_config" c)
      | _, _ => false
      end
  | _ => false
  end.

(** *** Configurations used as examples *)

(** One app with the flat build types [Debug], [Release] and one rule that
    excludes the [Debug] builds. *)
Definition flat_excluded_config : yaml :=
  YDict
    [ ("metadata", YDict [("idf_versions", YList [YStr "release/v5.5"])]);
      ("apps",
       YDict [("gpio_test",
               YDict [("build_types", YList [YStr "Debug"; YStr "Release"])])]);
      ("ci_config",
       YDict [("exclude_combinations",
               YList [YDict [("build_type", YStr "Debug")]])]) ].

(** One app that declares [build_types] as the empty list. *)
Definition empty_build_types_config : yaml :=
  YDict
    [ ("metadata", YDict [("idf_versions", YList [YStr "release/v5.5"])]);
      ("apps", YDict [("gpio_test", YDict [("build_types", YList [])])]) ].

(** One app with no overrides and a rule list that holds an empty rule. *)
Definition empty_rule_config : yaml :=
  YDict
    [ ("metadata",
       YDict [("idf_versions", YList [YStr "release/v5.5"]);
              ("build_types", YList [YList [YStr "Debug"; YStr "Release"]])]);
      ("apps", YDict [("gpio_test", YDict [])]);
      ("ci_config",
       YDict [("exclude_combinations",
               YList [YDict [("app_name", YStr "adc_test")]; YDict []])]) ].

(** *** The shape of a configuration that [validate_config] inspects

    Both required sections are present; [metadata], every app and
    [ci_config] are mappings; [apps] is a mapping of apps or any value
    that counts as false. *)
Definition sections_are_mappings (config : yaml) : bool :=
  match config with
  | YDict c =>
      match dict_get "metadata" c, dict_get "apps" c with
      | Some (YDict _), Some apps =>
          (negb (truthy apps) ||
           match apps with
           | YDict items => forallb (λ '(_, app), isinstance_dict app) items
           | _ => false
           end) &&
          optional isinstance_dict (dict_get "ci_config" c)
      | _, _ => false
      end
  | _ => false
  end.

(** The warnings of the metadata check: one for each optional field that
    the metadata section lacks. *)
Definition metadata_warnings (metadata : list (string * yaml)) : list string :=
  (if dict_has "idf_versions" metadata then []
   else ["No 'idf_versions' specified in metadata, using default"]) ++
  (if dict_has "build_types" metadata then []
   else ["No 'build_types' specified in metadata, using default"]) ++
  (if dict_has "target" metadata then []
   else ["No 'target' specified in metadata, using default"]).

(** The warnings of the check of one app. *)
Definition app_warnings (name : string) (app : yaml) : list string :=
  match app with
  | YDict a =>
      (if dict_has "description" a then []
       else ["App '" +:+ name +:+ "' missing description"]) ++
      (if dict_has "source_file" a then []
       else ["App '" +:+ name +:+ "' missing source_file"])
  | _ => []
  end.

(** Every warning that the checks of the validator produce for a
    configuration: those of its metadata section, then those of its apps in
    configuration order. *)
Definition all_warnings (config : yaml) : list string :=
  match config with
  | YDict c =>
      match dict_get "metadata" c with
      | Some (YDict m) => metadata_warnings m
      | _ => []
      end ++
      match dict_get "apps" c with
      | Some (YDict items) => '(name, app) ← items; app_warnings name app
      | _ => []
      end
  | _ => []
  end.

Definition excludes_not_a_list : string :=
  "ci_config.exclude_combinations is not a list".

(** The error of the [ci_config] check. *)
Definition ci_config_errors (c : list (string * yaml)) : list string :=
  match dict_get "ci_config" c with
  | Some (YDict ci) =>
      match dict_get "exclude_combinations" ci with
      | Some excludes =>
          if truthy excludes && negb (isinstance_list excludes)
          then [excludes_not_a_list] else []
      | None => []
      end
  | _ => []
  end.

(** A configuration with a metadata section and no apps section. *)
Definition missing_apps_config : yaml := YDict [("metadata", YDict [])].

(** A complete configuration whose [exclude_combinations] key is left
    without a value. *)
Definition null_excludes_config : yaml :=
  YDict
    [ ("metadata",
       YDict [("idf_versions", YList [YStr "release/v5.5"]);
              ("build_types", YList [YList [YStr "Debug"; YStr "Release"]]);
              ("target", YStr "esp32c6")]);
      ("apps",
       YDict [("gpio_test",
               YDict [("description", YStr "GPIO test");
                      ("source_file", YStr "GpioTest.cpp")])]);
      ("ci_config", YDict [("exclude_combinations", YNull)]) ].

(** A configuration whose [exclude_combinations] is a string. *)
Definition string_excludes_config : yaml :=
  YDict
    [ ("metadata", YDict [("target", YStr "esp32c6")]);
      ("apps", YDict [("gpio_test", YDict [("source_file", YStr "GpioTest.cpp")])]);
      ("ci_config", YDict [("exclude_combinations", YStr "gpio_test")]) ].

(** *** Runs of the validator's steps

    [runs step errors warnings]: from every state, the step returns, leaves
    the configuration as it is and appends [errors] and [warnings] to the
    two lists. *)
Definition runs (step : V ()) (errors warnings : list string) : Prop :=
  ∀ st,
    step st = Ok ((), VState (st_config st) (st_errors st ++ errors)
                             (st_warnings st ++ warnings)).

(** An error message of the check of one app. *)
Definition is_app_error (msg : string) : bool := String.prefix "App '" msg.

(** A step that returns and appends no warning and only app errors. *)
Definition app_errors_only (step : V ()) : Prop :=
  ∃ errors, runs step errors [] ∧ Forall (λ e, is_app_error e = true) errors.

(** [adds Q step]: whenever the step returns, it has left the
    configuration as it was and has appended to the error list only
    messages that satisfy [Q]. *)
Definition adds {A} (Q : string → Prop) (step : V A) : Prop :=
  ∀ st a st', step st = Ok (a, st') →
    st_config st' = st_config st ∧
    ∃ errors, st_errors st' = st_errors st ++ errors ∧ Forall Q errors.

(** ** Further views *)

(** Two apps, the first one switched off for CI. *)
Definition disabled_app_config : yaml :=
  YDict
    [ ("metadata", YDict [("idf_versions", YList [YStr "release/v5.5"])]);
      ("apps",
       YDict [("adc_test", YDict [("ci_enabled", YBool false)]);
              ("gpio_test", YDict [])]) ].


(** The character occurs in the string. *)
Definition has_char (c : ascii) (s : string) : Prop :=
  c ∈ String.list_ascii_of_string s.

(** The global version list and the global build types of a metadata
    mapping, with the defaults of [generate_matrix]. *)
Definition global_idf_versions_of (metadata : list (string * yaml)) : yaml :=
  from_option id (YList [YStr "release/v5.5"]) (dict_get "idf_versions" metadata).

Definition global_build_types_of (metadata : list (string * yaml)) : yaml :=
  from_option id (YList [default_build_types]) (dict_get "build_types" metadata).

(** The exclusion list [generate_matrix] works with:
    [config.get('ci_config', {}).get('exclude_combinations', []) or []]. *)
Definition effective_excludes (config : yaml) : result yaml :=
  ci_config ← py_get config "ci_config" (YDict []);
  excludes ← py_get ci_config "exclude_combinations" (YList []);
  Ok (if truthy excludes then excludes else YList []).

(** Two runs end alike: both return, with related values, or both raise
    the same exception. *)
Definition alike {A B : Type} (R : A → B → Prop) (r1 : result A) (r2 : result B)
    : Prop :=
  match r1, r2 with
  | Ok a, Ok b => R a b
  | Raise e1, Raise e2 => e1 = e2
  | _, _ => False
  end.

(** *** The errors of the validator *)

(** The errors of the check of an app's [build_types] value. *)
Definition build_types_errors (name : string) (build_types : yaml) : list string :=
  match build_types with
  | YList elems =>
      match elems with
      | first :: _ =>
          if isinstance_list first then
            '(i, bt_list) ← enumerate elems;
            match bt_list with
            | YList bts =>
                if forallb isinstance_str bts then []
                else ["App '" +:+ name +:+ "' build_types[" +:+ str_of_nat i
                      +:+ "] contains non-string values"]
            | _ =>
                ["App '" +:+ name +:+ "' build_types[" +:+ str_of_nat i
                 +:+ "] is not a list"]
            end
          else if forallb isinstance_str elems then []
          else ["App '" +:+ name +:+ "' build_types contains non-string values"]
      | [] => []
      end
  | _ => ["App '" +:+ name +:+ "' build_types is not a list"]
  end.

(** The errors of the check of an app's [idf_versions] value. *)
Definition idf_versions_errors (name : string) (idf_versions : yaml) : list string :=
  match idf_versions with
  | YList elems =>
      if forallb isinstance_str elems then []
      else ["App '" +:+ name +:+ "' idf_versions contains non-string values"]
  | _ => ["App '" +:+ name +:+ "' idf_versions is not a list"]
  end.

(** The errors of the check of one app: those of [build_types], then those
    of [idf_versions]. *)
Definition app_errors (name : string) (app : yaml) : list string :=
  match app with
  | YDict a =>
      from_option (build_types_errors name) [] (dict_get "build_types" a) ++
      from_option (idf_versions_errors name) [] (dict_get "idf_versions" a)
  | _ => []
  end.

(** The errors of the apps section. *)
Definition apps_errors (apps : yaml) : list string :=
  if truthy apps then
    match apps with
    | YDict items => '(name, app) ← items; app_errors name app
    | _ => []
    end
  else ["No apps defined in configuration"].

(** Every error of the validator for a configuration with both sections:
    those of the apps in configuration order, then the one of [ci_config]. *)
Definition all_errors (config : yaml) : list string :=
  match config with
  | YDict c =>
      from_option apps_errors [] (dict_get "apps" c) ++ ci_config_errors c
  | _ => []
  end.

(** What the validator accepts in an app: [build_types], when present, is
    a list of strings or a list of lists of strings, and [idf_versions],
    when present, is a list of strings. *)
Definition app_valid (app : yaml) : bool :=
  match app with
  | YDict a =>
      optional (λ v, is_str_list v || is_nested_str_list v)
        (dict_get "build_types" a) &&
      optional is_str_list (dict_get "idf_versions" a)
  | _ => false
  end.

(** What the validator accepts in [ci_config]: [exclude_combinations],
    when present, is a list or counts as false. *)
Definition excludes_valid (c : list (string * yaml)) : bool :=
  match dict_get "ci_config" c with
  | Some (YDict ci) =>
      optional (λ ex, negb (truthy ex) || isinstance_list ex)
        (dict_get "exclude_combinations" ci)
  | _ => true
  end.

(** The configurations with both sections that the validator accepts. *)
Definition passes_validation (config : yaml) : bool :=
  match config with
  | YDict c =>
      match dict_get "apps" c with
      | Some (YDict items) =>
          negb (bool_decide (items = [])) &&
          forallb (λ '(_, app), app_valid app) items &&
          excludes_valid c
      | _ => false
      end
  | _ => false
  end.

(** Two apps with ill-formed overrides and an ill-formed exclusion list. *)
Definition invalid_apps_config : yaml :=
  YDict
    [ ("metadata", YDict []);
      ("apps",
       YDict [("adc_test",
               YDict [("build_types", YList [YList [YStr "Debug"]; YStr "Release"]);
                      ("idf_versions", YList [YStr "release/v5.5"; YInt 5])]);
              ("gpio_test",
               YDict [("build_types", YList [YStr "Debug"; YNull])])]);
      ("ci_config", YDict [("exclude_combinations", YStr "all")]) ].

(** What [validate_config] leaves unchecked and [generate_matrix] relies
    on: the global lists are a list of strings and a list of lists of
    strings, no app declares [build_types] as the empty list, and the
    exclusion rules are mappings. *)
Definition unchecked_parts_ok (config : yaml) : bool :=
  match config with
  | YDict c =>
      match dict_get "metadata" c, dict_get "apps" c with
      | Some (YDict m), Some (YDict items) =>
          optional is_str_list (dict_get "idf_versions" m) &&
          optional is_nested_str_list (dict_get "build_types" m) &&
          forallb (λ '(_, app),
                     match app with
                     | YDict a => optional truthy (dict_get "build_types" a)
                     | _ => true
                     end) items &&
          optional ci_config_well_shaped (dict_get "ci_config" c)
      | _, _ => false
      end
  | _ => false
  end.

(** A scalar that is no container: [None], a boolean or a number. *)
Definition is_scalar (v : yaml) : bool :=
  match v with
  | YNull | YBool _ | YInt _ => true
  | _ => false
  end.

(** *** Views of a run of [main] *)

Import Process.

(** The events that hand the matrix to the output: the print of the
    serialized matrix and the write of it to the output file. *)
Definition is_matrix_event (ev : GenerateMatrixMain.event) : bool :=
  match ev with
  | GenerateMatrixMain.PrintMatrix _ _ | GenerateMatrixMain.WriteMatrix _ _ _ => true
  | _ => false
  end.

(** A run that hands no matrix to the output. *)
Definition emits_no_matrix {A} (run : proc GenerateMatrixMain.event A) : Prop :=
  Forall (λ ev, is_matrix_event ev = false) run.1.

(** The include list that [main] hands to the output: the matrix, narrowed
    to the app of [--filter] when the option is given. *)
Definition shown_include (args : GenerateMatrixMain.Args)
    (include : list MatrixEntry) : list MatrixEntry :=
  if given (GenerateMatrixMain.arg_filter args)
  then GenerateMatrixMain.filter_include
         (default "" (GenerateMatrixMain.arg_filter args)) include
  else include.

(** The events by which [main] hands the include list to the output. *)
Definition output_events (args : GenerateMatrixMain.Args)
    (include : list MatrixEntry) : list GenerateMatrixMain.event :=
  if given (GenerateMatrixMain.arg_output args) then
    [ GenerateMatrixMain.WriteMatrix (default "" (GenerateMatrixMain.arg_output args))
        (GenerateMatrixMain.arg_format args) include;
      GenerateMatrixMain.Print
        [GenerateMatrixMain.Lit
           ("Matrix written to " +:+ default "" (GenerateMatrixMain.arg_output args))] ]
  else
    [ GenerateMatrixMain.PrintMatrix (GenerateMatrixMain.arg_format args) include ].

(** * Proofs *)

(** ** Auxiliary lemmas on the loops *)

Lemma dict_has_true k d v : dict_get k d = Some v → dict_has k d = true.
Proof. intros H. unfold dict_has. rewrite H. by apply bool_decide_eq_true_2. Qed.

Lemma dict_has_false k d : dict_get k d = None → dict_has k d = false.
Proof.
  intros H. unfold dict_has. rewrite H.
  apply bool_decide_eq_false_2. by intros [? ?].
Qed.

Lemma bind_Ok {A B} (f : A → result B) (a : A) : (Ok a ≫= f) = f a.
Proof. reflexivity. Qed.

Lemma for_each_cons {A S} (x : A) xs (body : A → S → result S) s :
  for_each (x :: xs) body s = body x s ≫= for_each xs body.
Proof. reflexivity. Qed.

(** A property of the loop state that every iteration keeps holds at the
    end of the loop. *)
Lemma for_each_invariant {A S} (P : S → Prop) (xs : list A)
    (body : A → S → result S) s s' :
  (∀ x t t', x ∈ xs → P t → body x t = Ok t' → P t') →
  P s → for_each xs body s = Ok s' → P s'.
Proof.
  revert s. induction xs as [|x xs IH]; intros s Hstep Hs; simpl.
  - by intros [= <-].
  - destruct (body x s) as [t|] eqn:Hb; simpl; [|done].
    apply IH; [|by eapply Hstep; [left| |]].
    intros y u u' Hy. apply Hstep. by right.
Qed.

Lemma make_candidate_dict c m a name v bt :
  dict_get "metadata" c = Some (YDict m) →
  make_candidate (YDict c) name (YDict a) (YStr v) bt
    = Ok (entry_of (target_of m) name (source_of a) (v, bt)).
Proof.
  intros Hm. unfold make_candidate, entry_of, source_of, target_of. simpl.
  rewrite Hm. simpl. by destruct (dict_has "build_types" a).
Qed.

Lemma is_excluded_rules rules e :
  is_excluded (YList (YDict <$> rules)) e = Ok (excluded_by rules e).
Proof.
  unfold is_excluded, excluded_by. simpl.
  induction rules as [|r rules IH]; simpl; [done|].
  by destruct (rule_matches e r).
Qed.

Lemma excluded_by_false rules e :
  excluded_by rules e = false ↔ Forall (λ rule, rule_matches e rule = false) rules.
Proof.
  unfold excluded_by. induction rules as [|r rules IH]; simpl.
  - split; [constructor | done].
  - rewrite orb_false_iff, Forall_cons. by rewrite IH.
Qed.

Lemma generate_entries_filter c m a name rules (combinations : list (string * yaml))
    include :
  dict_get "metadata" c = Some (YDict m) →
  generate_entries (YDict c) (YList (YDict <$> rules)) name (YDict a)
    (prod_map YStr id <$> combinations) include
  = Ok (include ++
        filter (λ e, Forall (λ rule, rule_matches e rule = false) rules)
          (entry_of (target_of m) name (source_of a) <$> combinations)).
Proof.
  intros Hm. unfold generate_entries. revert include.
  induction combinations as [|[v bt] combos IH]; intros include.
  - simpl. by rewrite app_nil_r.
  - rewrite fmap_cons, for_each_cons. cbn [prod_map fst snd id].
    rewrite (make_candidate_dict c m) by done. rewrite bind_Ok.
    rewrite is_excluded_rules, bind_Ok, bind_Ok.
    rewrite fmap_cons, filter_cons.
    destruct (excluded_by rules _) eqn:Hex.
    + rewrite IH. rewrite decide_False; [done|].
      rewrite <- excluded_by_false. by rewrite Hex.
    + rewrite IH. rewrite decide_True by by apply excluded_by_false.
      by rewrite <- app_assoc.
Qed.

Lemma effective_combinations_collect app tbl versions (f : nat → yaml → list yaml) :
  (∀ i v, (i, v) ∈ enumerate versions →
          version_build_types app tbl i v = Ok (f i v)) →
  effective_combinations app tbl (YList versions)
    = Ok ('(i, v) ← enumerate versions; (λ b, (v, b)) <$> f i v).
Proof.
  unfold effective_combinations. cbn [py_iter]. rewrite bind_Ok.
  generalize (enumerate versions) as l. intros l Hf.
  rewrite <- (app_nil_l (mbind _ l)). generalize (@nil (yaml * yaml)) as acc.
  induction l as [|[i v] l IH]; intros acc.
  - simpl. by rewrite app_nil_r.
  - rewrite for_each_cons, Hf by left. rewrite !bind_Ok.
    rewrite IH by (intros; apply Hf; by right).
    by rewrite bind_cons, app_assoc.
Qed.

Lemma enumerate_from_bind {A B} (g : A → list B) k (xs : list A) :
  ('(i, v) ← enumerate_from k xs; g v) = (v ← xs; g v).
Proof.
  revert k. induction xs as [|x xs IH]; intros k; cbn [enumerate_from]; [done|].
  by rewrite !bind_cons, IH.
Qed.

Lemma enumerate_from_lookup {A} k (xs : list A) i v :
  (i, v) ∈ enumerate_from k xs → k ≤ i ∧ xs !! (i - k) = Some v.
Proof.
  revert k. induction xs as [|x xs IH]; intros k; simpl.
  - by intros ?%elem_of_nil.
  - intros [[= -> ->]|Hin]%elem_of_cons.
    + by rewrite Nat.sub_diag.
    + apply IH in Hin as [Hle Hl]. split; [lia|].
      by replace (i - k) with (S (i - S k)) by lia.
Qed.

Lemma cross_product_fmap {A A' B} (h : A → A') (vs : list A) (bs : list B) :
  cross_product (h <$> vs) bs = prod_map h id <$> cross_product vs bs.
Proof.
  unfold cross_product. induction vs as [|v vs IH]; [done|].
  rewrite fmap_cons, !bind_cons, fmap_app, IH. f_equal.
  rewrite <- list_fmap_compose. by apply list_fmap_ext.
Qed.

Lemma version_build_types_nested a tbl sets i v :
  dict_get "build_types" a = Some (YList (YList <$> sets)) → sets ≠ [] →
  version_build_types (YDict a) tbl i v
    = Ok (nth i sets [YStr "Debug"; YStr "Release"]).
Proof.
  intros Hbt Hne. unfold version_build_types. cbn [py_in]. rewrite bind_Ok.
  rewrite (dict_has_true _ _ _ Hbt). cbn [py_getitem]. rewrite Hbt, bind_Ok.
  cbn [py_index py_len]. rewrite !list_lookup_fmap, length_fmap.
  destruct (sets !! 0) as [s0|] eqn:H0; [|by destruct sets].
  cbn [fmap option_fmap option_map isinstance_list]. rewrite !bind_Ok.
  case_bool_decide as Hi.
  - destruct (lookup_lt_is_Some_2 sets i Hi) as [s Hs]. rewrite Hs.
    cbn. f_equal. symmetry. by apply nth_lookup_Some.
  - cbn. f_equal. symmetry. apply nth_overflow. lia.
Qed.

Lemma version_build_types_flat a tbl (bts : list string) i v :
  dict_get "build_types" a = Some (YList (YStr <$> bts)) → bts ≠ [] →
  version_build_types (YDict a) tbl i v = Ok (YStr <$> bts).
Proof.
  intros Hbt Hne. unfold version_build_types. cbn [py_in]. rewrite bind_Ok.
  rewrite (dict_has_true _ _ _ Hbt). cbn [py_getitem]. rewrite Hbt, bind_Ok.
  destruct bts as [|b0 bts]; [done|]. done.
Qed.

Lemma bind_Ok_inv {A B} (m : result A) (f : A → result B) b :
  m ≫= f = Ok b → ∃ a, m = Ok a ∧ f a = Ok b.
Proof. destruct m as [a|]; [eauto | done]. Qed.

(** A loop whose iterations all return, keeping [P], returns. *)
Lemma for_each_total {A S} (P : S → Prop) (xs : list A)
    (body : A → S → result S) s :
  (∀ x t, x ∈ xs → P t → ∃ t', body x t = Ok t' ∧ P t') →
  P s → ∃ s', for_each xs body s = Ok s' ∧ P s'.
Proof.
  revert s. induction xs as [|x xs IH]; intros s Hstep Hs.
  - by exists s.
  - destruct (Hstep x s) as (t & Ht & HPt); [by left | done |].
    rewrite for_each_cons, Ht, bind_Ok.
    apply IH; [|done]. intros y u Hy. apply Hstep. by right.
Qed.

Lemma forallb_isinstance_str l :
  forallb isinstance_str l = true → ∃ ss, l = YStr <$> ss.
Proof.
  induction l as [|[] l IH]; simpl; try done.
  - by exists [].
  - intros [ss ->]%IH. by exists (s :: ss).
Qed.

Lemma forallb_isinstance_list l :
  forallb isinstance_list l = true → ∃ sets, l = YList <$> sets.
Proof.
  induction l as [|[] l IH]; simpl; try done.
  - by exists [].
  - intros [sets ->]%IH. by exists (elems :: sets).
Qed.

Lemma forallb_isinstance_dict l :
  forallb isinstance_dict l = true → ∃ rules, l = YDict <$> rules.
Proof.
  induction l as [|[] l IH]; simpl; try done.
  - by exists [].
  - intros [rules ->]%IH. by exists (entries :: rules).
Qed.

Lemma is_str_list_inv v : is_str_list v = true → ∃ ss, v = YList (YStr <$> ss).
Proof.
  destruct v; try done. cbn. intros [ss ->]%forallb_isinstance_str. by exists ss.
Qed.

Lemma is_str_list_isinstance_list v : is_str_list v = true → isinstance_list v = true.
Proof. by destruct v. Qed.

Lemma forallb_is_str_list l :
  forallb is_str_list l = true → ∃ sets, l = YList <$> sets.
Proof.
  intros H. apply forallb_isinstance_list.
  apply forallb_forall. intros x Hx.
  apply is_str_list_isinstance_list. by eapply forallb_forall in H.
Qed.

Lemma build_idf_to_build_types_total versions build_types :
  is_str_list versions = true → is_nested_str_list build_types = true →
  ∃ tbl, build_idf_to_build_types versions build_types = Ok tbl ∧
         map_Forall (λ _ x, isinstance_list x = true) tbl.
Proof.
  destruct versions as [| | | |vs|]; try done.
  destruct build_types as [| | | |bts|]; try done.
  cbn [is_str_list is_nested_str_list]. intros Hvs Hbts.
  unfold build_idf_to_build_types. cbn [py_iter]. rewrite bind_Ok.
  apply for_each_total; [|apply map_Forall_empty].
  intros [i v] tbl Hin Htbl. cbn [py_len]. rewrite bind_Ok.
  assert (isinstance_str v = true) as Hv.
  { apply enumerate_from_lookup in Hin as [_ Hl].
    eapply forallb_forall in Hvs; [done|].
    eapply list_elem_of_In, list_elem_of_lookup_2, Hl. }
  destruct v; try done. cbn [py_hash].
  case_bool_decide as Hi.
  - destruct (lookup_lt_is_Some_2 bts i Hi) as [x Hx].
    cbn [py_index]. rewrite Hx, !bind_Ok. eexists; split; [done|].
    apply map_Forall_insert_2; [|done].
    apply is_str_list_isinstance_list.
    eapply forallb_forall in Hbts; [done|].
    eapply list_elem_of_In, list_elem_of_lookup_2, Hx.
  - rewrite !bind_Ok. eexists; split; [done|].
    by apply map_Forall_insert_2.
Qed.

Lemma effective_combinations_total app tbl versions :
  (∀ i v, (i, v) ∈ enumerate versions →
          ∃ l, version_build_types app tbl i v = Ok l) →
  ∃ combinations,
    effective_combinations app tbl (YList versions) = Ok combinations ∧
    Forall (λ p, p.1 ∈ versions) combinations.
Proof.
  intros Hf. unfold effective_combinations. cbn [py_iter]. rewrite bind_Ok.
  apply for_each_total; [|constructor].
  intros [i v] acc Hin Hacc. destruct (Hf i v Hin) as [l Hl].
  rewrite Hl, bind_Ok. eexists; split; [done|].
  apply Forall_app; split; [done|].
  apply Forall_fmap, Forall_forall. intros b _. cbn.
  apply enumerate_from_lookup in Hin as [_ Hin].
  eapply list_elem_of_lookup_2, Hin.
Qed.

Lemma version_build_types_total a tbl i s :
  app_well_shaped (YDict a) = true →
  map_Forall (λ _ x, isinstance_list x = true) tbl →
  ∃ l, version_build_types (YDict a) tbl i (YStr s) = Ok l.
Proof.
  cbn [app_well_shaped]. intros [_ Hbt]%andb_prop Htbl.
  destruct (dict_get "build_types" a) as [bt|] eqn:Hget.
  - cbn [optional from_option] in Hbt.
    apply andb_prop in Hbt as [Hne [Hflat|Hnested]%orb_prop].
    + destruct bt as [| | | |l|]; try done. cbn [is_str_list] in Hflat.
      apply forallb_isinstance_str in Hflat as [bts ->].
      rewrite (version_build_types_flat a tbl bts); [eauto|done|].
      by intros ->.
    + destruct bt as [| | | |l|]; try done. cbn [is_nested_str_list] in Hnested.
      apply forallb_is_str_list in Hnested as [sets ->].
      rewrite (version_build_types_nested a tbl sets); [eauto|done|].
      by intros ->.
  - unfold version_build_types. cbn [py_in]. rewrite bind_Ok.
    rewrite (dict_has_false _ _ Hget). cbn [py_hash]. rewrite bind_Ok.
    destruct (tbl !! KStr s) as [x|] eqn:Hx; cbn [from_option id].
    + apply Htbl in Hx. destruct x; try done. cbn. eauto.
    + cbn. eauto.
Qed.

Lemma generate_entries_total c m a name rules combinations include :
  dict_get "metadata" c = Some (YDict m) →
  Forall (λ p : yaml * yaml, isinstance_str p.1 = true) combinations →
  ∃ entries,
    generate_entries (YDict c) (YList (YDict <$> rules)) name (YDict a)
      combinations include = Ok entries.
Proof.
  intros Hm Hstr. unfold generate_entries.
  destruct (for_each_total (λ _, True) combinations
    (λ '(idf_version, build_type) include,
       candidate ← make_candidate (YDict c) name (YDict a) idf_version build_type;
       excluded ← is_excluded (YList (YDict <$> rules)) candidate;
       Ok (if excluded : bool then include else include ++ [candidate]))
    include) as (entries & He & _); [|done|by exists entries].
  intros [v bt] t Hin _. eapply Forall_forall in Hstr; [|done].
  destruct v; try done.
  rewrite (make_candidate_dict c m) by done.
  rewrite bind_Ok, is_excluded_rules, bind_Ok. eauto.
Qed.

Lemma app_entries_total c m tbl versions rules name app include :
  dict_get "metadata" c = Some (YDict m) →
  is_str_list versions = true →
  map_Forall (λ _ x, isinstance_list x = true) tbl →
  app_well_shaped app = true →
  ∃ entries,
    app_entries (YDict c) tbl versions (YList (YDict <$> rules)) name app include
      = Ok entries.
Proof.
  intros Hm Hvs Htbl Happ. destruct app as [| | | | |a]; try done.
  unfold app_entries. cbn [py_get]. rewrite !bind_Ok.
  destruct (negb _); [eauto|]. 
  assert (∃ vs, from_option id versions (dict_get "idf_versions" a)
                = YList (YStr <$> vs)) as [vs ->].
  { pose proof Happ as Ha. cbn [app_well_shaped] in Ha.
    apply andb_prop in Ha as [Hiv _].
    destruct (dict_get "idf_versions" a) as [iv|]; cbn in Hiv |- *;
      by apply is_str_list_inv. }
  destruct (effective_combinations_total (YDict a) tbl (YStr <$> vs))
    as (combos & -> & Hcombos).
  { intros i v [_ Hin]%enumerate_from_lookup.
    apply list_lookup_fmap_Some in Hin as (s & -> & _).
    by apply version_build_types_total. }
  rewrite bind_Ok. eapply generate_entries_total; [done|].
  eapply Forall_impl; [done|]. intros [v bt]. cbn.
  by intros (s & -> & _)%list_elem_of_fmap.
Qed.

(** The exclusion list that [generate_matrix] works with. *)
Lemma exclude_combinations_rules c :
  optional ci_config_well_shaped (dict_get "ci_config" c) = true →
  ∃ rules,
    (ci_config ← py_get (YDict c) "ci_config" (YDict []);
     excludes ← py_get ci_config "exclude_combinations" (YList []);
     Ok (if truthy excludes then excludes else YList []))
    = Ok (YList (YDict <$> rules)).
Proof.
  intros Hci. cbn [py_get]. rewrite bind_Ok.
  destruct (dict_get "ci_config" c) as [ci|]; cbn in Hci |- *.
  - destruct ci as [| | | | |ci]; try done. cbn in Hci |- *.
    destruct (dict_get "exclude_combinations" ci) as [ex|]; cbn in Hci |- *.
    + destruct (truthy ex) eqn:Ht; cbn in Hci.
      * destruct ex; try done. apply forallb_isinstance_dict in Hci as [rules ->].
        by exists rules.
      * by exists [].
    + by exists [].
  - by exists [].
Qed.

Lemma generate_matrix_total config :
  well_shaped config = true → ∃ entries, generate_matrix config = Ok entries.
Proof.
  destruct config as [| | | | |c]; try done. cbn [well_shaped].
  destruct (dict_get "metadata" c) as [[| | | | |m]|] eqn:Hm; try done.
  destruct (dict_get "apps" c) as [[| | | | |apps]|] eqn:Happs; try done.
  intros [[[Hvs Hbts]%andb_prop Ha]%andb_prop Hci]%andb_prop.
  unfold generate_matrix. cbn [py_getitem]. rewrite Hm, Happs, !bind_Ok.
  cbn [py_get]. rewrite !bind_Ok.
  set (versions := from_option id _ (dict_get "idf_versions" m)).
  assert (is_str_list versions = true) as Hversions.
  { unfold versions. by destruct (dict_get "idf_versions" m). }
  destruct (build_idf_to_build_types_total versions
              (from_option id (YList [default_build_types])
                 (dict_get "build_types" m))) as (tbl & -> & Htbl); [done| |].
  { by destruct (dict_get "build_types" m). }
  rewrite bind_Ok.
  destruct (exclude_combinations_rules c Hci) as [rules Hrules].
  cbn [py_get] in Hrules. rewrite bind_Ok in Hrules.
  destruct (from_option id (YDict []) (dict_get "ci_config" c)) as [| | | | |ci];
    try done.
  cbn [py_get] in Hrules. rewrite bind_Ok in Hrules. injection Hrules as Hrules.
  rewrite bind_Ok. cbn [py_get]. rewrite bind_Ok, Hrules, bind_Ok.
  cbn [py_items]. rewrite bind_Ok.
  destruct (for_each_total (λ _, True) apps
    (λ '(app_name, app_config) include,
       app_entries (YDict c) tbl versions (YList (YDict <$> rules))
         app_name app_config include) []) as (entries & He & _);
    [|done|by exists entries].
  intros [name app] t Hin _.
  destruct (app_entries_total c m tbl versions rules name app t)
    as [entries He]; try done; [|eauto].
  eapply forallb_forall in Ha; [|by apply list_elem_of_In]. done.
Qed.

(** What a run of [generate_matrix] that returns went through. *)
Lemma generate_matrix_inv config entries :
  generate_matrix config = Ok entries →
  ∃ c m apps ci tbl versions,
    config = YDict c ∧
    dict_get "metadata" c = Some (YDict m) ∧
    dict_get "apps" c = Some (YDict apps) ∧
    default (YDict []) (dict_get "ci_config" c) = YDict ci ∧
    for_each apps
      (λ '(app_name, app_config) include,
         app_entries (YDict c) tbl versions
           (let excludes := default (YList []) (dict_get "exclude_combinations" ci) in
            if truthy excludes then excludes else YList [])
           app_name app_config include) [] = Ok entries.
Proof.
  unfold generate_matrix.
  intros (md & Hmd & H)%bind_Ok_inv.
  destruct config as [| | | | |c]; try done. cbn [py_getitem] in Hmd.
  destruct (dict_get "metadata" c) as [md'|] eqn:Hm; [|done].
  injection Hmd as ->.
  apply bind_Ok_inv in H as (versions & Hv & H).
  destruct md as [| | | | |m]; try done.
  apply bind_Ok_inv in H as (bts & _ & H).
  apply bind_Ok_inv in H as (tbl & _ & H).
  apply bind_Ok_inv in H as (ci' & Hci & H). cbn [py_get] in Hci.
  injection Hci as <-.
  apply bind_Ok_inv in H as (excludes & Hex & H).
  destruct (default (YDict []) (dict_get "ci_config" c)) as [| | | | |ci] eqn:Hci;
    try done.
  cbn [py_get] in Hex. injection Hex as <-.
  apply bind_Ok_inv in H as (apps' & Happs & H). cbn [py_getitem] in Happs.
  destruct (dict_get "apps" c) as [apps''|] eqn:Ha; [|done].
  injection Happs as ->.
  apply bind_Ok_inv in H as (apps & Hitems & H).
  destruct apps' as [| | | | |apps']; try done. injection Hitems as ->.
  by exists c, m, apps, ci, tbl, versions.
Qed.

Lemma make_candidate_inv config name a idf_version build_type e :
  make_candidate config name (YDict a) idf_version build_type = Ok e →
  app_name e = name ∧ config_source e = source_of a.
Proof.
  unfold make_candidate. destruct idf_version; try done.
  intros (md & _ & H)%bind_Ok_inv.
  apply bind_Ok_inv in H as (tg & _ & H).
  cbn [py_in] in H. rewrite bind_Ok in H. unfold source_of.
  destruct (dict_has "build_types" a); rewrite bind_Ok in H;
    injection H as <-; done.
Qed.

(** Every entry that the handling of one app adds comes from
    [make_candidate] for that app. *)
Lemma app_entries_invariant (P : MatrixEntry → Prop) config tbl versions excl
    name app include entries :
  (∀ a v bt e, app = YDict a →
               make_candidate config name (YDict a) v bt = Ok e → P e) →
  Forall P include →
  app_entries config tbl versions excl name app include = Ok entries →
  Forall P entries.
Proof.
  intros Hcand Hinc. unfold app_entries.
  intros (ci_enabled & Hci & H)%bind_Ok_inv.
  destruct app as [| | | | |a]; try done.
  destruct (negb _); [by injection H as <-|].
  apply bind_Ok_inv in H as (vs & _ & H).
  apply bind_Ok_inv in H as (combos & _ & H).
  revert H. unfold generate_entries. apply for_each_invariant; [|done].
  intros [v bt] t t' _ Ht (cand & Hc & H)%bind_Ok_inv.
  apply bind_Ok_inv in H as (excluded & _ & H). injection H as <-.
  destruct excluded; [done|].
  apply Forall_app; split; [done|]. apply Forall_singleton. by eapply Hcand.
Qed.

Lemma is_excluded_loop_empty_rule rules e excluded :
  YDict [] ∈ rules → is_excluded_loop rules e = Ok excluded → excluded = true.
Proof.
  induction rules as [|r rules IH]; [by intros ?%elem_of_nil|].
  intros Hin. cbn [is_excluded_loop]. intros (items & Hitems & H)%bind_Ok_inv.
  destruct r as [| | | | |r]; try done. injection Hitems as ->.
  destruct (rule_matches e items) eqn:Hmatch; [by injection H as <-|].
  apply elem_of_cons in Hin as [[= <-]|Hin]; [done|]. by apply IH.
Qed.

Lemma app_entries_empty_rule config tbl versions rules name app include entries :
  YDict [] ∈ rules →
  app_entries config tbl versions (YList rules) name app include = Ok entries →
  entries = include.
Proof.
  intros Hin. unfold app_entries.
  intros (ci_enabled & Hci & H)%bind_Ok_inv.
  destruct (negb _); [by injection H as <-|].
  apply bind_Ok_inv in H as (vs & _ & H).
  apply bind_Ok_inv in H as (combos & _ & H).
  revert H. unfold generate_entries.
  apply (for_each_invariant (λ t, t = include)); [|done].
  intros [v bt] t t' _ -> (cand & Hc & H)%bind_Ok_inv.
  apply bind_Ok_inv in H as (excluded & Hex & H). injection H as <-.
  unfold is_excluded in Hex. cbn [py_iter] in Hex. rewrite bind_Ok in Hex.
  by rewrite (is_excluded_loop_empty_rule rules cand excluded).
Qed.

(** ** Auxiliary lemmas on the validator's monad *)

Lemma lift_bind {A B} (a : A) (k : A → V B) : (lift (Ok a) ≫= k) = k a.
Proof. reflexivity. Qed.

Lemma ret_bind {A B} (a : A) (k : A → V B) : (mret a ≫= k) = k a.
Proof. reflexivity. Qed.

Lemma the_config_bind {B} (k : yaml → V B) st :
  (the_config ≫= k) st = k (st_config st) st.
Proof. reflexivity. Qed.

Lemma the_errors_bind {B} (k : list string → V B) st :
  (the_errors ≫= k) st = k (st_errors st) st.
Proof. reflexivity. Qed.

Lemma runs_ret : runs (mret ()) [] [].
Proof. intros [c es ws]. cbn. by rewrite !app_nil_r. Qed.

Lemma runs_bind step rest es1 ws1 es2 ws2 :
  runs step es1 ws1 → runs rest es2 ws2 →
  runs (step ≫= λ _, rest) (es1 ++ es2) (ws1 ++ ws2).
Proof.
  intros H1 H2 st. unfold mbind, V_bind. rewrite H1, H2. cbn.
  by rewrite !app_assoc.
Qed.

Lemma runs_then {B} step es ws (k : V B) st :
  runs step es ws →
  (step ≫= λ _, k) st
    = k (VState (st_config st) (st_errors st ++ es) (st_warnings st ++ ws)).
Proof. intros H. unfold mbind, V_bind. by rewrite H. Qed.

Lemma runs_seq step rest es1 ws1 es2 ws2 es ws :
  runs step es1 ws1 → runs rest es2 ws2 →
  es = es1 ++ es2 → ws = ws1 ++ ws2 →
  runs (step ≫= λ _, rest) es ws.
Proof. intros H1 H2 -> ->. by apply runs_bind. Qed.

Lemma runs_errors_append msg : runs (errors_append msg) [msg] [].
Proof. intros st. unfold errors_append. by rewrite app_nil_r. Qed.

Lemma runs_warnings_append msg : runs (warnings_append msg) [] [msg].
Proof. intros st. unfold warnings_append. by rewrite app_nil_r. Qed.

Lemma runs_for_each {A} (xs : list A) (body : A → V ()) (w : A → list string)
    (Q : string → Prop) :
  (∀ x, x ∈ xs → ∃ es, runs (body x) es (w x) ∧ Forall Q es) →
  ∃ es, runs (for_each_V xs body) es (x ← xs; w x) ∧ Forall Q es.
Proof.
  induction xs as [|x xs IH]; intros Hbody.
  - exists []. split; [apply runs_ret | constructor].
  - destruct (Hbody x) as (es1 & H1 & HQ1); [by left|].
    destruct IH as (es2 & H2 & HQ2); [intros; apply Hbody; by right|].
    exists (es1 ++ es2). split; [|by apply Forall_app].
    cbn [for_each_V]. rewrite bind_cons. by apply runs_bind.
Qed.

Lemma app_errors_only_ret : app_errors_only (mret ()).
Proof. exists []. split; [apply runs_ret | constructor]. Qed.

Lemma app_errors_only_append rest :
  app_errors_only (errors_append ("App '" +:+ rest)).
Proof.
  exists ["App '" +:+ rest]. split; [apply runs_errors_append|].
  apply Forall_singleton. by destruct rest.
Qed.

Lemma app_errors_only_when b step :
  app_errors_only step → app_errors_only (when_ b step).
Proof. destruct b; [done | intros _; apply app_errors_only_ret]. Qed.

Lemma all_str_list l : all_str (YList l) = Ok (forallb isinstance_str l).
Proof. reflexivity. Qed.

Lemma app_errors_only_strings name what l :
  app_errors_only
    (strings ← lift (all_str (YList l));
     when_ (negb strings)
       (errors_append ("App '" +:+ name +:+ what))).
Proof.
  rewrite all_str_list, lift_bind. apply app_errors_only_when, app_errors_only_append.
Qed.

Lemma check_build_types_quiet name a :
  app_errors_only
    (when_ (dict_has "build_types" a)
       (build_types ← lift (py_getitem (YDict a) "build_types");
        if isinstance_list build_types then
          nested ← lift (if truthy build_types
                         then first ← py_index build_types 0;
                              Ok (isinstance_list first)
                         else Ok false);
          if nested : bool then
            elems ← lift (py_iter build_types);
            for_each_V (enumerate elems)
              (λ '(i, bt_list),
                 if negb (isinstance_list bt_list) then
                   errors_append ("App '" +:+ name +:+ "' build_types["
                                  +:+ str_of_nat i +:+ "] is not a list")
                 else
                   strings ← lift (all_str bt_list);
                   when_ (negb strings)
                     (errors_append ("App '" +:+ name +:+ "' build_types["
                                     +:+ str_of_nat i
                                     +:+ "] contains non-string values")))
          else
            strings ← lift (all_str build_types);
            when_ (negb strings)
              (errors_append ("App '" +:+ name
                              +:+ "' build_types contains non-string values"))
        else
          errors_append ("App '" +:+ name +:+ "' build_types is not a list"))).
Proof.
  unfold dict_has. cbn [py_getitem].
  destruct (dict_get "build_types" a) as [bt|];
    [rewrite bool_decide_eq_true_2 by eauto
    |rewrite bool_decide_eq_false_2 by (by intros [? ?]);
     apply app_errors_only_ret].
  cbn [when_]. rewrite lift_bind.
  destruct bt as [| | | |l|]; cbn [isinstance_list];
    try apply app_errors_only_append.
  destruct l as [|x l].
  { cbn [truthy]. rewrite bool_decide_eq_true_2 by done. cbn [negb].
    rewrite lift_bind. apply app_errors_only_strings. }
  cbn [truthy py_index lookup list_lookup negb].

  rewrite bool_decide_eq_false_2 by done. cbn [negb]. rewrite bind_Ok, lift_bind.
  destruct (isinstance_list x); [|apply app_errors_only_strings].
  cbn [py_iter]. rewrite lift_bind.
  destruct (runs_for_each (enumerate (x :: l))
    (λ '(i, bt_list),
       if negb (isinstance_list bt_list) then
         errors_append ("App '" +:+ name +:+ "' build_types["
                        +:+ str_of_nat i +:+ "] is not a list")
       else
         strings ← lift (all_str bt_list);
         when_ (negb strings)
           (errors_append ("App '" +:+ name +:+ "' build_types["
                           +:+ str_of_nat i
                           +:+ "] contains non-string values")))
    (λ _, []) (λ e, is_app_error e = true)) as (es & Hes & HQ).
  - intros [i bt] _. destruct bt as [| | | |l'|]; cbn [isinstance_list negb];
      try apply app_errors_only_append.
    apply app_errors_only_strings.
  - exists es. split; [|done]. intros st. rewrite Hes. do 3 f_equal.
    generalize (enumerate (x :: l)). intros el.
    induction el as [|? el IH]; [done|]. by rewrite bind_cons.
Qed.

Lemma check_idf_versions_quiet name a :
  app_errors_only
    (when_ (dict_has "idf_versions" a)
       (idf_versions ← lift (py_getitem (YDict a) "idf_versions");
        if negb (isinstance_list idf_versions) then
          errors_append ("App '" +:+ name +:+ "' idf_versions is not a list")
        else
          strings ← lift (all_str idf_versions);
          when_ (negb strings)
            (errors_append ("App '" +:+ name
                            +:+ "' idf_versions contains non-string values")))).
Proof.
  unfold dict_has. cbn [py_getitem].
  destruct (dict_get "idf_versions" a) as [iv|];
    [rewrite bool_decide_eq_true_2 by eauto
    |rewrite bool_decide_eq_false_2 by (by intros [? ?]);
     apply app_errors_only_ret].
  cbn [when_]. rewrite lift_bind.
  destruct iv; cbn [isinstance_list negb]; try apply app_errors_only_append.
  apply app_errors_only_strings.
Qed.

Lemma runs_optional_warning (present : bool) msg :
  runs (when_ (negb present) (warnings_append msg)) []
       (if present then [] else [msg]).
Proof. destruct present; [apply runs_ret | apply runs_warnings_append]. Qed.

Lemma validate_app_config_runs name a :
  ∃ errors,
    runs (validate_app_config name (YDict a)) errors (app_warnings name (YDict a)) ∧
    Forall (λ e, is_app_error e = true) errors.
Proof.
  destruct (check_build_types_quiet name a) as (es1 & H1 & HQ1).
  destruct (check_idf_versions_quiet name a) as (es2 & H2 & HQ2).
  exists (es1 ++ es2). split; [|by apply Forall_app].
  unfold validate_app_config. cbn [py_in app_warnings]. rewrite !lift_bind.
  eapply runs_seq; [apply runs_optional_warning| |reflexivity..].
  eapply runs_seq;
    [apply runs_optional_warning| |reflexivity|symmetry; apply app_nil_r].
  eapply runs_seq; [apply H1|apply H2|reflexivity..].
Qed.

Lemma validate_metadata_runs m :
  runs (validate_metadata (YDict m)) [] (metadata_warnings m).
Proof.
  unfold validate_metadata, metadata_warnings. cbn [py_in]. rewrite !lift_bind.
  eapply runs_seq; [apply runs_optional_warning| |reflexivity..].
  eapply runs_seq; [apply runs_optional_warning..|reflexivity|reflexivity].
Qed.

Lemma validate_apps_runs apps :
  negb (truthy apps) ||
    match apps with
    | YDict items => forallb (λ '(_, app), isinstance_dict app) items
    | _ => false
    end = true →
  ∃ errors,
    runs (validate_apps apps) errors
      match apps with
      | YDict items => '(name, app) ← items; app_warnings name app
      | _ => []
      end ∧
    Forall (λ e, e ≠ excludes_not_a_list) errors.
Proof.
  intros Hshape. unfold validate_apps.
  destruct (truthy apps) eqn:Ht; cbn [negb].
  - destruct apps as [| | | | |items]; try done. cbn [orb negb] in Hshape.
    cbn [py_items]. rewrite lift_bind.
    destruct (runs_for_each items
      (λ '(app_name, app_config), validate_app_config app_name app_config)
      (λ '(name, app), app_warnings name app)
      (λ e, is_app_error e = true)) as (es & Hes & HQ).
    + intros [name app] Hin. eapply forallb_forall in Hshape;
        [|by apply list_elem_of_In].
      destruct app; try done. apply validate_app_config_runs.
    + exists es. split; [done|]. eapply Forall_impl; [done|].
      by intros e He ->.
  - exists ["No apps defined in configuration"]. split.
    + assert (match apps with
              | YDict items => '(name, app) ← items; app_warnings name app
              | _ => []
              end = []) as ->.
      { destruct apps as [| | | | |[|]]; done. }
      apply runs_errors_append.
    + by apply Forall_singleton.
Qed.

Lemma validate_ci_config_runs c :
  optional isinstance_dict (dict_get "ci_config" c) = true →
  runs (validate_ci_config (YDict c)) (ci_config_errors c) [].
Proof.
  unfold validate_ci_config, ci_config_errors, dict_has.
  cbn [py_in py_getitem]. rewrite lift_bind. unfold dict_has.
  destruct (dict_get "ci_config" c) as [ci|];
    [rewrite bool_decide_eq_true_2 by eauto
    |rewrite bool_decide_eq_false_2 by (by intros [? ?]);
     intros _; apply runs_ret].
  cbn [optional from_option when_]. destruct ci as [| | | | |ci]; try done.
  intros _. rewrite lift_bind. cbn [py_in py_getitem]. rewrite lift_bind.
  unfold dict_has.
  destruct (dict_get "exclude_combinations" ci) as [ex|];
    [rewrite bool_decide_eq_true_2 by eauto
    |rewrite bool_decide_eq_false_2 by (by intros [? ?]); apply runs_ret].
  cbn [when_]. rewrite lift_bind.
  destruct (truthy ex && negb (isinstance_list ex));
    [apply runs_errors_append | apply runs_ret].
Qed.

(** The run of [validate_config] on a configuration with both sections. *)
Lemma validate_config_sections c :
  sections_are_mappings (YDict c) = true →
  ∃ errors,
    validate_config (YDict c)
      = Ok (bool_decide (length (errors ++ ci_config_errors c) = 0),
            errors ++ ci_config_errors c, all_warnings (YDict c), YDict c) ∧
    Forall (λ e, e ≠ excludes_not_a_list) errors.
Proof.
  cbn [sections_are_mappings all_warnings].
  destruct (dict_get "metadata" c) as [[| | | | |m]|] eqn:Hm; try done.
  destruct (dict_get "apps" c) as [apps|] eqn:Happs; [|done].
  intros [Ha Hci]%andb_prop.
  destruct (validate_apps_runs apps Ha) as (es & Hes & HQ).
  exists es. split; [|done].
  unfold validate_config, validate_config_body.
  rewrite the_config_bind. cbn [st_config py_in]. rewrite lift_bind, (dict_has_true _ _ _ Hm).
  cbn [negb when_]. rewrite ret_bind, lift_bind, (dict_has_true _ _ _ Happs).
  cbn [negb when_]. rewrite ret_bind.
  rewrite the_errors_bind. cbn [st_errors]. rewrite bool_decide_eq_true_2 by done.
  cbn [negb py_getitem]. rewrite Hm, Happs, !lift_bind.
  rewrite (runs_then _ _ _ _ _ (validate_metadata_runs m)).
  rewrite (runs_then _ _ _ _ _ Hes).
  rewrite (runs_then _ _ _ _ _ (validate_ci_config_runs c Hci)).
  cbn [st_config st_errors st_warnings]. rewrite !app_nil_r, !app_nil_l.
  reflexivity.
Qed.

(** ** Auxiliary lemmas on the runs of the validator that return *)

Lemma V_bind_inv {A B} (m : V A) (k : A → V B) st b st'' :
  (m ≫= k) st = Ok (b, st'') →
  ∃ a st', m st = Ok (a, st') ∧ k a st' = Ok (b, st'').
Proof.
  unfold mbind, V_bind. destruct (m st) as [[a st']|]; [|done]. by exists a, st'.
Qed.

Lemma adds_ret {A} Q (a : A) : adds Q (mret a).
Proof.
  intros st a' st' [= <- <-]. split; [done|]. exists []. by rewrite app_nil_r.
Qed.

Lemma adds_bind {A B} Q (m : V A) (k : A → V B) :
  adds Q m → (∀ a, adds Q (k a)) → adds Q (m ≫= k).
Proof.
  intros Hm Hk st b st'' (a & st' & H1 & H2)%V_bind_inv.
  destruct (Hm _ _ _ H1) as (Hc1 & es1 & He1 & HQ1).
  destruct (Hk a _ _ _ H2) as (Hc2 & es2 & He2 & HQ2).
  split; [congruence|]. exists (es1 ++ es2).
  rewrite He2, He1, app_assoc. split; [done | by apply Forall_app].
Qed.

Lemma adds_lift {A} Q (r : result A) : adds Q (lift r).
Proof.
  intros st a st'. unfold lift. destruct r; [|done]. intros [= <- <-].
  split; [done|]. exists []. by rewrite app_nil_r.
Qed.

Lemma adds_errors_append (Q : string → Prop) msg : Q msg → adds Q (errors_append msg).
Proof.
  intros HQ st [] st' [= <-]. split; [done|]. exists [msg]. by split; [|constructor].
Qed.

Lemma adds_warnings_append Q msg : adds Q (warnings_append msg).
Proof.
  intros st [] st' [= <-]. split; [done|]. exists []. by rewrite app_nil_r.
Qed.

Lemma adds_when Q b step : adds Q step → adds Q (when_ b step).
Proof. destruct b; [done | intros _; apply adds_ret]. Qed.

Lemma adds_for_each_V {A} Q (xs : list A) (body : A → V ()) :
  (∀ x, adds Q (body x)) → adds Q (for_each_V xs body).
Proof.
  intros Hbody. induction xs as [|x xs IH]; [apply adds_ret|].
  cbn [for_each_V]. by apply adds_bind.
Qed.

Lemma adds_the_errors Q : adds Q the_errors.
Proof. intros st a st' [= <- <-]. split; [done|]. exists []. by rewrite app_nil_r. Qed.

Lemma adds_the_warnings Q : adds Q the_warnings.
Proof. intros st a st' [= <- <-]. split; [done|]. exists []. by rewrite app_nil_r. Qed.

Lemma adds_weaken {A} (Q Q' : string → Prop) (step : V A) :
  (∀ e, Q e → Q' e) → adds Q step → adds Q' step.
Proof.
  intros HQ H st a st' Hrun. destruct (H _ _ _ Hrun) as (Hc & es & He & Hes).
  split; [done|]. exists es. split; [done|]. by eapply Forall_impl.
Qed.

Ltac adds_steps :=
  repeat first
    [ apply adds_lift
    | apply adds_ret
    | apply adds_warnings_append
    | apply adds_when
    | apply adds_for_each_V; intros [? ?]
    | apply adds_bind; [|intros ?]
    | match goal with |- adds _ (if ?b then _ else _) => destruct b end ].

Lemma validate_metadata_adds metadata : adds (λ _, False) (validate_metadata metadata).
Proof. unfold validate_metadata. adds_steps. Qed.

Lemma validate_app_config_adds name app :
  adds (λ e, is_app_error e = true) (validate_app_config name app).
Proof.
  unfold validate_app_config. adds_steps;
    apply adds_errors_append; unfold is_app_error; by destruct name.
Qed.

Lemma validate_apps_adds apps :
  adds (λ e, e ≠ excludes_not_a_list) (validate_apps apps).
Proof.
  unfold validate_apps. destruct (negb (truthy apps)).
  - by apply adds_errors_append.
  - apply adds_bind; [apply adds_lift|]. intros items.
    apply adds_for_each_V. intros [name app].
    eapply adds_weaken; [|apply validate_app_config_adds].
    by intros e He ->.
Qed.

Lemma validate_ci_config_adds config : adds (λ _, True) (validate_ci_config config).
Proof. unfold validate_ci_config. adds_steps. by apply adds_errors_append. Qed.

(** What [validate_config] returns, whenever it returns: the configuration
    it was given, and [ok = true] exactly with an empty error list. *)
Lemma validate_config_body_verdict st ok errors warnings st' :
  validate_config_body st = Ok (ok, errors, warnings, st') →
  st_config st' = st_config st ∧ (ok = true ↔ errors = []).
Proof.
  unfold validate_config_body.
  intros (config & st0 & [= <- <-] & H)%V_bind_inv.
  apply V_bind_inv in H as (hm & st1 & H1 & H).
  apply V_bind_inv in H as ([] & st2 & H2 & H).
  apply V_bind_inv in H as (ha & st3 & H3 & H).
  apply V_bind_inv in H as ([] & st4 & H4 & H).
  apply V_bind_inv in H as (es & st5 & [= <- <-] & H).
  assert (st_config st4 = st_config st) as Hc4.
  { destruct (adds_lift (λ _, True) _ _ _ _ H1) as [<- _].
    destruct (adds_when (λ _, True) _ _ (adds_errors_append _ _ I) _ _ _ H2) as [<- _].
    destruct (adds_lift (λ _, True) _ _ _ _ H3) as [<- _].
    by destruct (adds_when (λ _, True) _ _ (adds_errors_append _ _ I) _ _ _ H4)
      as [<- _]. }
  destruct (bool_decide (st_errors st4 = [])) eqn:Hes; cbn [negb] in H.
  - apply V_bind_inv in H as (md & st6 & H6 & H).
    apply V_bind_inv in H as ([] & st7 & H7 & H).
    apply V_bind_inv in H as (apps & st8 & H8 & H).
    apply V_bind_inv in H as ([] & st9 & H9 & H).
    apply V_bind_inv in H as ([] & st10 & H10 & H).
    apply V_bind_inv in H as (es' & st11 & [= <- <-] & H).
    apply V_bind_inv in H as (ws' & st12 & [= <- <-] & H).
    injection H as <- <- <- <-. split.
    + destruct (adds_lift (λ _, True) _ _ _ _ H6) as [Hc6 _].
      destruct (adds_weaken _ (λ _, True) _ (λ _ _, I) (validate_metadata_adds md)
                  _ _ _ H7) as [Hc7 _].
      destruct (adds_lift (λ _, True) _ _ _ _ H8) as [Hc8 _].
      destruct (adds_weaken _ (λ _, True) _ (λ _ _, I) (validate_apps_adds apps)
                  _ _ _ H9) as [Hc9 _].
      destruct (validate_ci_config_adds _ _ _ _ H10) as [Hc10 _].
      congruence.
    + rewrite bool_decide_eq_true. apply length_zero_iff_nil.
  - apply V_bind_inv in H as (ws' & st6 & [= <- <-] & H).
    injection H as <- <- <- <-. split; [done|].
    apply bool_decide_eq_false in Hes. by split.
Qed.

(** [validate_config] on a configuration with both sections: the three
    checks in a row. *)
Lemma validate_config_checks c metadata apps :
  dict_get "metadata" c = Some metadata →
  dict_get "apps" c = Some apps →
  validate_config (YDict c)
  = '(r, st) ← (_ ← validate_metadata metadata;
                _ ← validate_apps apps;
                _ ← validate_ci_config (YDict c);
                errors ← the_errors;
                warnings ← the_warnings;
                mret (bool_decide (length errors = 0), errors, warnings))
                 (VState (YDict c) [] []);
    Ok (r, st_config st).
Proof.
  intros Hm Happs. unfold validate_config, validate_config_body.
  rewrite the_config_bind. cbn [st_config py_in].
  rewrite lift_bind, (dict_has_true _ _ _ Hm).
  cbn [negb when_]. rewrite ret_bind, lift_bind, (dict_has_true _ _ _ Happs).
  cbn [negb when_]. rewrite ret_bind.
  rewrite the_errors_bind. cbn [st_errors]. rewrite bool_decide_eq_true_2 by done.
  cbn [negb py_getitem]. by rewrite Hm, Happs, !lift_bind.
Qed.

(** ** Auxiliary lemmas on related runs *)

Lemma alike_bind {A A' B B'} (R : A → A' → Prop) (Q : B → B' → Prop)
    (m1 : result A) (m2 : result A') (f1 : A → result B) (f2 : A' → result B') :
  alike R m1 m2 →
  (∀ a a', R a a' → alike Q (f1 a) (f2 a')) →
  alike Q (m1 ≫= f1) (m2 ≫= f2).
Proof. destruct m1, m2; cbn; try done. intros H Hf. by apply Hf. Qed.

Lemma alike_refl {A} (r : result A) : alike eq r r.
Proof. by destruct r. Qed.

Lemma alike_eq {A} (r1 r2 : result A) : alike eq r1 r2 → r1 = r2.
Proof. destruct r1, r2; cbn; [congruence|done|done|congruence]. Qed.

Lemma for_each_alike {A S S'} (R : S → S' → Prop) (xs : list A)
    (body1 : A → S → result S) (body2 : A → S' → result S') s1 s2 :
  (∀ x t1 t2, x ∈ xs → R t1 t2 → alike R (body1 x t1) (body2 x t2)) →
  R s1 s2 →
  alike R (for_each xs body1 s1) (for_each xs body2 s2).
Proof.
  revert s1 s2. induction xs as [|x xs IH]; intros s1 s2 Hbody Hs; [done|].
  rewrite !for_each_cons. eapply alike_bind; [apply Hbody; [left | done]|].
  intros t1 t2 Ht. apply IH; [|done]. intros; apply Hbody; [by right | done].
Qed.

Lemma make_candidate_ext c1 c2 name app v bt :
  dict_get "metadata" c1 = dict_get "metadata" c2 →
  make_candidate (YDict c1) name app v bt = make_candidate (YDict c2) name app v bt.
Proof. intros H. unfold make_candidate. cbn [py_getitem]. by rewrite H. Qed.

(** The matrices of two configurations with the same metadata and apps
    are related as their exclusion lists relate the include lists. *)
Lemma generate_matrix_alike (R : list MatrixEntry → list MatrixEntry → Prop)
    c1 c2 excl1 excl2 :
  dict_get "metadata" c1 = dict_get "metadata" c2 →
  dict_get "apps" c1 = dict_get "apps" c2 →
  effective_excludes (YDict c1) = Ok excl1 →
  effective_excludes (YDict c2) = Ok excl2 →
  R [] [] →
  (∀ e inc1 inc2,
     R inc1 inc2 →
     alike (λ b1 b2 : bool, R (if b1 then inc1 else inc1 ++ [e])
                              (if b2 then inc2 else inc2 ++ [e]))
       (is_excluded excl1 e) (is_excluded excl2 e)) →
  alike R (generate_matrix (YDict c1)) (generate_matrix (YDict c2)).
Proof.
  intros Hm Happs He1 He2 Hnil Hexcl.
  unfold effective_excludes in He1, He2.
  apply bind_Ok_inv in He1 as (ci1 & Hci1 & He1).
  apply bind_Ok_inv in He1 as (ex1 & Hex1 & [= <-]).
  apply bind_Ok_inv in He2 as (ci2 & Hci2 & He2).
  apply bind_Ok_inv in He2 as (ex2 & Hex2 & [= <-]).
  unfold generate_matrix. cbn [py_getitem]. rewrite <- Hm, <- Happs.
  destruct (dict_get "metadata" c1) as [md|] eqn:Hmd; [|exact eq_refl]. rewrite !bind_Ok.
  destruct (py_get md "idf_versions" _) as [versions|]; [|exact eq_refl]. rewrite !bind_Ok.
  destruct (py_get md "build_types" _) as [bts|]; [|exact eq_refl]. rewrite !bind_Ok.
  destruct (build_idf_to_build_types versions bts) as [tbl|]; [|exact eq_refl].
  rewrite !bind_Ok, Hci1, Hci2, !bind_Ok, Hex1, Hex2, !bind_Ok.
  destruct (dict_get "apps" c1) as [apps|]; [|exact eq_refl]. rewrite !bind_Ok.
  destruct (py_items apps) as [items|]; [|exact eq_refl]. rewrite !bind_Ok.
  apply for_each_alike; [|done].
  intros [name app] inc1 inc2 _ Hinc. unfold app_entries.
  destruct (py_get app "ci_enabled" (YBool true)) as [ci|]; [|exact eq_refl].
  rewrite !bind_Ok. destruct (negb (truthy ci)); [done|].
  destruct (py_get app "idf_versions" versions) as [vs|]; [|exact eq_refl].
  rewrite !bind_Ok.
  destruct (effective_combinations app tbl vs) as [combos|]; [|exact eq_refl].
  rewrite !bind_Ok. unfold generate_entries.
  apply for_each_alike; [|done].
  intros [v bt] t1 t2 _ Ht.
  rewrite (make_candidate_ext c2 c1) by congruence.
  destruct (make_candidate (YDict c1) name app v bt) as [cand|]; [|exact eq_refl].
  rewrite !bind_Ok. eapply alike_bind; [by apply Hexcl|]. by intros b1 b2.
Qed.

Lemma excluded_by_app rules more e :
  excluded_by (rules ++ more) e = excluded_by rules e || excluded_by more e.
Proof. unfold excluded_by. apply existsb_app. Qed.

Lemma enumerate_from_fmap_bind {A A' B} (h : A → A') (g : nat → list B) k
    (vs : list A) :
  ('(i, v) ← enumerate_from k (h <$> vs); (λ b, (v, b)) <$> g i)
  = prod_map h id <$> ('(i, v) ← enumerate_from k vs; (λ b, (v, b)) <$> g i).
Proof.
  revert k. induction vs as [|v vs IH]; intros k; [done|].
  rewrite fmap_cons. cbn [enumerate_from]. rewrite !bind_cons, fmap_app, IH.
  f_equal. rewrite <- list_fmap_compose. by apply list_fmap_ext.
Qed.

(** ** Auxiliary lemmas on the parts of the matrix *)

Lemma for_each_app {A S} (xs ys : list A) (body : A → S → result S) s :
  for_each (xs ++ ys) body s = for_each xs body s ≫= for_each ys body.
Proof.
  revert s. induction xs as [|x xs IH]; intros s; [done|].
  rewrite <- app_comm_cons, !for_each_cons.
  destruct (body x s) as [s'|]; [|done]. rewrite !bind_Ok. apply IH.
Qed.

(** A loop whose body appends what a function of the element returns
    collects the returns of that function, in order. *)
Lemma for_each_collect {A B} (xs : list A) (body : A → list B → result (list B))
    (f : A → result (list B)) acc :
  (∀ x acc, x ∈ xs → body x acc = l ← f x; Ok (acc ++ l)) →
  for_each xs body acc
    = parts ← for_each xs (λ x parts, l ← f x; Ok (parts ++ [l])) [];
      Ok (acc ++ concat parts).
Proof.
  intros Hbody.
  assert (∀ parts0 acc0,
    for_each xs body (acc0 ++ concat parts0)
    = parts ← for_each xs (λ x parts, l ← f x; Ok (parts ++ [l])) parts0;
      Ok (acc0 ++ concat parts)) as Hgen.
  { induction xs as [|x xs IH]; intros parts0 acc0; [done|].
    rewrite !for_each_cons, Hbody by left.
    destruct (f x) as [l|]; [|done]. rewrite !bind_Ok.
    rewrite <- app_assoc.
    rewrite <- (app_nil_r l) at 1. change (l ++ []) with (concat [l]).
    rewrite <- concat_app. apply IH. intros; apply Hbody. by right. }
  specialize (Hgen [] acc). cbn [concat] in Hgen. by rewrite app_nil_r in Hgen.
Qed.

(** The collected parts, one for each element. *)
Lemma for_each_parts {A B} (xs : list A) (f : A → result (list B)) parts0 parts :
  for_each xs (λ x parts, l ← f x; Ok (parts ++ [l])) parts0 = Ok parts →
  ∃ new, parts = parts0 ++ new ∧ Forall2 (λ x l, f x = Ok l) xs new.
Proof.
  revert parts0. induction xs as [|x xs IH]; intros parts0.
  - intros [= <-]. exists []. by rewrite app_nil_r.
  - rewrite for_each_cons. intros (p & Hp & H)%bind_Ok_inv.
    apply bind_Ok_inv in Hp as (l & Hl & [= <-]).
    apply IH in H as (new & -> & Hnew).
    exists (l :: new). rewrite <- app_assoc. split; [done|]. by constructor.
Qed.

(** [generate_entries] appends to [include] what it yields from the empty
    list. *)
Lemma generate_entries_from_empty config excl name app combinations include :
  generate_entries config excl name app combinations include
  = added ← generate_entries config excl name app combinations [];
    Ok (include ++ added).
Proof.
  unfold generate_entries.
  rewrite (for_each_collect combinations _
    (λ '(idf_version, build_type),
       candidate ← make_candidate config name app idf_version build_type;
       excluded ← is_excluded excl candidate;
       Ok (if excluded : bool then [] else [candidate])) include).
  2:{ intros [v bt] acc _. destruct (make_candidate _ _ _ _ _) as [cand|]; [|done].
      rewrite !bind_Ok. destruct (is_excluded excl cand) as [[]|]; [| |done];
        rewrite !bind_Ok; by rewrite ?app_nil_r. }
  rewrite (for_each_collect combinations _
    (λ '(idf_version, build_type),
       candidate ← make_candidate config name app idf_version build_type;
       excluded ← is_excluded excl candidate;
       Ok (if excluded : bool then [] else [candidate])) []).
  2:{ intros [v bt] acc _. destruct (make_candidate _ _ _ _ _) as [cand|]; [|done].
      rewrite !bind_Ok. destruct (is_excluded excl cand) as [[]|]; [| |done];
        rewrite !bind_Ok; by rewrite ?app_nil_r. }
  destruct (for_each combinations _ []) as [parts|]; [|done].
  by rewrite !bind_Ok.
Qed.

Lemma app_entries_from_empty config tbl versions excl name app include :
  app_entries config tbl versions excl name app include
  = added ← app_entries config tbl versions excl name app [];
    Ok (include ++ added).
Proof.
  unfold app_entries.
  destruct (py_get app "ci_enabled" (YBool true)) as [ci|]; [|done].
  rewrite !bind_Ok. destruct (negb (truthy ci)).
  { by rewrite bind_Ok, app_nil_r. }
  destruct (py_get app "idf_versions" versions) as [vs|]; [|done].
  rewrite !bind_Ok.
  destruct (effective_combinations app tbl vs) as [combos|]; [|done].
  rewrite !bind_Ok. apply generate_entries_from_empty.
Qed.

(** What one app contributes: nothing when it is not CI-enabled, and
    otherwise candidates of that app for string versions. *)
Lemma app_entries_contribution c m tbl versions excl name app added :
  dict_get "metadata" c = Some (YDict m) →
  app_entries (YDict c) tbl versions excl name app [] = Ok added →
  ∃ a,
    app = YDict a ∧
    (truthy (default (YBool true) (dict_get "ci_enabled" a)) = false → added = []) ∧
    Forall (λ e, e = entry_of (target_of m) name (source_of a)
                         (idf_version e, build_type e)) added.
Proof.
  intros Hm. unfold app_entries.
  intros (ci & Hci & H)%bind_Ok_inv.
  destruct app as [| | | | |a]; try done. injection Hci as <-.
  exists a. split; [done|].
  destruct (truthy _) eqn:Ht; cbn [negb] in H.
  - split; [done|].
    apply bind_Ok_inv in H as (vs & _ & H).
    apply bind_Ok_inv in H as (combos & _ & H).
    revert H. unfold generate_entries. apply for_each_invariant; [|constructor].
    intros [v bt] t t' _ Ht' (cand & Hc & H)%bind_Ok_inv.
    apply bind_Ok_inv in H as (excluded & _ & [= <-]).
    destruct excluded; [done|].
    apply Forall_app; split; [done|]. apply Forall_singleton.
    destruct v; try done.
    rewrite (make_candidate_dict c m) in Hc by done. by injection Hc as <-.
  - injection H as <-. split; [done | constructor].
Qed.

(** The matrix is the concatenation of what each app contributes, in the
    order of [config['apps']]. *)
Lemma generate_matrix_parts config entries :
  generate_matrix config = Ok entries →
  ∃ c m apps tbl versions excl parts,
    config = YDict c ∧
    dict_get "metadata" c = Some (YDict m) ∧
    dict_get "apps" c = Some (YDict apps) ∧
    Forall2 (λ '(name, app) part,
               app_entries (YDict c) tbl versions excl name app [] = Ok part)
      apps parts ∧
    entries = concat parts.
Proof.
  intros (c & m & apps & ci & tbl & versions & -> & Hm & Happs & Hci & Hloop)
           %generate_matrix_inv.
  set (excl := let excludes := default (YList []) (dict_get "exclude_combinations" ci)
               in if truthy excludes then excludes else YList []) in Hloop.
  rewrite (for_each_collect apps _
    (λ '(name, app), app_entries (YDict c) tbl versions excl name app [])) in Hloop.
  2:{ intros [name app] acc _. apply app_entries_from_empty. }
  apply bind_Ok_inv in Hloop as (parts & Hparts & [= <-]).
  apply for_each_parts in Hparts as (new & -> & Hnew).
  exists c, m, apps, tbl, versions, excl, new. repeat split; try done.
  eapply Forall2_impl; [exact Hnew|]. by intros [name app] part.
Qed.

(** [generate_matrix] on a configuration with both sections: the table
    of the global build types, the exclusion list, and the loop over the
    apps. *)
Lemma generate_matrix_resolved c m apps :
  dict_get "metadata" c = Some (YDict m) →
  dict_get "apps" c = Some (YDict apps) →
  generate_matrix (YDict c)
  = (tbl ← build_idf_to_build_types (global_idf_versions_of m)
             (global_build_types_of m);
     excl ← effective_excludes (YDict c);
     for_each apps
       (λ '(name, app) include,
          app_entries (YDict c) tbl (global_idf_versions_of m) excl name app include)
       []).
Proof.
  intros Hm Happs.
  unfold generate_matrix, effective_excludes, global_idf_versions_of,
    global_build_types_of.
  cbn [py_getitem]. rewrite Hm, Happs, !bind_Ok. cbn [py_get]. rewrite !bind_Ok.
  destruct (build_idf_to_build_types _ _) as [tbl|]; [|done]. rewrite !bind_Ok.
  by destruct (default (YDict []) (dict_get "ci_config" c)).
Qed.

(** In a concatenation of parts, one for each app and each with entries
    of its app only, the entries with the name of an app are the part of
    that app. *)
Lemma app_part_of_matrix (f : string → yaml → result (list MatrixEntry))
    (apps : list (string * yaml)) parts name app :
  Forall2 (λ '(n, a) part, f n a = Ok part) apps parts →
  (∀ n a part, (n, a) ∈ apps → f n a = Ok part →
               Forall (λ e, app_name e = n) part) →
  NoDup apps.*1 →
  (name, app) ∈ apps →
  f name app = Ok (filter (λ e, app_name e = name) (concat parts)).
Proof.
  intros Hparts Hnames Hnd Hin.
  assert (∀ (l : list MatrixEntry) n,
            Forall (λ e, app_name e = n) l → n ≠ name →
            filter (λ e, app_name e = name) l = []) as Hnone.
  { intros l n Hl Hn. induction Hl as [|e l He _ IH]; [done|].
    rewrite filter_cons, decide_False by congruence. done. }
  assert (∀ l : list MatrixEntry,
            Forall (λ e, app_name e = name) l →
            filter (λ e, app_name e = name) l = l) as Hall.
  { intros l Hl. induction Hl as [|e l He _ IH]; [done|].
    by rewrite filter_cons, decide_True, IH. }
  induction Hparts as [|[n a] part apps parts Hpart Hparts IH];
    [by apply elem_of_nil in Hin|].
  rewrite fmap_cons in Hnd. cbn [fst] in Hnd. apply NoDup_cons in Hnd as [Hn Hnd].
  cbn [concat]. rewrite filter_app.
  pose proof (Hnames n a part ltac:(left) Hpart) as Hpart_names.
  apply elem_of_cons in Hin as [[= -> ->]|Hin].
  - rewrite Hpart, (Hall part) by done.
    assert (filter (λ e, app_name e = n) (concat parts) = []) as ->;
      [|by rewrite app_nil_r].
    clear IH Hpart Hpart_names. induction Hparts as [|[n' a'] p apps parts Hp _ IH];
      [done|].
    rewrite fmap_cons in Hn, Hnd. cbn [fst] in Hn, Hnd.
    apply not_elem_of_cons in Hn as [Hne Hn]. apply NoDup_cons in Hnd as [_ Hnd].
    cbn [concat]. rewrite filter_app, IH; [| |done|done].
    + rewrite app_nil_r. apply (Hnone p n'); [|done].
      apply (Hnames n' a' p); [right; left | done].
    + intros n'' a'' p'' [Hl|Hr]%elem_of_cons Hf; apply (Hnames n'' a'' p''); try done.
      * rewrite Hl. left.
      * right. by right.
  - assert (n ≠ name) as Hne.
    { intros ->. apply Hn. apply list_elem_of_fmap. by exists (name, app). }
    rewrite (Hnone part n), app_nil_l by done.
    apply IH; [|done|done]. intros n' a' p' Hin' Hf. apply (Hnames n' a' p'); [|done].
    by right.
Qed.

(** The entries of a CI-enabled app in the returned matrix: the candidates
    of its combinations that no rule of the exclusion list matches. *)
Lemma app_entries_in_matrix c m apps rules name a
    (combinations : list (string * yaml)) entries :
  dict_get "metadata" c = Some (YDict m) →
  dict_get "apps" c = Some (YDict apps) →
  NoDup apps.*1 →
  effective_excludes (YDict c) = Ok (YList (YDict <$> rules)) →
  (name, YDict a) ∈ apps →
  truthy (default (YBool true) (dict_get "ci_enabled" a)) = true →
  (∀ tbl,
     build_idf_to_build_types (global_idf_versions_of m) (global_build_types_of m)
       = Ok tbl →
     effective_combinations (YDict a) tbl
       (default (global_idf_versions_of m) (dict_get "idf_versions" a))
       = Ok (prod_map YStr id <$> combinations)) →
  generate_matrix (YDict c) = Ok entries →
  filter (λ e, app_name e = name) entries
  = filter (λ e, Forall (λ r, rule_matches e r = false) rules)
      (entry_of (target_of m) name (source_of a) <$> combinations).
Proof.
  intros Hm Happs Hnd Hexcl Hin Hon Hcomb Hgen.
  rewrite (generate_matrix_resolved c m apps Hm Happs) in Hgen.
  apply bind_Ok_inv in Hgen as (tbl & Htbl & Hgen).
  specialize (Hcomb tbl Htbl).
  rewrite Hexcl, bind_Ok in Hgen.
  rewrite (for_each_collect apps _
    (λ '(n, app), app_entries (YDict c) tbl (global_idf_versions_of m)
                    (YList (YDict <$> rules)) n app [])) in Hgen.
  2:{ intros [n app] acc _. apply app_entries_from_empty. }
  apply bind_Ok_inv in Hgen as (parts & Hparts & [= <-]).
  apply for_each_parts in Hparts as (new & -> & Hnew). cbn [app].
  assert (app_entries (YDict c) tbl (global_idf_versions_of m)
            (YList (YDict <$> rules)) name (YDict a) []
          = Ok (filter (λ e, app_name e = name) (concat new))) as Hpart.
  { apply (app_part_of_matrix
             (λ n app, app_entries (YDict c) tbl (global_idf_versions_of m)
                         (YList (YDict <$> rules)) n app []) apps new);
      try done.
    - eapply Forall2_impl; [exact Hnew|]. by intros [n app] part.
    - intros n app part _ Hp.
      destruct (app_entries_contribution c m tbl _ _ n app part Hm Hp)
        as (a' & -> & _ & Hall).
      eapply Forall_impl; [exact Hall|]. by intros e ->. }
  revert Hpart. unfold app_entries. cbn [py_get]. rewrite bind_Ok, Hon. cbn [negb].
  rewrite bind_Ok. cbn [default from_option id] in Hcomb |- *.
  rewrite Hcomb, bind_Ok, (generate_entries_filter c m) by done.
  by intros [= <-].
Qed.

(** ** Resolution of the build matrix *)

(** An app whose effective version list is empty adds no entry, whatever
    its build types are. *)
Lemma empty_version_list_no_entries config tbl versions excl name a include :
  default versions (dict_get "idf_versions" a) = YList [] →
  app_entries config tbl versions excl name (YDict a) include = Ok include.
Proof.
  intros Hvs. unfold app_entries. cbn [py_get]. rewrite bind_Ok.
  destruct (negb _); [done|]. by rewrite bind_Ok, Hvs.
Qed.

(** With a version to pair it with, the empty list as [build_types] makes
    [app_build_types[0]] raise. *)
Lemma empty_build_types_index_error a tbl v versions :
  dict_get "build_types" a = Some (YList []) →
  effective_combinations (YDict a) tbl (YList (v :: versions)) = Raise IndexError.
Proof.
  intros Hbt. unfold effective_combinations. cbn [py_iter]. rewrite bind_Ok.
  cbn [enumerate enumerate_from]. rewrite for_each_cons.
  unfold version_build_types. cbn [py_in]. rewrite bind_Ok.
  rewrite (dict_has_true _ _ _ Hbt). cbn [py_getitem]. by rewrite Hbt.
Qed.

(** C1: an app that declares [build_types] as the empty list does not
    contribute zero entries: with a version to build, [generate_matrix]
    raises [IndexError] at [app_build_types[0]], on a configuration that
    [validate_config] accepts without error. *)
Theorem empty_build_types_raises :
  generate_matrix empty_build_types_config = Raise IndexError ∧
  ∃ warnings,
    validate_config empty_build_types_config
      = Ok (true, [], warnings, empty_build_types_config).
Proof. split; [|eexists]; vm_compute; reflexivity. Qed.

(** C2, as stated, fails: with an exclusion rule on [Debug], the entries of
    an app with the flat build types [Debug], [Release] are not every
    (version, build type) pair. *)
Lemma flat_build_types_excluded_pair :
  ∃ entries,
    generate_matrix flat_excluded_config = Ok entries ∧
    combination_of <$> entries
      ≠ cross_product ["release/v5.5"] [YStr "Debug"; YStr "Release"].
Proof. eexists. split; [vm_compute; reflexivity | done]. Qed.

(** C2, amended: for a CI-enabled app that declares [build_types] as a
    non-empty flat list of strings, the combinations are every version of
    the effective version list crossed with the flat list, and the entries
    appended for the app are the candidates of those combinations that no
    exclusion rule matches. *)
Theorem flat_build_types_cross_product c m a tbl global_idf_versions rules name
    include (versions build_types : list string) :
  dict_get "metadata" c = Some (YDict m) →
  truthy (default (YBool true) (dict_get "ci_enabled" a)) = true →
  default global_idf_versions (dict_get "idf_versions" a)
    = YList (YStr <$> versions) →
  dict_get "build_types" a = Some (YList (YStr <$> build_types)) →
  build_types ≠ [] →
  effective_combinations (YDict a) tbl (YList (YStr <$> versions))
    = Ok (cross_product (YStr <$> versions) (YStr <$> build_types)) ∧
  app_entries (YDict c) tbl global_idf_versions (YList (YDict <$> rules))
    name (YDict a) include
    = Ok (include ++
          filter (λ e, Forall (λ r, rule_matches e r = false) rules)
            (entry_of (target_of m) name "app"
               <$> cross_product versions (YStr <$> build_types))).
Proof.
  intros Hm Hci Hvs Hbt Hne.
  assert (effective_combinations (YDict a) tbl (YList (YStr <$> versions))
          = Ok (cross_product (YStr <$> versions) (YStr <$> build_types))) as Hcomb.
  { rewrite (effective_combinations_collect _ _ _ (λ _ _, YStr <$> build_types)).
    - f_equal. unfold enumerate, cross_product.
      by rewrite (enumerate_from_bind (λ v, (λ b, (v, b)) <$> (YStr <$> build_types))).
    - intros i v _. by apply version_build_types_flat. }
  split; [done|].
  unfold app_entries. cbn [py_get]. rewrite bind_Ok, Hci. cbn [negb].
  rewrite bind_Ok, Hvs, Hcomb, bind_Ok, cross_product_fmap.
  rewrite (generate_entries_filter c m) by done.
  unfold source_of. by rewrite (dict_has_true _ _ _ Hbt).
Qed.

Lemma flat_build_types_cross_product_witness :
  app_entries flat_excluded_config ∅ (YList [YStr "release/v5.4"; YStr "release/v5.5"])
    (YList [YDict [("build_type", YStr "Debug")]]) "gpio_test"
    (YDict [("build_types", YList [YStr "Debug"; YStr "Release"])]) []
  = Ok [entry_of (YStr "esp32c6") "gpio_test" "app" ("release/v5.4", YStr "Release");
        entry_of (YStr "esp32c6") "gpio_test" "app" ("release/v5.5", YStr "Release")].
Proof.
  apply (proj2 (flat_build_types_cross_product
                  [ ("metadata", YDict [("idf_versions", YList [YStr "release/v5.5"])]);
                    ("apps",
                     YDict [("gpio_test",
                             YDict [("build_types",
                                     YList [YStr "Debug"; YStr "Release"])])]);
                    ("ci_config",
                     YDict [("exclude_combinations",
                             YList [YDict [("build_type", YStr "Debug")]])]) ]
                  [("idf_versions", YList [YStr "release/v5.5"])]
                  [("build_types", YList [YStr "Debug"; YStr "Release"])]
                  ∅ (YList [YStr "release/v5.4"; YStr "release/v5.5"])
                  [[("build_type", YStr "Debug")]] "gpio_test" []
                  ["release/v5.4"; "release/v5.5"] ["Debug"; "Release"]
                  eq_refl eq_refl eq_refl eq_refl ltac:(discriminate))).
Defined.

(** C3: for an app that declares [build_types] as a list of lists, the
    build types of the version at position [i] of the app's effective
    version list are the list at position [i] of [build_types], and
    [Debug], [Release] when [i] is out of range: these are the
    combinations of the app, and the entries appended for a CI-enabled app,
    which are its entries in the matrix that [generate_matrix] returns,
    are the candidates of those combinations that no exclusion rule
    matches. *)
Theorem nested_build_types_by_position a tbl (sets : list (list yaml)) :
  dict_get "build_types" a = Some (YList (YList <$> sets)) →
  sets ≠ [] →
  (∀ i v build_types,
     sets !! i = Some build_types →
     version_build_types (YDict a) tbl i v = Ok build_types) ∧
  (∀ i v,
     length sets ≤ i →
     version_build_types (YDict a) tbl i v = Ok [YStr "Debug"; YStr "Release"]) ∧
  (∀ versions : list yaml,
     effective_combinations (YDict a) tbl (YList versions)
       = Ok ('(i, v) ← enumerate versions;
             (λ b, (v, b)) <$> nth i sets [YStr "Debug"; YStr "Release"])) ∧
  (∀ c m global_idf_versions rules name include (versions : list string),
     dict_get "metadata" c = Some (YDict m) →
     truthy (default (YBool true) (dict_get "ci_enabled" a)) = true →
     default global_idf_versions (dict_get "idf_versions" a)
       = YList (YStr <$> versions) →
     app_entries (YDict c) tbl global_idf_versions (YList (YDict <$> rules))
       name (YDict a) include
     = Ok (include ++
           filter (λ e, Forall (λ r, rule_matches e r = false) rules)
             (entry_of (target_of m) name "app"
                <$> ('(i, v) ← enumerate versions;
                     (λ b, (v, b)) <$> nth i sets [YStr "Debug"; YStr "Release"])))) ∧
  (∀ c m apps rules name entries (versions : list string),
     dict_get "metadata" c = Some (YDict m) →
     dict_get "apps" c = Some (YDict apps) →
     NoDup apps.*1 →
     effective_excludes (YDict c) = Ok (YList (YDict <$> rules)) →
     (name, YDict a) ∈ apps →
     truthy (default (YBool true) (dict_get "ci_enabled" a)) = true →
     default (global_idf_versions_of m) (dict_get "idf_versions" a)
       = YList (YStr <$> versions) →
     generate_matrix (YDict c) = Ok entries →
     filter (λ e, app_name e = name) entries
     = filter (λ e, Forall (λ r, rule_matches e r = false) rules)
         (entry_of (target_of m) name "app"
            <$> ('(i, v) ← enumerate versions;
                 (λ b, (v, b)) <$> nth i sets [YStr "Debug"; YStr "Release"]))).
Proof.
  intros Hbt Hne.
  assert (∀ versions : list yaml,
            effective_combinations (YDict a) tbl (YList versions)
            = Ok ('(i, v) ← enumerate versions;
                  (λ b, (v, b)) <$> nth i sets [YStr "Debug"; YStr "Release"]))
    as Hcomb.
  { intros versions.
    apply (effective_combinations_collect _ _ _
             (λ i _, nth i sets [YStr "Debug"; YStr "Release"])).
    intros i v _. by apply version_build_types_nested. }
  split; [|split; [|split; [exact Hcomb|split]]].
  - intros i v bts Hi. rewrite (version_build_types_nested a tbl sets) by done.
    f_equal. by apply nth_lookup_Some.
  - intros i v Hi. rewrite (version_build_types_nested a tbl sets) by done.
    f_equal. by apply nth_overflow.
  - intros c m global_idf_versions rules name include versions Hm Hci Hvs.
    unfold app_entries. cbn [py_get]. rewrite bind_Ok, Hci. cbn [negb].
    rewrite bind_Ok, Hvs, Hcomb, bind_Ok. unfold enumerate.
    rewrite (enumerate_from_fmap_bind YStr
               (λ i, nth i sets [YStr "Debug"; YStr "Release"])).
    rewrite (generate_entries_filter c m) by done.
    unfold source_of. by rewrite (dict_has_true _ _ _ Hbt).
  - intros c m apps rules name entries versions Hm Happs Hnd Hexcl Hin Hon Hvs Hgen.
    assert (source_of a = "app") as <-.
    { unfold source_of. by rewrite (dict_has_true _ _ _ Hbt). }
    apply (app_entries_in_matrix c m apps rules name a _ entries); try done.
    intros tbl' _. rewrite Hvs.
    assert (∀ versions' : list yaml,
              effective_combinations (YDict a) tbl' (YList versions')
              = Ok ('(i, v) ← enumerate versions';
                    (λ b, (v, b)) <$> nth i sets [YStr "Debug"; YStr "Release"]))
      as ->.
    { intros versions'.
      apply (effective_combinations_collect _ _ _
               (λ i _, nth i sets [YStr "Debug"; YStr "Release"])).
      intros i v _. by apply version_build_types_nested. }
    unfold enumerate.
    by rewrite (enumerate_from_fmap_bind YStr
                  (λ i, nth i sets [YStr "Debug"; YStr "Release"])).
Qed.

Lemma nested_build_types_by_position_witness :
  app_entries
    (YDict [("metadata", YDict [("target", YStr "esp32s3")])]) ∅
    (YList [YStr "release/v5.5"; YStr "release/v5.4"; YStr "release/v5.3"])
    (YList [YDict [("idf_version", YStr "release/v5.5"); ("build_type", YStr "Debug")]])
    "gpio_test"
    (YDict [("build_types",
             YList [YList [YStr "Debug"; YStr "Release"]; YList [YStr "Debug"]])])
    []
  = Ok [entry_of (YStr "esp32s3") "gpio_test" "app" ("release/v5.5", YStr "Release");
        entry_of (YStr "esp32s3") "gpio_test" "app" ("release/v5.4", YStr "Debug");
        entry_of (YStr "esp32s3") "gpio_test" "app" ("release/v5.3", YStr "Debug");
        entry_of (YStr "esp32s3") "gpio_test" "app" ("release/v5.3", YStr "Release")] ∧
  filter (λ e, app_name e = "gpio_test")
    [entry_of (YStr "esp32c6") "adc_test" "global" ("release/v5.5", YStr "Debug");
     entry_of (YStr "esp32c6") "adc_test" "global" ("release/v5.5", YStr "Release");
     entry_of (YStr "esp32c6") "gpio_test" "app" ("release/v5.4", YStr "Debug");
     entry_of (YStr "esp32c6") "gpio_test" "app" ("release/v5.4", YStr "Release");
     entry_of (YStr "esp32c6") "gpio_test" "app" ("release/v5.5", YStr "Debug");
     entry_of (YStr "esp32c6") "gpio_test" "app" ("release/v5.3", YStr "Debug");
     entry_of (YStr "esp32c6") "gpio_test" "app" ("release/v5.3", YStr "Release")]
  = filter (λ e, Forall (λ r, rule_matches e r = false) [])
      (entry_of (YStr "esp32c6") "gpio_test" "app"
         <$> ('(i, v) ← enumerate ["release/v5.4"; "release/v5.5"; "release/v5.3"];
              (λ b, (v, b))
                <$> nth i [[YStr "Debug"; YStr "Release"]; [YStr "Debug"]]
                      [YStr "Debug"; YStr "Release"])).
Proof.
  pose proof (nested_build_types_by_position
                [("idf_versions",
                  YList [YStr "release/v5.4"; YStr "release/v5.5"; YStr "release/v5.3"]);
                 ("build_types",
                  YList [YList [YStr "Debug"; YStr "Release"]; YList [YStr "Debug"]])]
                ∅ [[YStr "Debug"; YStr "Release"]; [YStr "Debug"]]
                eq_refl ltac:(discriminate)) as (_ & _ & _ & _ & Hmatrix).
  split.
  - apply (proj1 (proj2 (proj2 (proj2 (nested_build_types_by_position
                    [("build_types",
                      YList [YList [YStr "Debug"; YStr "Release"];
                             YList [YStr "Debug"]])]
                    ∅ [[YStr "Debug"; YStr "Release"]; [YStr "Debug"]]
                    eq_refl ltac:(discriminate)))))
             [("metadata", YDict [("target", YStr "esp32s3")])]
             [("target", YStr "esp32s3")]
             (YList [YStr "release/v5.5"; YStr "release/v5.4"; YStr "release/v5.3"])
             [[("idf_version", YStr "release/v5.5"); ("build_type", YStr "Debug")]]
             "gpio_test" []
             ["release/v5.5"; "release/v5.4"; "release/v5.3"]
             eq_refl eq_refl eq_refl).
  - apply (Hmatrix
      [ ("metadata", YDict [("idf_versions", YList [YStr "release/v5.5"])]);
        ("apps",
         YDict [("adc_test", YDict []);
                ("gpio_test",
                 YDict [("idf_versions",
                         YList [YStr "release/v5.4"; YStr "release/v5.5";
                                YStr "release/v5.3"]);
                        ("build_types",
                         YList [YList [YStr "Debug"; YStr "Release"];
                                YList [YStr "Debug"]])])]) ]
      [("idf_versions", YList [YStr "release/v5.5"])]
      [("adc_test", YDict []);
       ("gpio_test",
        YDict [("idf_versions",
                YList [YStr "release/v5.4"; YStr "release/v5.5"; YStr "release/v5.3"]);
               ("build_types",
                YList [YList [YStr "Debug"; YStr "Release"]; YList [YStr "Debug"]])])]
      [] "gpio_test"
      [entry_of (YStr "esp32c6") "adc_test" "global" ("release/v5.5", YStr "Debug");
       entry_of (YStr "esp32c6") "adc_test" "global" ("release/v5.5", YStr "Release");
       entry_of (YStr "esp32c6") "gpio_test" "app" ("release/v5.4", YStr "Debug");
       entry_of (YStr "esp32c6") "gpio_test" "app" ("release/v5.4", YStr "Release");
       entry_of (YStr "esp32c6") "gpio_test" "app" ("release/v5.5", YStr "Debug");
       entry_of (YStr "esp32c6") "gpio_test" "app" ("release/v5.3", YStr "Debug");
       entry_of (YStr "esp32c6") "gpio_test" "app" ("release/v5.3", YStr "Release")]
      ["release/v5.4"; "release/v5.5"; "release/v5.3"]
      eq_refl eq_refl).
    + cbn. apply (bool_decide_unpack (NoDup ["adc_test"; "gpio_test"])).
      vm_compute. reflexivity.
    + reflexivity.
    + right. left.
    + reflexivity.
    + reflexivity.
    + vm_compute. reflexivity.
Defined.

(** C8: every entry of the matrix belongs to an app of the configuration;
    its [config_source] is ["global"] when that app has neither the key
    [idf_versions] nor the key [build_types], and ["app"] when it has
    either. *)
Theorem config_source_provenance config entries e :
  generate_matrix config = Ok entries →
  e ∈ entries →
  ∃ c apps a,
    config = YDict c ∧ dict_get "apps" c = Some (YDict apps) ∧
    (app_name e, YDict a) ∈ apps ∧
    (dict_has "idf_versions" a = false → dict_has "build_types" a = false →
     config_source e = "global") ∧
    (dict_has "idf_versions" a = true ∨ dict_has "build_types" a = true →
     config_source e = "app").
Proof.
  intros (c & m & apps & ci & tbl & versions & -> & Hm & Happs & Hci & Hloop)
           %generate_matrix_inv He.
  assert (Forall (λ e, ∃ a, (app_name e, YDict a) ∈ apps ∧
                            config_source e = source_of a) entries) as Hall.
  { revert Hloop. apply for_each_invariant; [|constructor].
    intros [name app] t t' Hin Ht. apply app_entries_invariant; [|done].
    intros a v bt e' -> [<- ->]%make_candidate_inv. by exists a. }
  eapply Forall_forall in Hall as (a & Hin & Hsrc); [|done].
  exists c, apps, a. repeat split; try done; rewrite Hsrc; unfold source_of.
  - by intros -> ->.
  - intros [->| ->]; [by destruct (dict_has "build_types" a) | done].
Qed.

Lemma config_source_provenance_witness :
  ∃ c apps a,
    flat_excluded_config = YDict c ∧ dict_get "apps" c = Some (YDict apps) ∧
    ("gpio_test", YDict a) ∈ apps ∧
    (dict_has "idf_versions" a = false → dict_has "build_types" a = false →
     "app" = "global") ∧
    (dict_has "idf_versions" a = true ∨ dict_has "build_types" a = true →
     "app" = "app").
Proof.
  apply (config_source_provenance flat_excluded_config
           [entry_of (YStr "esp32c6") "gpio_test" "app" ("release/v5.5", YStr "Release")]
           (entry_of (YStr "esp32c6") "gpio_test" "app" ("release/v5.5", YStr "Release"))).
  - vm_compute. reflexivity.
  - left.
Defined.

(** C10: a rule with no fields matches every candidate, and a rule list
    that holds one leaves the matrix empty: [generate_matrix] returns the
    empty list whenever it returns, and it returns on every configuration
    of the expected shape. *)
Theorem empty_rule_excludes_everything c ci rules :
  dict_get "ci_config" c = Some (YDict ci) →
  dict_get "exclude_combinations" ci = Some (YList rules) →
  YDict [] ∈ rules →
  (∀ e, rule_matches e [] = true) ∧
  (∀ entries, generate_matrix (YDict c) = Ok entries → entries = []) ∧
  (well_shaped (YDict c) = true → generate_matrix (YDict c) = Ok []).
Proof.
  intros Hci Hex Hin.
  assert (∀ entries, generate_matrix (YDict c) = Ok entries → entries = [])
    as Hempty.
  { intros entries
      (c' & m & apps & ci' & tbl & versions & [= <-] & Hm & Happs & Hci' & Hloop)
        %generate_matrix_inv.
    rewrite Hci in Hci'. injection Hci' as <-. rewrite Hex in Hloop.
    cbn [default from_option id] in Hloop.
    assert (truthy (YList rules) = true) as Ht by by destruct rules; [inversion Hin|].
    rewrite Ht in Hloop. revert Hloop.
    apply (for_each_invariant (λ t, t = [])); [|done].
    intros [name app] t t' _ -> H. by eapply app_entries_empty_rule. }
  split; [done|]. split; [done|].
  intros [entries He]%generate_matrix_total. by rewrite (Hempty _ He) in He.
Qed.

Lemma empty_rule_excludes_everything_witness :
  generate_matrix empty_rule_config = Ok [].
Proof.
  apply (proj2 (proj2 (empty_rule_excludes_everything
    [ ("metadata",
       YDict [("idf_versions", YList [YStr "release/v5.5"]);
              ("build_types", YList [YList [YStr "Debug"; YStr "Release"]])]);
      ("apps", YDict [("gpio_test", YDict [])]);
      ("ci_config",
       YDict [("exclude_combinations",
               YList [YDict [("app_name", YStr "adc_test")]; YDict []])]) ]
    [("exclude_combinations",
        YList [YDict [("app_name", YStr "adc_test")]; YDict []])]
    [YDict [("app_name", YStr "adc_test")]; YDict []]
    eq_refl eq_refl ltac:(right; left)))).
  reflexivity.
Defined.

(** ** Exclusion rules *)

(** C7: a rule matches a candidate exactly when every field of the rule is
    a field of the candidate with an equal value; the match depends only
    on the fields the rule names; a rule that names a field the candidate
    does not have never matches; a candidate is excluded exactly when some
    rule matches it, and the entries appended are the candidates that no
    rule matches; so the matrix that [generate_matrix] returns for a
    configuration with the rules [exclude_combinations] is the matrix of
    the same metadata and apps without a [ci_config], less the entries
    that some rule matches, and no entry of it matches a rule; and the
    entries of a CI-enabled app in the returned matrix are the candidates
    of the combinations of that app that no rule matches. *)
Theorem exclusion_rule_matching (entry : MatrixEntry) (rule : list (string * yaml)) :
  (rule_matches entry rule = true ↔
   ∀ k v, (k, v) ∈ rule →
          ∃ x, dict_get k (entry_dict entry) = Some x ∧ py_eq x v = true) ∧
  (∀ entry',
     (∀ k v, (k, v) ∈ rule →
             dict_get k (entry_dict entry') = dict_get k (entry_dict entry)) →
     rule_matches entry' rule = rule_matches entry rule) ∧
  (∀ k v, (k, v) ∈ rule → dict_get k (entry_dict entry) = None →
          rule_matches entry rule = false) ∧
  (∀ rules, ∃ excluded,
     is_excluded (YList (YDict <$> rules)) entry = Ok excluded ∧
     (excluded = true ↔ ∃ r, r ∈ rules ∧ rule_matches entry r = true)) ∧
  (∀ c m a name rules (combinations : list (string * yaml)) include,
     dict_get "metadata" c = Some (YDict m) →
     generate_entries (YDict c) (YList (YDict <$> rules)) name (YDict a)
       (prod_map YStr id <$> combinations) include
     = Ok (include ++
           filter (λ e, Forall (λ r, rule_matches e r = false) rules)
             (entry_of (target_of m) name (source_of a) <$> combinations))) ∧
  (∀ c c0 ci rules,
     dict_get "ci_config" c = Some (YDict ci) →
     dict_get "exclude_combinations" ci = Some (YList (YDict <$> rules)) →
     dict_get "metadata" c0 = dict_get "metadata" c →
     dict_get "apps" c0 = dict_get "apps" c →
     dict_get "ci_config" c0 = None →
     generate_matrix (YDict c)
     = (entries ← generate_matrix (YDict c0);
        Ok (filter (λ e, Forall (λ r, rule_matches e r = false) rules) entries)) ∧
     ∀ entries,
       generate_matrix (YDict c) = Ok entries →
       Forall (λ e, Forall (λ r, rule_matches e r = false) rules) entries) ∧
  (∀ c m apps ci rules tbl name a (combinations : list (string * yaml)) entries,
     dict_get "metadata" c = Some (YDict m) →
     dict_get "apps" c = Some (YDict apps) →
     NoDup apps.*1 →
     dict_get "ci_config" c = Some (YDict ci) →
     dict_get "exclude_combinations" ci = Some (YList (YDict <$> rules)) →
     build_idf_to_build_types (global_idf_versions_of m) (global_build_types_of m)
       = Ok tbl →
     (name, YDict a) ∈ apps →
     truthy (default (YBool true) (dict_get "ci_enabled" a)) = true →
     effective_combinations (YDict a) tbl
       (default (global_idf_versions_of m) (dict_get "idf_versions" a))
       = Ok (prod_map YStr id <$> combinations) →
     generate_matrix (YDict c) = Ok entries →
     filter (λ e, app_name e = name) entries
     = filter (λ e, Forall (λ r, rule_matches e r = false) rules)
         (entry_of (target_of m) name (source_of a) <$> combinations)).
Proof.
  assert (Hiff : ∀ e, rule_matches e rule = true ↔
                 ∀ k v, (k, v) ∈ rule →
                        ∃ x, dict_get k (entry_dict e) = Some x ∧ py_eq x v = true).
  { intros e. unfold rule_matches. rewrite forallb_forall. split.
    - intros H k v Hin. apply list_elem_of_In, H in Hin.
      destruct (dict_get k (entry_dict e)); [eauto | done].
    - intros H [k v] Hin. apply list_elem_of_In, H in Hin as (x & -> & Hx). done. }
  split; [apply Hiff|]. split; [|split; [|split; [|split; [|split]]]].
  - intros entry' Hsame.
    destruct (rule_matches entry rule) eqn:He.
    + apply Hiff. intros k v Hin. rewrite (Hsame k v Hin).
      by apply (proj1 (Hiff entry) He).
    + destruct (rule_matches entry' rule) eqn:He'; [|done].
      rewrite <- He. symmetry. apply Hiff. intros k v Hin.
      rewrite <- (Hsame k v Hin). by apply (proj1 (Hiff entry') He').
  - intros k v Hin Hnone.
    destruct (rule_matches entry rule) eqn:He; [|done].
    destruct (proj1 (Hiff entry) He k v Hin) as (x & Hx & _). congruence.
  - intros rules. exists (excluded_by rules entry).
    split; [apply is_excluded_rules|].
    unfold excluded_by. rewrite existsb_exists.
    by setoid_rewrite list_elem_of_In.
  - intros. by apply generate_entries_filter.
  - intros c c0 ci rules Hci Hex Hm Happs Hnone.
    assert (generate_matrix (YDict c)
            = (entries ← generate_matrix (YDict c0);
               Ok (filter (λ e, Forall (λ r, rule_matches e r = false) rules)
                     entries))) as Heq.
    { enough (alike (λ inc0 inc,
                inc = filter (λ e, Forall (λ r, rule_matches e r = false) rules) inc0)
                (generate_matrix (YDict c0)) (generate_matrix (YDict c))) as H.
      { destruct (generate_matrix (YDict c0)), (generate_matrix (YDict c));
          cbn in H |- *; congruence || done. }
      apply (generate_matrix_alike _ c0 c
               (YList (YDict <$> [])) (YList (YDict <$> rules))); try done.
      - unfold effective_excludes. cbn [py_get]. by rewrite Hnone.
      - unfold effective_excludes. cbn [py_get]. rewrite Hci.
        cbn [default from_option id]. rewrite bind_Ok. cbn [py_get].
        rewrite Hex, bind_Ok. cbn [default from_option id]. by destruct rules.
      - intros e inc0 inc ->. rewrite !is_excluded_rules. cbn [alike excluded_by existsb].
        rewrite filter_app, filter_cons, filter_nil.
        destruct (excluded_by rules e) eqn:Hrules.
        + rewrite decide_False; [by rewrite app_nil_r|].
          rewrite <- excluded_by_false. by rewrite Hrules.
        + by rewrite decide_True by by apply excluded_by_false. }
    split; [exact Heq|].
    intros entries Hgen. rewrite Heq in Hgen.
    apply bind_Ok_inv in Hgen as (entries0 & _ & [= <-]).
    apply Forall_forall. by intros e [He _]%list_elem_of_filter.
  - intros c m apps ci rules tbl name a combinations entries
      Hm Happs Hnd Hci Hex Htbl Hin Hon Hcomb Hgen.
    apply (app_entries_in_matrix c m apps rules name a combinations entries);
      try done.
    + unfold effective_excludes. cbn [py_get]. rewrite Hci.
      cbn [default from_option id]. rewrite bind_Ok. cbn [py_get].
      rewrite Hex, bind_Ok. cbn [default from_option id]. by destruct rules.
    + intros tbl' Htbl'. rewrite Htbl in Htbl'. by injection Htbl' as <-.
Qed.

Lemma exclusion_rule_matching_witness :
  rule_matches
    (entry_of (YStr "esp32c6") "gpio_test" "global" ("release/v5.5", YStr "Debug"))
    [("board", YStr "esp32c6")] = false ∧
  generate_entries flat_excluded_config
    (YList [YDict [("app_name", YStr "gpio_test"); ("build_type", YStr "Debug")]])
    "gpio_test" (YDict [])
    [(YStr "release/v5.5", YStr "Debug"); (YStr "release/v5.5", YStr "Release")] []
  = Ok [entry_of (YStr "esp32c6") "gpio_test" "global"
          ("release/v5.5", YStr "Release")] ∧
  generate_matrix flat_excluded_config
  = (entries ← generate_matrix
                 (YDict
                    [ ("metadata",
                       YDict [("idf_versions", YList [YStr "release/v5.5"])]);
                      ("apps",
                       YDict [("gpio_test",
                               YDict [("build_types",
                                       YList [YStr "Debug"; YStr "Release"])])]) ]);
     Ok (filter (λ e, Forall (λ r, rule_matches e r = false)
                        [[("build_type", YStr "Debug")]]) entries)) ∧
  Forall (λ e, Forall (λ r, rule_matches e r = false) [[("build_type", YStr "Debug")]])
    [entry_of (YStr "esp32c6") "gpio_test" "app" ("release/v5.5", YStr "Release")] ∧
  filter (λ e, app_name e = "gpio_test")
    [entry_of (YStr "esp32c6") "gpio_test" "app" ("release/v5.5", YStr "Release")]
  = filter (λ e, Forall (λ r, rule_matches e r = false) [[("build_type", YStr "Debug")]])
      (entry_of (YStr "esp32c6") "gpio_test" "app"
         <$> [("release/v5.5", YStr "Debug"); ("release/v5.5", YStr "Release")]).
Proof.
  pose proof (exclusion_rule_matching
    (entry_of (YStr "esp32c6") "gpio_test" "global" ("release/v5.5", YStr "Debug"))
    [("board", YStr "esp32c6")])
    as (_ & _ & Hunknown & _ & Hinclude & Hmatrix & Hentries).
  pose proof (Hmatrix
    [ ("metadata", YDict [("idf_versions", YList [YStr "release/v5.5"])]);
      ("apps",
       YDict [("gpio_test",
               YDict [("build_types", YList [YStr "Debug"; YStr "Release"])])]);
      ("ci_config",
       YDict [("exclude_combinations",
               YList [YDict [("build_type", YStr "Debug")]])]) ]
    [ ("metadata", YDict [("idf_versions", YList [YStr "release/v5.5"])]);
      ("apps",
       YDict [("gpio_test",
               YDict [("build_types", YList [YStr "Debug"; YStr "Release"])])]) ]
    [("exclude_combinations", YList [YDict [("build_type", YStr "Debug")]])]
    [[("build_type", YStr "Debug")]]
    eq_refl eq_refl eq_refl eq_refl eq_refl) as [Heq Hall].
  split; [|split; [|split; [|split]]].
  - apply (Hunknown "board" (YStr "esp32c6")); [left | reflexivity].
  - apply (Hinclude
      [ ("metadata", YDict [("idf_versions", YList [YStr "release/v5.5"])]);
        ("apps",
         YDict [("gpio_test",
                 YDict [("build_types", YList [YStr "Debug"; YStr "Release"])])]);
        ("ci_config",
         YDict [("exclude_combinations",
                 YList [YDict [("build_type", YStr "Debug")]])]) ]
      [("idf_versions", YList [YStr "release/v5.5"])] [] "gpio_test"
      [[("app_name", YStr "gpio_test"); ("build_type", YStr "Debug")]]
      [("release/v5.5", YStr "Debug"); ("release/v5.5", YStr "Release")] []).
    reflexivity.
  - exact Heq.
  - apply Hall. vm_compute. reflexivity.
  - apply (Hentries
      [ ("metadata", YDict [("idf_versions", YList [YStr "release/v5.5"])]);
        ("apps",
         YDict [("gpio_test",
                 YDict [("build_types", YList [YStr "Debug"; YStr "Release"])])]);
        ("ci_config",
         YDict [("exclude_combinations",
                 YList [YDict [("build_type", YStr "Debug")]])]) ]
      [("idf_versions", YList [YStr "release/v5.5"])]
      [("gpio_test", YDict [("build_types", YList [YStr "Debug"; YStr "Release"])])]
      [("exclude_combinations", YList [YDict [("build_type", YStr "Debug")]])]
      [[("build_type", YStr "Debug")]]
      {[ KStr "release/v5.5" := default_build_types ]}
      "gpio_test"
      [("build_types", YList [YStr "Debug"; YStr "Release"])]
      [("release/v5.5", YStr "Debug"); ("release/v5.5", YStr "Release")]
      [entry_of (YStr "esp32c6") "gpio_test" "app" ("release/v5.5", YStr "Release")]
      eq_refl eq_refl).
    + cbn. apply (bool_decide_unpack (NoDup ["gpio_test"])). vm_compute. reflexivity.
    + reflexivity.
    + reflexivity.
    + vm_compute. reflexivity.
    + left.
    + reflexivity.
    + vm_compute. reflexivity.
    + vm_compute. reflexivity.
Defined.

(** ** Version sanitization *)

Lemma replace_pair_injective v w :
  docker_safe_version v = docker_safe_version w →
  file_safe_version v = file_safe_version w → v = w.
Proof.
  unfold docker_safe_version, file_safe_version.
  revert w. induction v as [|c v IH]; intros [|d w]; simpl; try done.
  intros Hd Hf. injection Hd as Hc Hd. injection Hf as Hc' Hf.
  f_equal; [|by apply IH].
  repeat case_decide; subst; try done.
Qed.

(** C5, as stated, fails: distinct versions share a docker form, and
    distinct versions share a file form. *)
Lemma sanitized_forms_collide :
  ("release/v5.5" ≠ "release-v5.5" ∧
   docker_safe_version "release/v5.5" = docker_safe_version "release-v5.5") ∧
  ("release/v5.5" ≠ "release/v5_5" ∧
   file_safe_version "release/v5.5" = file_safe_version "release/v5_5").
Proof. repeat split; done. Qed.

(** C5, amended: the candidate of a version carries the docker form and the
    file form of that version; two versions with the same docker form and
    the same file form are equal; ["release/v5.5"] has the docker form
    ["release-v5.5"] and the file form ["release_v5_5"]. *)
Theorem sanitization_pair_injective :
  (∀ config name app v bt e,
     make_candidate config name app (YStr v) bt = Ok e →
     idf_version_docker e = docker_safe_version v ∧
     idf_version_file e = file_safe_version v) ∧
  (∀ v w,
     docker_safe_version v = docker_safe_version w →
     file_safe_version v = file_safe_version w → v = w) ∧
  docker_safe_version "release/v5.5" = "release-v5.5" ∧
  file_safe_version "release/v5.5" = "release_v5_5".
Proof.
  split; [|split; [exact replace_pair_injective | done]].
  intros config name app v bt e. unfold make_candidate.
  destruct (py_getitem config "metadata") as [md|]; [simpl|done].
  destruct (py_get md "target" _) as [tg|]; [simpl|done].
  destruct (py_in "build_types" app) as [[]|]; simpl; try done.
  - by intros [= <-].
  - destruct (py_in "idf_versions" app) as [o|]; simpl; [|done].
    by intros [= <-].
Qed.

Lemma sanitization_pair_injective_witness :
  (idf_version_docker
     (entry_of (YStr "esp32c6") "gpio_test" "global" ("release/v5.5", YStr "Debug"))
     = docker_safe_version "release/v5.5" ∧
   idf_version_file
     (entry_of (YStr "esp32c6") "gpio_test" "global" ("release/v5.5", YStr "Debug"))
     = file_safe_version "release/v5.5") ∧
  "release/v5.5" = "release/v5.5".
Proof.
  split.
  - apply (proj1 sanitization_pair_injective
             (YDict [("metadata", YDict [])]) "gpio_test" (YDict [])
             "release/v5.5" (YStr "Debug")).
    reflexivity.
  - apply (proj1 (proj2 sanitization_pair_injective)); reflexivity.
Defined.

(** ** Source-file lookup *)

(** C9: for a name in the apps mapping, [get_app_source_file] returns the
    [source_file] value of that app; for a name that is not in it, the
    call reports the unknown app type and exits with status 1. *)
Theorem get_app_source_file_lookup config apps app_type :
  dict_get "apps" config = Some (YDict apps) →
  (∀ app source_file,
     dict_get app_type apps = Some (YDict app) →
     dict_get "source_file" app = Some source_file →
     get_app_source_file app_type (YDict config) = Ok source_file) ∧
  (dict_get app_type apps = None →
   get_app_source_file app_type (YDict config)
     = Raise (SystemExit 1 ("Error: Unknown app type: " +:+ app_type))).
Proof.
  intros Happs. unfold get_app_source_file. simpl. rewrite Happs. simpl.
  unfold dict_has. split.
  - intros app source_file Happ Hsrc. rewrite Happ.
    rewrite bool_decide_eq_true_2 by eauto. simpl. by rewrite Hsrc.
  - intros Hnone. rewrite Hnone.
    rewrite bool_decide_eq_false_2 by (intros [? ?]; done). done.
Qed.

Lemma get_app_source_file_lookup_witness :
  get_app_source_file "gpio_test" string_excludes_config = Ok (YStr "GpioTest.cpp") ∧
  get_app_source_file "adc_test" string_excludes_config
    = Raise (SystemExit 1 "Error: Unknown app type: adc_test").
Proof.
  pose proof (get_app_source_file_lookup
    [ ("metadata", YDict [("target", YStr "esp32c6")]);
      ("apps", YDict [("gpio_test", YDict [("source_file", YStr "GpioTest.cpp")])]);
      ("ci_config", YDict [("exclude_combinations", YStr "gpio_test")]) ]
    [("gpio_test", YDict [("source_file", YStr "GpioTest.cpp")])]) as H.
  split.
  - apply (proj1 (H "gpio_test" eq_refl)
             [("source_file", YStr "GpioTest.cpp")] (YStr "GpioTest.cpp"));
      reflexivity.
  - apply (proj2 (H "adc_test" eq_refl)). reflexivity.
Defined.

(** ** Validation *)

(** C4, as stated, fails: [exclude_combinations] is present with the value
    [None], which is not a list, and [validate_config] reports no error. *)
Lemma null_excludes_accepted :
  ∃ ci excludes,
    py_getitem null_excludes_config "ci_config" = Ok (YDict ci) ∧
    dict_get "exclude_combinations" ci = Some excludes ∧
    isinstance_list excludes = false ∧
    validate_config null_excludes_config
      = Ok (true, [], [], null_excludes_config).
Proof. by eexists _, _. Qed.

(** C4, amended: in a configuration with both sections whose [ci_config]
    is a mapping that holds [exclude_combinations], whenever
    [validate_config] returns, it reports ["ci_config.exclude_combinations
    is not a list"] exactly when the value counts as true and is not a
    list, and it then returns [ok = false]: a list, and a value that
    counts as false, are accepted without that error.  It does return
    when [metadata] is a mapping and [apps] is a mapping of mappings or
    counts as false. *)
Theorem truthy_non_list_excludes_rejected c ci excludes :
  dict_get "ci_config" c = Some (YDict ci) →
  dict_get "exclude_combinations" ci = Some excludes →
  (∀ ok errors warnings config',
     is_Some (dict_get "metadata" c) →
     is_Some (dict_get "apps" c) →
     validate_config (YDict c) = Ok (ok, errors, warnings, config') →
     (excludes_not_a_list ∈ errors
      ↔ truthy excludes = true ∧ isinstance_list excludes = false) ∧
     (excludes_not_a_list ∈ errors → ok = false)) ∧
  (sections_are_mappings (YDict c) = true →
   ∃ ok errors warnings,
     validate_config (YDict c) = Ok (ok, errors, warnings, YDict c) ∧
     (excludes_not_a_list ∈ errors
      ↔ truthy excludes = true ∧ isinstance_list excludes = false) ∧
     (excludes_not_a_list ∈ errors → ok = false)).
Proof.
  intros Hci Hex.
  assert (∀ ok errors warnings config',
            is_Some (dict_get "metadata" c) →
            is_Some (dict_get "apps" c) →
            validate_config (YDict c) = Ok (ok, errors, warnings, config') →
            (excludes_not_a_list ∈ errors
             ↔ truthy excludes = true ∧ isinstance_list excludes = false) ∧
            (excludes_not_a_list ∈ errors → ok = false)) as Hreturns.
  { intros ok errors warnings config' [md Hm] [apps Happs].
    rewrite (validate_config_checks c md apps Hm Happs).
    intros ([[[ok' es'] ws'] st] & H & [= <- <- <- <-])%bind_Ok_inv.
    apply V_bind_inv in H as ([] & st1 & H1 & H).
    apply V_bind_inv in H as ([] & st2 & H2 & H).
    apply V_bind_inv in H as ([] & st3 & H3 & H).
    apply V_bind_inv in H as (es & st4 & [= <- <-] & H).
    apply V_bind_inv in H as (ws & st5 & [= <- <-] & H).
    injection H as <- <- <- <-.
    destruct (validate_metadata_adds md _ _ _ H1) as (_ & es1 & He1 & Hes1).
    destruct (validate_apps_adds apps _ _ _ H2) as (_ & es2 & He2 & Hes2).
    assert (es1 = []) as -> by (destruct es1; [done | by inversion Hes1]).
    cbn [st_errors] in He1. rewrite He1 in He2. cbn [app] in He2.
    revert H3. unfold validate_ci_config. cbn [py_in py_getitem].
    rewrite lift_bind, (dict_has_true _ _ _ Hci). cbn [when_].
    rewrite Hci, lift_bind. cbn [py_in]. rewrite lift_bind, (dict_has_true _ _ _ Hex).
    cbn [when_ py_getitem]. rewrite Hex, lift_bind.
    assert (excludes_not_a_list ∉ es2) as Hnot.
    { intros Hin. by eapply Forall_forall in Hes2. }
    destruct (truthy excludes), (isinstance_list excludes); cbn [andb negb when_];
      intros [= <-]; cbn [st_errors]; rewrite He2.
    - split; [split; [done | by intros [_ ?]] | done].
    - split; [split; [done | intros _; apply elem_of_app; right; left]|].
      intros _. apply bool_decide_eq_false_2. rewrite length_app. cbn. lia.
    - split; [split; [done | by intros [? _]] | done].
    - split; [split; [done | by intros [? _]] | done]. }
  split; [exact Hreturns|].
  intros Hshape. destruct (validate_config_sections c Hshape) as (es & Hrun & _).
  eexists _, _, _. split; [exact Hrun|].
  eapply Hreturns; [| |exact Hrun].
  - cbn [sections_are_mappings] in Hshape. by destruct (dict_get "metadata" c).
  - cbn [sections_are_mappings] in Hshape.
    destruct (dict_get "metadata" c) as [[| | | | |?]|]; try done.
    by destruct (dict_get "apps" c).
Qed.

Lemma truthy_non_list_excludes_rejected_witness :
  ((excludes_not_a_list ∈ [excludes_not_a_list]
    ↔ truthy (YStr "gpio_test") = true ∧ isinstance_list (YStr "gpio_test") = false) ∧
   (excludes_not_a_list ∈ [excludes_not_a_list] → false = false)) ∧
  ∃ ok errors warnings,
    validate_config string_excludes_config
      = Ok (ok, errors, warnings, string_excludes_config) ∧
    (excludes_not_a_list ∈ errors
     ↔ truthy (YStr "gpio_test") = true ∧ isinstance_list (YStr "gpio_test") = false) ∧
    (excludes_not_a_list ∈ errors → ok = false).
Proof.
  pose proof (truthy_non_list_excludes_rejected
    [ ("metadata", YDict [("target", YStr "esp32c6")]);
      ("apps", YDict [("gpio_test", YDict [("source_file", YStr "GpioTest.cpp")])]);
      ("ci_config", YDict [("exclude_combinations", YStr "gpio_test")]) ]
    [("exclude_combinations", YStr "gpio_test")] (YStr "gpio_test")
    eq_refl eq_refl) as [Hreturns Htyped].
  split.
  - apply (Hreturns false [excludes_not_a_list]
             (all_warnings string_excludes_config) string_excludes_config).
    + by eexists.
    + by eexists.
    + reflexivity.
  - apply Htyped. reflexivity.
Defined.

(** C6, as stated, fails: without an [apps] section [validate_config]
    returns at once, and the warnings of the metadata check are not in its
    result. *)
Lemma missing_section_drops_warnings :
  ∃ w,
    w ∈ all_warnings missing_apps_config ∧
    validate_config missing_apps_config
      = Ok (false, ["Missing required 'apps' section"], [], missing_apps_config).
Proof.
  exists "No 'idf_versions' specified in metadata, using default".
  split; [by left | done].
Qed.

(** C6, amended: whenever [validate_config] returns, it has left the
    configuration as it is, and [ok = true] exactly when there is no
    error.  On a configuration with both sections whose [metadata] is a
    mapping, whose [apps] is a mapping of mappings or counts as false and
    whose [ci_config], when present, is a mapping, it returns, with every
    warning of the metadata check and of the app checks, whatever errors
    it finds.  When a required section is missing it returns
    [ok = false] at once, with the errors of the missing sections and no
    warning.  When [metadata] is [None], a boolean or a number it raises
    [TypeError] and returns nothing. *)
Theorem validate_collects_warnings :
  (∀ config ok errors warnings config',
     validate_config config = Ok (ok, errors, warnings, config') →
     config' = config ∧ (ok = true ↔ errors = [])) ∧
  (∀ config,
     sections_are_mappings config = true →
     ∃ ok errors,
       validate_config config = Ok (ok, errors, all_warnings config, config) ∧
       (ok = true ↔ errors = [])) ∧
  (∀ c,
     dict_get "metadata" c = None ∨ dict_get "apps" c = None →
     validate_config (YDict c)
     = Ok (false,
           (if dict_has "metadata" c then []
            else ["Missing required 'metadata' section"]) ++
           (if dict_has "apps" c then []
            else ["Missing required 'apps' section"]),
           [], YDict c)) ∧
  (∀ c metadata,
     dict_get "metadata" c = Some metadata →
     is_Some (dict_get "apps" c) →
     is_scalar metadata = true →
     validate_config (YDict c) = Raise TypeError).
Proof.
  split; [|split; [|split]].
  - intros config ok errors warnings config'. unfold validate_config.
    intros ([[[ok' es] ws] st] & H & [= <- <- <- <-])%bind_Ok_inv.
    by apply validate_config_body_verdict in H.
  - intros [| | | | |c]; try done. intros Hshape.
    destruct (validate_config_sections c Hshape) as (es & Hrun & _).
    eexists _, _. split; [exact Hrun|].
    rewrite bool_decide_eq_true. by rewrite length_zero_iff_nil.
  - intros c Hmissing.
    unfold validate_config, validate_config_body.
    rewrite the_config_bind. cbn [st_config py_in]. rewrite lift_bind.
    destruct Hmissing as [H|H]; rewrite (dict_has_false _ _ H).
    + cbn [negb when_]. by destruct (dict_has "apps" c).
    + by destruct (dict_has "metadata" c).
  - intros c metadata Hm [apps Happs] Hscalar.
    rewrite (validate_config_checks c metadata apps Hm Happs).
    by destruct metadata.
Qed.

Lemma validate_collects_warnings_witness :
  (string_excludes_config = string_excludes_config ∧
   (false = true ↔ [excludes_not_a_list] = [])) ∧
  (∃ ok errors,
     validate_config string_excludes_config
       = Ok (ok, errors, all_warnings string_excludes_config,
             string_excludes_config) ∧
     (ok = true ↔ errors = [])) ∧
  validate_config missing_apps_config
    = Ok (false, ["Missing required 'apps' section"], [], missing_apps_config) ∧
  validate_config (YDict [("metadata", YNull); ("apps", YDict [])]) = Raise TypeError.
Proof.
  destruct validate_collects_warnings as (Hverdict & Htyped & Hmissing & Hraises).
  split; [|split; [|split]].
  - apply (Hverdict string_excludes_config false [excludes_not_a_list]
             (all_warnings string_excludes_config) string_excludes_config).
    reflexivity.
  - apply (Htyped string_excludes_config). reflexivity.
  - apply (Hmissing [("metadata", YDict [])]). right. reflexivity.
  - apply (Hraises [("metadata", YNull); ("apps", YDict [])] YNull eq_refl).
    + by eexists.
    + reflexivity.
Defined.

(** ** Further properties of [generate_matrix] *)

Lemma elem_of_parts {A B} (P : A → list B → Prop) xs parts e :
  Forall2 P xs parts → e ∈ concat parts →
  ∃ x part, x ∈ xs ∧ P x part ∧ e ∈ part.
Proof.
  induction 1 as [|x part xs parts HP _ IH]; cbn [concat].
  - by intros ?%elem_of_nil.
  - intros [He|He]%elem_of_app.
    + exists x, part. split; [left | done].
    + destruct (IH He) as (y & p & Hy & HPy & Hp).
      exists y, p. split; [by right | done].
Qed.

(** Where an entry of the matrix comes from: a CI-enabled app of the
    configuration, whose candidate for the entry's version and build type
    it is. *)
Lemma matrix_entry_origin config entries e :
  generate_matrix config = Ok entries →
  e ∈ entries →
  ∃ c m apps a,
    config = YDict c ∧
    dict_get "metadata" c = Some (YDict m) ∧
    dict_get "apps" c = Some (YDict apps) ∧
    (app_name e, YDict a) ∈ apps ∧
    truthy (default (YBool true) (dict_get "ci_enabled" a)) = true ∧
    e = entry_of (target_of m) (app_name e) (source_of a)
          (idf_version e, build_type e).
Proof.
  intros (c & m & apps & tbl & versions & excl & parts & -> & Hm & Happs & Hparts & ->)
           %generate_matrix_parts He.
  destruct (elem_of_parts _ _ _ _ Hparts He) as ([name app] & part & Hin & Hpart & Hep).
  destruct (app_entries_contribution c m tbl versions excl name app part Hm Hpart)
    as (a & -> & Hci & Hall).
  eapply Forall_forall in Hall; [|exact Hep].
  assert (app_name e = name) as Hname by by rewrite Hall.
  exists c, m, apps, a. rewrite Hname. repeat split; try done.
  destruct (truthy _); [done|]. rewrite Hci in Hep by done. by apply elem_of_nil in Hep.
Qed.

(** X1: every entry of the matrix comes from a CI-enabled app of the
    configuration and carries the configured target and the two sanitized
    forms of its own version. *)
Theorem matrix_entry_fields config entries e :
  generate_matrix config = Ok entries →
  e ∈ entries →
  ∃ c m apps a,
    config = YDict c ∧
    dict_get "metadata" c = Some (YDict m) ∧
    dict_get "apps" c = Some (YDict apps) ∧
    (app_name e, YDict a) ∈ apps ∧
    truthy (default (YBool true) (dict_get "ci_enabled" a)) = true ∧
    target e = default (YStr "esp32c6") (dict_get "target" m) ∧
    idf_version_docker e = docker_safe_version (idf_version e) ∧
    idf_version_file e = file_safe_version (idf_version e).
Proof.
  intros Hgen He.
  destruct (matrix_entry_origin _ _ _ Hgen He)
    as (c & m & apps & a & -> & Hm & Happs & Hin & Hci & He').
  exists c, m, apps, a. repeat split; try done; by rewrite He'.
Qed.

Lemma matrix_entry_fields_witness :
  ∃ c m apps a,
    flat_excluded_config = YDict c ∧
    dict_get "metadata" c = Some (YDict m) ∧
    dict_get "apps" c = Some (YDict apps) ∧
    ("gpio_test", YDict a) ∈ apps ∧
    truthy (default (YBool true) (dict_get "ci_enabled" a)) = true ∧
    YStr "esp32c6" = default (YStr "esp32c6") (dict_get "target" m) ∧
    "release-v5.5" = docker_safe_version "release/v5.5" ∧
    "release_v5_5" = file_safe_version "release/v5.5".
Proof.
  apply (matrix_entry_fields flat_excluded_config
           [entry_of (YStr "esp32c6") "gpio_test" "app" ("release/v5.5", YStr "Release")]
           (entry_of (YStr "esp32c6") "gpio_test" "app" ("release/v5.5", YStr "Release"))).
  - vm_compute. reflexivity.
  - left.
Defined.

Lemma elem_of_dict_NoDup (apps : list (string * yaml)) name x y :
  NoDup apps.*1 → (name, x) ∈ apps → (name, y) ∈ apps → x = y.
Proof.
  induction apps as [|[k v] apps IH]; [by intros _ ?%elem_of_nil|].
  rewrite fmap_cons. cbn [fst]. intros [Hk Hnd]%NoDup_cons.
  intros [Hx|Hx]%elem_of_cons [Hy|Hy]%elem_of_cons.
  - congruence.
  - injection Hx as -> _. destruct Hk. apply list_elem_of_fmap. by exists (k, y).
  - injection Hy as -> _. destruct Hk. apply list_elem_of_fmap. by exists (k, x).
  - by apply IH.
Qed.

(** X2: an app whose [ci_enabled] value counts as false has no entry in the
    matrix. *)
Theorem disabled_app_has_no_entries c apps name a entries :
  generate_matrix (YDict c) = Ok entries →
  dict_get "apps" c = Some (YDict apps) →
  NoDup apps.*1 →
  (name, YDict a) ∈ apps →
  truthy (default (YBool true) (dict_get "ci_enabled" a)) = false →
  Forall (λ e, app_name e ≠ name) entries.
Proof.
  intros Hgen Happs Hnd Hin Hci. apply Forall_forall. intros e He Hname.
  destruct (matrix_entry_origin _ _ _ Hgen He)
    as (c' & m & apps' & a' & [= <-] & _ & Happs' & Hin' & Hci' & _).
  rewrite Happs in Happs'. injection Happs' as <-. rewrite Hname in Hin'.
  assert (YDict a = YDict a') as [= <-] by by eapply elem_of_dict_NoDup.
  congruence.
Qed.

Lemma disabled_app_has_no_entries_witness :
  Forall (λ e, app_name e ≠ "adc_test")
    [entry_of (YStr "esp32c6") "gpio_test" "global" ("release/v5.5", YStr "Debug");
     entry_of (YStr "esp32c6") "gpio_test" "global" ("release/v5.5", YStr "Release")].
Proof.
  apply (disabled_app_has_no_entries
    [ ("metadata", YDict [("idf_versions", YList [YStr "release/v5.5"])]);
      ("apps",
       YDict [("adc_test", YDict [("ci_enabled", YBool false)]);
              ("gpio_test", YDict [])]) ]
    [("adc_test", YDict [("ci_enabled", YBool false)]); ("gpio_test", YDict [])]
    "adc_test" [("ci_enabled", YBool false)]).
  - vm_compute. reflexivity.
  - reflexivity.
  - cbn. apply (bool_decide_unpack (NoDup ["adc_test"; "gpio_test"])).
    vm_compute. reflexivity.
  - left.
  - reflexivity.
Defined.

(** X3: the matrix lists the entries app by app, in the order of the apps
    in the configuration. *)
Theorem matrix_grouped_by_app config entries :
  generate_matrix config = Ok entries →
  ∃ c apps parts,
    config = YDict c ∧
    dict_get "apps" c = Some (YDict apps) ∧
    entries = concat parts ∧
    Forall2 (λ '(name, _) part, Forall (λ e, app_name e = name) part) apps parts.
Proof.
  intros (c & m & apps & tbl & versions & excl & parts & -> & Hm & Happs & Hparts & ->)
           %generate_matrix_parts.
  exists c, apps, parts. repeat split; try done.
  eapply Forall2_impl; [exact Hparts|]. intros [name app] part Hpart.
  destruct (app_entries_contribution c m tbl versions excl name app part Hm Hpart)
    as (a & -> & _ & Hall).
  eapply Forall_impl; [exact Hall|]. by intros e ->.
Qed.

Lemma matrix_grouped_by_app_witness :
  ∃ c apps parts,
    disabled_app_config = YDict c ∧
    dict_get "apps" c = Some (YDict apps) ∧
    [entry_of (YStr "esp32c6") "gpio_test" "global" ("release/v5.5", YStr "Debug");
     entry_of (YStr "esp32c6") "gpio_test" "global" ("release/v5.5", YStr "Release")]
      = concat parts ∧
    Forall2 (λ '(name, _) part, Forall (λ e, app_name e = name) part) apps parts.
Proof.
  apply (matrix_grouped_by_app disabled_app_config). vm_compute. reflexivity.
Defined.

(** ** Sanitized forms *)

Lemma str_replace_length a b s : String.length (str_replace a b s) = String.length s.
Proof. induction s as [|c s IH]; cbn; [done | by rewrite IH]. Qed.

Lemma str_replace_absent a b s :
  a ≠ b → ¬ has_char a (str_replace a b s).
Proof.
  intros Hab. unfold has_char. induction s as [|c s IH]; cbn.
  - apply not_elem_of_nil.
  - apply not_elem_of_cons. split; [|done]. case_decide; congruence.
Qed.

Lemma str_replace_keeps_absent a b c s :
  c ≠ b → ¬ has_char c s → ¬ has_char c (str_replace a b s).
Proof.
  intros Hcb. unfold has_char. induction s as [|d s IH]; cbn; [done|].
  intros [Hd Hs]%not_elem_of_cons. apply not_elem_of_cons.
  split; [case_decide; congruence | by apply IH].
Qed.

Lemma str_replace_id a b s :
  ¬ has_char a s → str_replace a b s = s.
Proof.
  unfold has_char. induction s as [|c s IH]; cbn; [done|].
  intros [Hc Hs]%not_elem_of_cons. rewrite IH by done.
  case_decide; congruence.
Qed.

(** X4: the docker form of a version holds no ['/'], its file form holds no
    ['/'] and no ['.']; both have the length of the version, and a version
    without these characters is its own form. *)
Theorem sanitized_forms_are_safe (v : string) :
  (¬ has_char "/" (docker_safe_version v) ∧
   ¬ has_char "/" (file_safe_version v) ∧
   ¬ has_char "." (file_safe_version v)) ∧
  (String.length (docker_safe_version v) = String.length v ∧
   String.length (file_safe_version v) = String.length v) ∧
  (¬ has_char "/" v → docker_safe_version v = v) ∧
  (¬ has_char "/" v → ¬ has_char "." v →
   file_safe_version v = v).
Proof.
  unfold docker_safe_version, file_safe_version. repeat split.
  - by apply str_replace_absent.
  - apply str_replace_keeps_absent; [done|]. by apply str_replace_absent.
  - by apply str_replace_absent.
  - apply str_replace_length.
  - by rewrite !str_replace_length.
  - apply str_replace_id.
  - intros Hs Hd. rewrite (str_replace_id "/") by done. by apply str_replace_id.
Qed.

Lemma sanitized_forms_are_safe_witness :
  docker_safe_version "v5.5" = "v5.5" ∧ file_safe_version "v5" = "v5".
Proof.
  split.
  - apply (proj1 (proj2 (proj2 (sanitized_forms_are_safe "v5.5")))).
    unfold has_char. apply (bool_decide_unpack (_ ∉ _)). vm_compute. reflexivity.
  - apply (proj2 (proj2 (proj2 (sanitized_forms_are_safe "v5"))));
      unfold has_char; apply (bool_decide_unpack (_ ∉ _)); vm_compute; reflexivity.
Defined.

(** ** The global table of build types *)

Lemma enumerate_from_snoc {A} k (xs : list A) x :
  enumerate_from k (xs ++ [x]) = enumerate_from k xs ++ [(k + length xs, x)].
Proof.
  revert k. induction xs as [|y xs IH]; intros k; cbn.
  - by rewrite Nat.add_0_r.
  - rewrite IH. by rewrite Nat.add_succ_r.
Qed.

Lemma build_table_step bts i v (tbl : gmap hkey yaml) :
  (n ← py_len (YList bts);
   build_types ← (if bool_decide (i < n) then py_index (YList bts) i
                  else Ok default_build_types);
   k ← py_hash (YStr v);
   Ok (<[k := build_types]> tbl))
  = Ok (<[KStr v := nth i bts default_build_types]> tbl).
Proof.
  cbn [py_len py_index py_hash]. rewrite bind_Ok. case_bool_decide as Hi.
  - destruct (lookup_lt_is_Some_2 bts i Hi) as [x Hx]. rewrite Hx, !bind_Ok.
    by rewrite (nth_lookup_Some _ _ _ _ Hx).
  - rewrite !bind_Ok. by rewrite nth_overflow by lia.
Qed.

(** The table after the loop: a version that the list lacks keeps what the
    table held, and a version of the list holds the build types at the
    position of its last occurrence. *)
Lemma build_table_loop bts (vs : list string) k (tbl0 : gmap hkey yaml) :
  ∃ tbl,
    for_each (enumerate_from k (YStr <$> vs))
      (λ '(i, idf_version) idf_to_build_types,
         n ← py_len (YList bts);
         build_types ←
           (if bool_decide (i < n) then py_index (YList bts) i
            else Ok default_build_types);
         k ← py_hash idf_version;
         Ok (<[k := build_types]> idf_to_build_types))
      tbl0 = Ok tbl ∧
    (∀ v, v ∉ vs → tbl !! KStr v = tbl0 !! KStr v) ∧
    (∀ j v, vs !! j = Some v → (∀ j', j < j' → vs !! j' ≠ Some v) →
            tbl !! KStr v = Some (nth (k + j) bts default_build_types)).
Proof.
  induction vs as [|x vs IH] using rev_ind.
  - exists tbl0. split; [done|]. split; [done|].
    intros j v Hj. by rewrite lookup_nil in Hj.
  - destruct IH as (tbl & Hloop & Hout & Hin).
    exists (<[KStr x := nth (k + length vs) bts default_build_types]> tbl).
    split; [|split].
    + rewrite fmap_app. change (YStr <$> [x]) with [YStr x].
      rewrite enumerate_from_snoc, for_each_app, Hloop, bind_Ok.
      rewrite for_each_cons, length_fmap, build_table_step. done.
    + intros v [Hv Hx]%not_elem_of_app. rewrite lookup_insert_ne; [by apply Hout|].
      intros [= ->]. apply Hx. left.
    + intros j v Hj Hlast.
      destruct (decide (j = length vs)) as [->|Hne].
      * rewrite list_lookup_middle in Hj by done. injection Hj as ->.
        by rewrite lookup_insert_eq.
      * assert (j < length vs) as Hlt.
        { apply lookup_lt_Some in Hj. rewrite length_app in Hj. cbn in Hj. lia. }
        rewrite lookup_app_l in Hj by done.
        assert (x ≠ v) as Hxv.
        { intros ->. apply (Hlast (length vs) Hlt). by apply list_lookup_middle. }
        rewrite lookup_insert_ne by congruence. apply Hin; [done|].
        intros j' Hj' Hv.
        apply (Hlast j' Hj'). rewrite lookup_app_l; [done|].
        by eapply lookup_lt_Some.
Qed.

(** X5: an app that declares no [build_types] gets its build types by
    version, not by position: those the global list pairs with the last
    occurrence of the version, and [Debug], [Release] for a version that
    the global list lacks. *)
Theorem global_build_types_by_version (vs : list string) (bts : list yaml) a :
  dict_get "build_types" a = None →
  ∃ tbl,
    build_idf_to_build_types (YList (YStr <$> vs)) (YList bts) = Ok tbl ∧
    (∀ i v, v ∉ vs →
       version_build_types (YDict a) tbl i (YStr v)
         = Ok [YStr "Debug"; YStr "Release"]) ∧
    (∀ i j v, vs !! j = Some v → (∀ j', j < j' → vs !! j' ≠ Some v) →
       version_build_types (YDict a) tbl i (YStr v)
         = py_iter (nth j bts default_build_types)).
Proof.
  intros Hbt.
  destruct (build_table_loop bts vs 0 ∅) as (tbl & Hloop & Hout & Hin).
  exists tbl. split; [exact Hloop|].
  assert (∀ i v, version_build_types (YDict a) tbl i (YStr v)
                 = py_iter (default default_build_types (tbl !! KStr v))) as Hvbt.
  { intros i v. unfold version_build_types. cbn [py_in]. rewrite bind_Ok.
    by rewrite (dict_has_false _ _ Hbt). }
  split.
  - intros i v Hv. by rewrite Hvbt, Hout, lookup_empty.
  - intros i j v Hj Hlast. by rewrite Hvbt, (Hin j v Hj Hlast).
Qed.

Lemma global_build_types_by_version_witness :
  ∃ tbl,
    build_idf_to_build_types
      (YList (YStr <$> ["release/v5.4"; "release/v5.5"; "release/v5.4"]))
      (YList [YList [YStr "Debug"]; YList [YStr "Release"]]) = Ok tbl ∧
    version_build_types (YDict []) tbl 0 (YStr "release/v5.3")
      = Ok [YStr "Debug"; YStr "Release"] ∧
    version_build_types (YDict []) tbl 0 (YStr "release/v5.4")
      = Ok [YStr "Debug"; YStr "Release"] ∧
    version_build_types (YDict []) tbl 7 (YStr "release/v5.5")
      = Ok [YStr "Release"].
Proof.
  destruct (global_build_types_by_version
              ["release/v5.4"; "release/v5.5"; "release/v5.4"]
              [YList [YStr "Debug"]; YList [YStr "Release"]] [] eq_refl)
    as (tbl & Htbl & Hout & Hin).
  exists tbl. split; [exact Htbl|]. split; [|split].
  - apply Hout. apply (bool_decide_unpack (_ ∉ _)). vm_compute. reflexivity.
  - apply (Hin 0 2 "release/v5.4" eq_refl).
    intros j' Hj'. destruct j' as [|[|[|j']]]; [lia..|done].
  - apply (Hin 7 1 "release/v5.5" eq_refl).
    intros j' Hj'. destruct j' as [|[|[|j']]]; [lia|lia|done|done].
Defined.

(** ** Exclusion lists *)

(** X6: a [ci_config] whose [exclude_combinations] is missing or counts as
    false excludes nothing: the result is that of a configuration with the
    same metadata and apps and no [ci_config]. *)
Theorem false_excludes_exclude_nothing c1 c2 ci :
  dict_get "metadata" c1 = dict_get "metadata" c2 →
  dict_get "apps" c1 = dict_get "apps" c2 →
  dict_get "ci_config" c1 = Some (YDict ci) →
  truthy (default (YList []) (dict_get "exclude_combinations" ci)) = false →
  dict_get "ci_config" c2 = None →
  generate_matrix (YDict c1) = generate_matrix (YDict c2).
Proof.
  intros Hm Happs Hci Hfalse Hnone. apply alike_eq.
  apply (generate_matrix_alike eq c1 c2 (YList []) (YList [])); try done.
  - unfold effective_excludes. cbn [py_get]. rewrite Hci. cbn [default from_option id].
    rewrite bind_Ok. cbn [py_get]. by rewrite bind_Ok, Hfalse.
  - unfold effective_excludes. cbn [py_get]. by rewrite Hnone.
  - by intros e inc1 inc2 ->.
Qed.

Lemma false_excludes_exclude_nothing_witness :
  generate_matrix null_excludes_config
  = generate_matrix
      (YDict
         [ ("metadata",
            YDict [("idf_versions", YList [YStr "release/v5.5"]);
                   ("build_types", YList [YList [YStr "Debug"; YStr "Release"]]);
                   ("target", YStr "esp32c6")]);
           ("apps",
            YDict [("gpio_test",
                    YDict [("description", YStr "GPIO test");
                           ("source_file", YStr "GpioTest.cpp")])]) ]).
Proof.
  apply (false_excludes_exclude_nothing
    [ ("metadata",
       YDict [("idf_versions", YList [YStr "release/v5.5"]);
              ("build_types", YList [YList [YStr "Debug"; YStr "Release"]]);
              ("target", YStr "esp32c6")]);
      ("apps",
       YDict [("gpio_test",
               YDict [("description", YStr "GPIO test");
                      ("source_file", YStr "GpioTest.cpp")])]);
      ("ci_config", YDict [("exclude_combinations", YNull)]) ]
    _ [("exclude_combinations", YNull)]); reflexivity.
Defined.

(** X7: rules added to the exclusion list only remove entries: the matrix
    is the former matrix without the entries that an added rule matches,
    in the same order. *)
Theorem added_rules_filter c1 c2 ci1 ci2 rules more :
  dict_get "metadata" c1 = dict_get "metadata" c2 →
  dict_get "apps" c1 = dict_get "apps" c2 →
  dict_get "ci_config" c1 = Some (YDict ci1) →
  dict_get "exclude_combinations" ci1 = Some (YList (YDict <$> rules)) →
  dict_get "ci_config" c2 = Some (YDict ci2) →
  dict_get "exclude_combinations" ci2 = Some (YList (YDict <$> rules ++ more)) →
  generate_matrix (YDict c2)
  = entries ← generate_matrix (YDict c1);
    Ok (filter (λ e, Forall (λ r, rule_matches e r = false) more) entries).
Proof.
  intros Hm Happs Hci1 Hex1 Hci2 Hex2.
  assert (∀ l, (if truthy (YList l) then YList l else YList []) = YList l) as Hl.
  { by intros [|]. }
  enough (alike (λ inc1 inc2,
            inc2 = filter (λ e, Forall (λ r, rule_matches e r = false) more) inc1)
            (generate_matrix (YDict c1)) (generate_matrix (YDict c2))) as H.
  { destruct (generate_matrix (YDict c1)), (generate_matrix (YDict c2));
      cbn in H |- *; congruence || done. }
  apply (generate_matrix_alike _ c1 c2
           (YList (YDict <$> rules)) (YList (YDict <$> rules ++ more)));
    try done.
  - unfold effective_excludes. cbn [py_get]. rewrite Hci1. cbn [default from_option id].
    rewrite bind_Ok. cbn [py_get]. rewrite Hex1, bind_Ok. cbn [default from_option id].
    by rewrite Hl.
  - unfold effective_excludes. cbn [py_get]. rewrite Hci2. cbn [default from_option id].
    rewrite bind_Ok. cbn [py_get]. rewrite Hex2, bind_Ok. cbn [default from_option id].
    by rewrite Hl.
  - intros e inc1 inc2 ->. rewrite !is_excluded_rules, excluded_by_app.
    cbn [alike]. destruct (excluded_by rules e); cbn [orb]; [done|].
    rewrite filter_app, filter_cons, filter_nil.
    destruct (excluded_by more e) eqn:Hmore.
    + rewrite decide_False; [by rewrite app_nil_r|].
      rewrite <- excluded_by_false. by rewrite Hmore.
    + by rewrite decide_True by by apply excluded_by_false.
Qed.

Lemma added_rules_filter_witness :
  generate_matrix flat_excluded_config
  = entries ← generate_matrix
                (YDict
                   [ ("metadata", YDict [("idf_versions", YList [YStr "release/v5.5"])]);
                     ("apps",
                      YDict [("gpio_test",
                              YDict [("build_types",
                                      YList [YStr "Debug"; YStr "Release"])])]);
                     ("ci_config", YDict [("exclude_combinations", YList [])]) ]);
    Ok (filter (λ e, Forall (λ r, rule_matches e r = false)
                       [[("build_type", YStr "Debug")]]) entries).
Proof.
  apply (added_rules_filter _
    [ ("metadata", YDict [("idf_versions", YList [YStr "release/v5.5"])]);
      ("apps",
       YDict [("gpio_test",
               YDict [("build_types", YList [YStr "Debug"; YStr "Release"])])]);
      ("ci_config",
       YDict [("exclude_combinations",
               YList [YDict [("build_type", YStr "Debug")]])]) ]
    [("exclude_combinations", YList [])]
    [("exclude_combinations", YList [YDict [("build_type", YStr "Debug")]])]
    [] [[("build_type", YStr "Debug")]]); reflexivity.
Defined.

(** ** The errors of [validate_config] *)

Lemma runs_for_each_exact {A} (xs : list A) (body : A → V ())
    (e w : A → list string) :
  (∀ x, x ∈ xs → runs (body x) (e x) (w x)) →
  runs (for_each_V xs body) (x ← xs; e x) (x ← xs; w x).
Proof.
  induction xs as [|x xs IH]; intros Hbody; [apply runs_ret|].
  cbn [for_each_V]. rewrite !bind_cons.
  apply runs_bind; [apply Hbody; left | apply IH; intros; apply Hbody; by right].
Qed.

Lemma bind_nil_const {A B} (xs : list A) : (x ← xs; @nil B) = [].
Proof. induction xs as [|x xs IH]; [done | by rewrite bind_cons]. Qed.

Lemma runs_weaken step es ws es' ws' :
  runs step es ws → es = es' → ws = ws' → runs step es' ws'.
Proof. by intros H <- <-. Qed.

Lemma runs_if_error (failed : bool) msg :
  runs (when_ failed (errors_append msg)) (if failed then [msg] else []) [].
Proof. destruct failed; [apply runs_errors_append | apply runs_ret]. Qed.

Lemma runs_strings_check l msg :
  runs (strings ← lift (all_str (YList l));
        when_ (negb strings) (errors_append msg))
       (if forallb isinstance_str l then [] else [msg]) [].
Proof.
  rewrite all_str_list, lift_bind.
  destruct (forallb isinstance_str l); [apply runs_ret | apply runs_errors_append].
Qed.

Lemma check_build_types_runs name a :
  runs
    (when_ (dict_has "build_types" a)
       (build_types ← lift (py_getitem (YDict a) "build_types");
        if isinstance_list build_types then
          nested ← lift (if truthy build_types
                         then first ← py_index build_types 0;
                              Ok (isinstance_list first)
                         else Ok false);
          if nested : bool then
            elems ← lift (py_iter build_types);
            for_each_V (enumerate elems)
              (λ '(i, bt_list),
                 if negb (isinstance_list bt_list) then
                   errors_append ("App '" +:+ name +:+ "' build_types["
                                  +:+ str_of_nat i +:+ "] is not a list")
                 else
                   strings ← lift (all_str bt_list);
                   when_ (negb strings)
                     (errors_append ("App '" +:+ name +:+ "' build_types["
                                     +:+ str_of_nat i
                                     +:+ "] contains non-string values")))
          else
            strings ← lift (all_str build_types);
            when_ (negb strings)
              (errors_append ("App '" +:+ name
                              +:+ "' build_types contains non-string values"))
        else
          errors_append ("App '" +:+ name +:+ "' build_types is not a list")))
    (from_option (build_types_errors name) [] (dict_get "build_types" a)) [].
Proof.
  unfold dict_has. cbn [py_getitem].
  destruct (dict_get "build_types" a) as [bt|];
    [rewrite bool_decide_eq_true_2 by eauto
    |rewrite bool_decide_eq_false_2 by (by intros [? ?]); apply runs_ret].
  cbn [when_ from_option]. rewrite lift_bind.
  destruct bt as [| | | |l|]; cbn [isinstance_list build_types_errors];
    try apply runs_errors_append.
  destruct l as [|x l].
  { cbn [truthy]. rewrite bool_decide_eq_true_2 by done. cbn [negb].
    rewrite lift_bind. apply (runs_strings_check []). }
  cbn [truthy py_index lookup list_lookup negb].
  rewrite bool_decide_eq_false_2 by done. cbn [negb]. rewrite bind_Ok, lift_bind.
  destruct (isinstance_list x); [|apply runs_strings_check].
  cbn [py_iter]. rewrite lift_bind.
  eapply runs_weaken;
    [apply (runs_for_each_exact (enumerate (x :: l)) _
              (λ '(i, bt_list),
                 match bt_list with
                 | YList bts =>
                     if forallb isinstance_str bts then []
                     else ["App '" +:+ name +:+ "' build_types[" +:+ str_of_nat i
                           +:+ "] contains non-string values"]
                 | _ =>
                     ["App '" +:+ name +:+ "' build_types[" +:+ str_of_nat i
                      +:+ "] is not a list"]
                 end)
              (λ _, []))
    |reflexivity|apply bind_nil_const].
  intros [i bt] _. destruct bt as [| | | |l'|]; cbn [isinstance_list negb];
    try apply runs_errors_append.
  apply runs_strings_check.
Qed.

Lemma check_idf_versions_runs name a :
  runs
    (when_ (dict_has "idf_versions" a)
       (idf_versions ← lift (py_getitem (YDict a) "idf_versions");
        if negb (isinstance_list idf_versions) then
          errors_append ("App '" +:+ name +:+ "' idf_versions is not a list")
        else
          strings ← lift (all_str idf_versions);
          when_ (negb strings)
            (errors_append ("App '" +:+ name
                            +:+ "' idf_versions contains non-string values"))))
    (from_option (idf_versions_errors name) [] (dict_get "idf_versions" a)) [].
Proof.
  unfold dict_has. cbn [py_getitem].
  destruct (dict_get "idf_versions" a) as [iv|];
    [rewrite bool_decide_eq_true_2 by eauto
    |rewrite bool_decide_eq_false_2 by (by intros [? ?]); apply runs_ret].
  cbn [when_ from_option]. rewrite lift_bind.
  destruct iv; cbn [isinstance_list negb idf_versions_errors];
    try apply runs_errors_append.
  apply runs_strings_check.
Qed.

Lemma validate_app_config_exact name a :
  runs (validate_app_config name (YDict a))
    (app_errors name (YDict a)) (app_warnings name (YDict a)).
Proof.
  unfold validate_app_config. cbn [py_in app_warnings app_errors].
  rewrite !lift_bind.
  eapply runs_seq; [apply runs_optional_warning| |reflexivity..].
  eapply runs_seq;
    [apply runs_optional_warning| |reflexivity|symmetry; apply app_nil_r].
  eapply runs_seq;
    [apply check_build_types_runs|apply check_idf_versions_runs|reflexivity..].
Qed.

Lemma validate_apps_exact apps :
  negb (truthy apps) ||
    match apps with
    | YDict items => forallb (λ '(_, app), isinstance_dict app) items
    | _ => false
    end = true →
  runs (validate_apps apps) (apps_errors apps)
    match apps with
    | YDict items => '(name, app) ← items; app_warnings name app
    | _ => []
    end.
Proof.
  intros Hshape. unfold validate_apps, apps_errors.
  destruct (truthy apps) eqn:Ht; cbn [negb].
  - destruct apps as [| | | | |items]; try done. cbn [orb negb] in Hshape.
    cbn [py_items]. rewrite lift_bind.
    apply (runs_for_each_exact items
             (λ '(app_name, app_config), validate_app_config app_name app_config)
             (λ '(name, app), app_errors name app)
             (λ '(name, app), app_warnings name app)).
    intros [name app] Hin. eapply forallb_forall in Hshape;
      [|by apply list_elem_of_In].
    destruct app; try done. apply validate_app_config_exact.
  - assert (match apps with
            | YDict items => '(name, app) ← items; app_warnings name app
            | _ => []
            end = []) as ->.
    { destruct apps as [| | | | |[|]]; done. }
    apply runs_errors_append.
Qed.

Lemma validate_config_exact c :
  sections_are_mappings (YDict c) = true →
  validate_config (YDict c)
    = Ok (bool_decide (length (all_errors (YDict c)) = 0),
          all_errors (YDict c), all_warnings (YDict c), YDict c).
Proof.
  cbn [sections_are_mappings all_warnings all_errors].
  destruct (dict_get "metadata" c) as [[| | | | |m]|] eqn:Hm; try done.
  destruct (dict_get "apps" c) as [apps|] eqn:Happs; [|done].
  intros [Ha Hci]%andb_prop. cbn [from_option].
  unfold validate_config, validate_config_body.
  rewrite the_config_bind. cbn [st_config py_in].
  rewrite lift_bind, (dict_has_true _ _ _ Hm).
  cbn [negb when_]. rewrite ret_bind, lift_bind, (dict_has_true _ _ _ Happs).
  cbn [negb when_]. rewrite ret_bind.
  rewrite the_errors_bind. cbn [st_errors]. rewrite bool_decide_eq_true_2 by done.
  cbn [negb py_getitem]. rewrite Hm, Happs, !lift_bind.
  rewrite (runs_then _ _ _ _ _ (validate_metadata_runs m)).
  rewrite (runs_then _ _ _ _ _ (validate_apps_exact apps Ha)).
  rewrite (runs_then _ _ _ _ _ (validate_ci_config_runs c Hci)).
  cbn [st_config st_errors st_warnings]. rewrite !app_nil_r, !app_nil_l.
  reflexivity.
Qed.

Lemma nested_errors_nil name k l :
  ('(i, bt_list) ← enumerate_from k l;
   match bt_list with
   | YList bts =>
       if forallb isinstance_str bts then []
       else ["App '" +:+ name +:+ "' build_types[" +:+ str_of_nat i
             +:+ "] contains non-string values"]
   | _ =>
       ["App '" +:+ name +:+ "' build_types[" +:+ str_of_nat i
        +:+ "] is not a list"]
   end) = []
  ↔ forallb is_str_list l = true.
Proof.
  revert k. induction l as [|x l IH]; intros k; cbn [enumerate_from forallb].
  - done.
  - rewrite bind_cons, app_nil, IH, andb_true_iff.
    apply and_iff_compat_r.
    destruct x as [| | | |bts|]; cbn [is_str_list]; try done.
    by destruct (forallb isinstance_str bts).
Qed.

Lemma build_types_errors_nil name v :
  build_types_errors name v = [] ↔ is_str_list v || is_nested_str_list v = true.
Proof.
  destruct v as [| | | |l|]; cbn [build_types_errors is_str_list is_nested_str_list];
    try done.
  destruct l as [|x l]; [done|].
  destruct (isinstance_list x) eqn:Hx.
  - unfold enumerate. rewrite nested_errors_nil.
    by destruct x.
  - assert (forallb is_str_list (x :: l) = false) as ->.
    { cbn [forallb]. by destruct x. }
    rewrite orb_false_r. by destruct (forallb isinstance_str (x :: l)).
Qed.

Lemma idf_versions_errors_nil name v :
  idf_versions_errors name v = [] ↔ is_str_list v = true.
Proof.
  destruct v as [| | | |l|]; cbn; try done.
  by destruct (forallb isinstance_str l).
Qed.

Lemma app_errors_nil name a :
  app_errors name (YDict a) = [] ↔ app_valid (YDict a) = true.
Proof.
  cbn [app_errors app_valid]. rewrite app_nil, andb_true_iff.
  assert (from_option (build_types_errors name) [] (dict_get "build_types" a) = []
          ↔ optional (λ v, is_str_list v || is_nested_str_list v)
              (dict_get "build_types" a) = true) as ->.
  { destruct (dict_get "build_types" a); [apply build_types_errors_nil | done]. }
  assert (from_option (idf_versions_errors name) [] (dict_get "idf_versions" a) = []
          ↔ optional is_str_list (dict_get "idf_versions" a) = true) as ->.
  { destruct (dict_get "idf_versions" a); [apply idf_versions_errors_nil | done]. }
  done.
Qed.

Lemma apps_errors_nil (items : list (string * yaml)) :
  forallb (λ '(_, app), isinstance_dict app) items = true →
  ('(name, app) ← items; app_errors name app) = []
  ↔ forallb (λ '(_, app), app_valid app) items = true.
Proof.
  induction items as [|[name app] items IH]; [done|].
  cbn [forallb]. intros [Happ Hitems]%andb_prop.
  rewrite bind_cons, app_nil, andb_true_iff, IH by done.
  apply and_iff_compat_r. destruct app; try done. apply app_errors_nil.
Qed.

Lemma ci_config_errors_nil c :
  optional isinstance_dict (dict_get "ci_config" c) = true →
  ci_config_errors c = [] ↔ excludes_valid c = true.
Proof.
  unfold ci_config_errors, excludes_valid.
  destruct (dict_get "ci_config" c) as [[| | | | |ci]|]; try done.
  intros _. destruct (dict_get "exclude_combinations" ci) as [ex|]; [|done].
  cbn [optional from_option].
  by destruct (truthy ex), (isinstance_list ex).
Qed.

Lemma all_errors_nil config :
  sections_are_mappings config = true →
  all_errors config = [] ↔ passes_validation config = true.
Proof.
  destruct config as [| | | | |c]; try done.
  cbn [sections_are_mappings all_errors passes_validation].
  destruct (dict_get "metadata" c) as [[| | | | |m]|]; try done.
  destruct (dict_get "apps" c) as [apps|]; [|done].
  intros [Ha Hci]%andb_prop. cbn [from_option].
  rewrite app_nil, (ci_config_errors_nil c Hci). unfold apps_errors.
  destruct (truthy apps) eqn:Ht; cbn [negb orb] in Ha.
  - destruct apps as [| | | | |items]; try done.
    rewrite (apps_errors_nil items Ha), !andb_true_iff.
    cbn [truthy] in Ht. rewrite Ht. cbn. tauto.
  - split; [by intros [? _]|].
    destruct apps as [| | | | |items]; try done.
    cbn [truthy] in Ht. apply negb_false_iff in Ht. by rewrite Ht.
Qed.

(** The verdict of the validator, read off the configuration. *)
Lemma no_errors_iff_passes c :
  sections_are_mappings (YDict c) = true →
  bool_decide (length (all_errors (YDict c)) = 0) = passes_validation (YDict c).
Proof.
  intros Hshape. destruct (passes_validation (YDict c)) eqn:Hp.
  - apply bool_decide_eq_true_2. apply length_zero_iff_nil. by apply all_errors_nil.
  - apply bool_decide_eq_false_2. rewrite length_zero_iff_nil, all_errors_nil by done.
    congruence.
Qed.

(** X8: on a configuration with both sections whose [metadata] is a
    mapping, whose [apps] is a mapping of mappings or counts as false and
    whose [ci_config], when present, is a mapping, [validate_config]
    returns every error of every app, in configuration order and with
    those of [build_types] before those of [idf_versions], and then the
    error of [ci_config]: no error stops the checks that follow. *)
Theorem validate_reports_all_errors config :
  sections_are_mappings config = true →
  validate_config config
    = Ok (bool_decide (all_errors config = []), all_errors config,
          all_warnings config, config).
Proof.
  intros Hshape. destruct config as [| | | | |c]; try done.
  rewrite (validate_config_exact c Hshape). do 4 f_equal.
  apply bool_decide_ext. apply length_zero_iff_nil.
Qed.

Lemma validate_reports_all_errors_witness :
  validate_config invalid_apps_config
  = Ok (false,
        ["App 'adc_test' build_types[1] is not a list";
         "App 'adc_test' idf_versions contains non-string values";
         "App 'gpio_test' build_types contains non-string values";
         "ci_config.exclude_combinations is not a list"],
        all_warnings invalid_apps_config, invalid_apps_config).
Proof.
  apply (validate_reports_all_errors invalid_apps_config). reflexivity.
Defined.

(** X9: on a configuration with both sections whose [metadata] is a
    mapping, whose [apps] is a mapping of mappings or counts as false and
    whose [ci_config], when present, is a mapping, [validate_config]
    returns [ok = true] exactly when there is at least one app, every app
    is valid (its [build_types] a list of strings or a list of lists of
    strings, its [idf_versions] a list of strings) and
    [exclude_combinations] is a list or counts as false. *)
Theorem validate_verdict config :
  sections_are_mappings config = true →
  ∃ errors warnings,
    validate_config config
      = Ok (passes_validation config, errors, warnings, config).
Proof.
  intros Hshape. destruct config as [| | | | |c]; try done.
  rewrite (validate_config_exact c Hshape), (no_errors_iff_passes c Hshape). eauto.
Qed.

Lemma validate_verdict_witness :
  ∃ errors warnings,
    validate_config empty_build_types_config
      = Ok (true, errors, warnings, empty_build_types_config).
Proof.
  apply (validate_verdict empty_build_types_config). reflexivity.
Defined.

(** ** Validation and resolution together *)

(** A configuration that the validator accepts and whose unchecked parts
    are well formed has the shape on which [generate_matrix] returns. *)
Lemma accepted_config_well_shaped config :
  passes_validation config = true →
  unchecked_parts_ok config = true →
  well_shaped config = true.
Proof.
  intros Hpass Hrest.
  destruct config as [| | | | |c]; try done.
  cbn [passes_validation unchecked_parts_ok well_shaped] in *.
  destruct (dict_get "metadata" c) as [[| | | | |m]|]; try done.
  destruct (dict_get "apps" c) as [[| | | | |items]|]; try done.
  apply andb_prop in Hrest as [[[Hvs Hbts]%andb_prop Hne]%andb_prop Hci].
  apply andb_prop in Hpass as [[_ Hvalid]%andb_prop _].
  rewrite Hvs, Hbts, Hci. cbn [andb]. apply andb_true_intro. split; [|done].
  apply forallb_forall. intros [name app] Hin.
  eapply forallb_forall in Hne; [|exact Hin].
  eapply forallb_forall in Hvalid; [|exact Hin]. cbn in Hne, Hvalid.
  destruct app as [| | | | |a]; try done.
  cbn [app_valid app_well_shaped] in *.
  apply andb_prop in Hvalid as [Hbt ->]. cbn [andb].
  destruct (dict_get "build_types" a); cbn [optional from_option] in *; [|done].
  by rewrite Hne, Hbt.
Qed.

(** On a configuration with well-typed sections, what the validator
    accepts passes the validation as the views state it. *)
Lemma accepted_passes_validation config errors warnings config' :
  sections_are_mappings config = true →
  validate_config config = Ok (true, errors, warnings, config') →
  passes_validation config = true.
Proof.
  intros Hshape Hval. destruct config as [| | | | |c]; try done.
  rewrite (validate_config_exact c Hshape), (no_errors_iff_passes c Hshape) in Hval.
  by injection Hval.
Qed.

(** X10: a configuration with both sections whose [metadata] is a mapping,
    whose [apps] is a mapping of mappings or counts as false and whose
    [ci_config], when present, is a mapping, and that [validate_config]
    accepts, is resolved by [generate_matrix] without an exception,
    provided the parts that the validator does not check are well formed:
    the global [idf_versions] is a list of strings, the global
    [build_types] a list of lists of strings, no app declares a
    [build_types] that counts as false, and [exclude_combinations] counts
    as false or is a list of mappings. *)
Theorem validated_config_resolves config errors warnings config' :
  sections_are_mappings config = true →
  unchecked_parts_ok config = true →
  validate_config config = Ok (true, errors, warnings, config') →
  ∃ entries, generate_matrix config = Ok entries.
Proof.
  intros Hshape Hrest Hval.
  apply generate_matrix_total, accepted_config_well_shaped; [|done].
  by eapply accepted_passes_validation.
Qed.

Lemma validated_config_resolves_witness :
  ∃ entries, generate_matrix empty_rule_config = Ok entries.
Proof.
  apply (validated_config_resolves empty_rule_config []
           (all_warnings empty_rule_config) empty_rule_config);
    reflexivity.
Defined.

(** X11: [validate_config] does not report a section of the wrong type, it
    raises: [TypeError] when [metadata] is [None], a boolean or a number,
    and [AttributeError] when [apps] counts as true and is not a mapping. *)
Theorem validate_raises_on_ill_typed_section c metadata apps :
  dict_get "metadata" c = Some metadata →
  dict_get "apps" c = Some apps →
  (is_scalar metadata = true → validate_config (YDict c) = Raise TypeError) ∧
  (isinstance_dict metadata = true → truthy apps = true →
   isinstance_dict apps = false →
   validate_config (YDict c) = Raise AttributeError).
Proof.
  intros Hm Happs.
  assert (validate_config (YDict c)
          = '(r, st) ← (_ ← validate_metadata metadata;
                        _ ← validate_apps apps;
                        _ ← validate_ci_config (YDict c);
                        errors ← the_errors;
                        warnings ← the_warnings;
                        mret (bool_decide (length errors = 0), errors, warnings))
                         (VState (YDict c) [] []);
            Ok (r, st_config st)) as ->.
  { unfold validate_config, validate_config_body.
    rewrite the_config_bind. cbn [st_config py_in].
    rewrite lift_bind, (dict_has_true _ _ _ Hm).
    cbn [negb when_]. rewrite ret_bind, lift_bind, (dict_has_true _ _ _ Happs).
    cbn [negb when_]. rewrite ret_bind.
    rewrite the_errors_bind. cbn [st_errors]. rewrite bool_decide_eq_true_2 by done.
    cbn [negb py_getitem]. by rewrite Hm, Happs, !lift_bind. }
  split.
  - intros Hscalar. by destruct metadata.
  - intros Hdict Ht Hnd. destruct metadata as [| | | | |m]; try done.
    rewrite (runs_then _ _ _ _ _ (validate_metadata_runs m)).
    unfold validate_apps. rewrite Ht. cbn [negb].
    by destruct apps.
Qed.

Lemma validate_raises_on_ill_typed_section_witness :
  validate_config (YDict [("metadata", YNull); ("apps", YDict [])]) = Raise TypeError ∧
  validate_config (YDict [("metadata", YDict []); ("apps", YList [YStr "gpio_test"])])
    = Raise AttributeError.
Proof.
  split.
  - apply (proj1 (validate_raises_on_ill_typed_section
                    [("metadata", YNull); ("apps", YDict [])] YNull (YDict [])
                    eq_refl eq_refl)). reflexivity.
  - apply (proj2 (validate_raises_on_ill_typed_section
                    [("metadata", YDict []); ("apps", YList [YStr "gpio_test"])]
                    (YDict []) (YList [YStr "gpio_test"]) eq_refl eq_refl));
      reflexivity.
Defined.

(** ** The lookups of [get_app_info.py] *)

Lemma dict_get_keys k (d : list (string * yaml)) :
  is_Some (dict_get k d) ↔ k ∈ d.*1.
Proof.
  induction d as [|[k' v] d IH]; cbn [dict_get].
  - rewrite fmap_nil, elem_of_nil. split; [by intros [? ?] | done].
  - rewrite fmap_cons, elem_of_cons. cbn [fst]. case_decide as Hk.
    + split; [by left | eauto].
    + rewrite IH. split; [by right | by intros [?|?]].
Qed.

Lemma dict_has_keys k (d : list (string * yaml)) :
  dict_has k d = bool_decide (k ∈ d.*1).
Proof. unfold dict_has. apply bool_decide_ext, dict_get_keys. Qed.

Lemma list_apps_keys config apps :
  dict_get "apps" config = Some (YDict apps) →
  list_apps (YDict config) = Ok apps.*1.
Proof. intros Happs. unfold list_apps. cbn [py_getitem]. by rewrite Happs. Qed.

Lemma validate_app_keys config apps name :
  dict_get "apps" config = Some (YDict apps) →
  validate_app name (YDict config) = Ok (bool_decide (name ∈ apps.*1)).
Proof.
  intros Happs. unfold validate_app. cbn [py_getitem]. rewrite Happs, bind_Ok.
  cbn [py_in]. by rewrite dict_has_keys.
Qed.

(** X12: the three lookups agree: [list_apps] returns the app names in
    configuration order, [validate_app] answers whether the name is one of
    them, and [get_app_source_file] exits with the unknown-app error
    exactly for the names that are not. *)
Theorem lookups_agree config apps name :
  dict_get "apps" config = Some (YDict apps) →
  list_apps (YDict config) = Ok apps.*1 ∧
  validate_app name (YDict config) = Ok (bool_decide (name ∈ apps.*1)) ∧
  (name ∈ apps.*1 ↔
   ∀ status message,
     get_app_source_file name (YDict config) ≠ Raise (SystemExit status message)).
Proof.
  intros Happs. split; [by apply list_apps_keys|].
  split; [by apply validate_app_keys|].
  unfold get_app_source_file.
  cbn [py_getitem]. rewrite Happs, !bind_Ok. cbn [py_in]. rewrite !bind_Ok.
  rewrite dict_has_keys.
  case_bool_decide as Hin; cbn [negb].
  - split; [|done]. intros _ status message.
    apply dict_get_keys in Hin as [app Happ]. cbn [py_getitem]. rewrite Happ, bind_Ok.
    destruct app as [| | | | |a]; try done. cbn [py_getitem].
    by destruct (dict_get "source_file" a).
  - split; [done|]. intros H. by destruct (H 1%Z ("Error: Unknown app type: " +:+ name)).
Qed.

Lemma lookups_agree_witness :
  list_apps disabled_app_config = Ok ["adc_test"; "gpio_test"] ∧
  validate_app "gpio_test" disabled_app_config = Ok true ∧
  ("gpio_test" ∈ ["adc_test"; "gpio_test"] ↔
   ∀ status message,
     get_app_source_file "gpio_test" disabled_app_config
       ≠ Raise (SystemExit status message)).
Proof.
  apply (lookups_agree
    [ ("metadata", YDict [("idf_versions", YList [YStr "release/v5.5"])]);
      ("apps",
       YDict [("adc_test", YDict [("ci_enabled", YBool false)]);
              ("gpio_test", YDict [])]) ]
    [("adc_test", YDict [("ci_enabled", YBool false)]); ("gpio_test", YDict [])]
    "gpio_test" eq_refl).
Defined.

(** X13: every entry of the matrix names an app that the lookups of
    [get_app_info.py] know: [validate_app] accepts its name and
    [list_apps] lists it. *)
Theorem matrix_apps_are_known config entries e :
  generate_matrix config = Ok entries →
  e ∈ entries →
  validate_app (app_name e) config = Ok true ∧
  ∃ names, list_apps config = Ok names ∧ app_name e ∈ names.
Proof.
  intros Hgen He.
  destruct (matrix_entry_origin _ _ _ Hgen He)
    as (c & m & apps & a & -> & _ & Happs & Hin & _).
  assert (app_name e ∈ apps.*1) as Hname.
  { apply list_elem_of_fmap. by exists (app_name e, YDict a). }
  rewrite (validate_app_keys c apps _ Happs), (list_apps_keys c apps Happs).
  rewrite bool_decide_eq_true_2 by done. eauto.
Qed.

Lemma matrix_apps_are_known_witness :
  validate_app "gpio_test" flat_excluded_config = Ok true ∧
  ∃ names, list_apps flat_excluded_config = Ok names ∧ "gpio_test" ∈ names.
Proof.
  apply (matrix_apps_are_known flat_excluded_config
           [entry_of (YStr "esp32c6") "gpio_test" "app" ("release/v5.5", YStr "Release")]
           (entry_of (YStr "esp32c6") "gpio_test" "app" ("release/v5.5", YStr "Release"))).
  - vm_compute. reflexivity.
  - left.
Defined.

(** ** The run of [main] of [generate_matrix.py] *)

Section generate_matrix_main.
Import GenerateMatrixMain.

Lemma proc_bind_Done_inv {E A B} (m : proc E A) (f : A → proc E B) events b :
  m ≫= f = (events, Done b) →
  ∃ events1 a events2,
    m = (events1, Done a) ∧ f a = (events2, Done b) ∧ events = events1 ++ events2.
Proof.
  destruct m as [events1 [a|s]]; cbn; [|done].
  destruct (f a) as [events2 o] eqn:Hf. intros [= <- ->]. by exists events1, a, events2.
Qed.

Lemma emits_no_matrix_bind {A B} (m : proc event A) (f : A → proc event B) :
  emits_no_matrix m → (∀ a, emits_no_matrix (f a)) → emits_no_matrix (m ≫= f).
Proof.
  unfold emits_no_matrix. destruct m as [events1 [a|s]]; cbn; [|done].
  intros H1 Hf. specialize (Hf a). destruct (f a) as [events2 o]. cbn in *.
  by apply Forall_app.
Qed.

Lemma emits_no_matrix_say line : emits_no_matrix (say line).
Proof. by apply Forall_singleton. Qed.

Lemma emits_no_matrix_ret {A} (a : A) : emits_no_matrix (mret a : proc event A).
Proof. constructor. Qed.

Lemma emits_no_matrix_exit {A} status : emits_no_matrix (sys_exit status : proc event A).
Proof. constructor. Qed.

Lemma emits_no_matrix_call {A} (r : result A) : emits_no_matrix (call PrintErr r).
Proof. destruct r as [a|[]]; cbn; by repeat constructor. Qed.

Lemma emits_no_matrix_only_if b (body : proc event ()) :
  emits_no_matrix body → emits_no_matrix (only_if b body).
Proof. destruct b; [done | intros _; apply emits_no_matrix_ret]. Qed.

Lemma emits_no_matrix_each {A} (xs : list A) (body : A → proc event ()) :
  (∀ x, emits_no_matrix (body x)) → emits_no_matrix (each xs body).
Proof.
  intros Hbody. induction xs as [|x xs IH]; [apply emits_no_matrix_ret|].
  cbn [each]. by apply emits_no_matrix_bind.
Qed.

Ltac no_matrix :=
  repeat first
    [ apply emits_no_matrix_say
    | apply emits_no_matrix_ret
    | apply emits_no_matrix_exit
    | apply emits_no_matrix_call
    | apply emits_no_matrix_only_if
    | apply emits_no_matrix_each; intros ?
    | apply emits_no_matrix_bind; [|intros ?] ].

Lemma report_configuration_no_matrix config :
  emits_no_matrix (report_configuration config).
Proof. unfold report_configuration. no_matrix. Qed.

Lemma run_validation_no_matrix verbose config :
  emits_no_matrix (run_validation verbose config).
Proof.
  unfold run_validation. apply emits_no_matrix_bind; [no_matrix|].
  intros [[[is_valid errors] warnings] c']. apply emits_no_matrix_bind; [no_matrix|].
  intros _. destruct (negb is_valid); no_matrix.
Qed.

Lemma each_say {A} (xs : list A) (line : A → list text) :
  each xs (λ x, say (line x)) = ((λ x, Print (line x)) <$> xs, Done ()).
Proof.
  induction xs as [|x xs IH]; [done|]. cbn [each]. rewrite IH. reflexivity.
Qed.

(** The validation block goes on only after a validation that passed. *)
Lemma run_validation_Done verbose config events :
  run_validation verbose config = (events, Done ()) →
  ∃ errors warnings c', validate_config config = Ok (true, errors, warnings, c').
Proof.
  unfold run_validation. intros (ev1 & r & ev2 & Hcall & Hrest & _)%proc_bind_Done_inv.
  destruct (validate_config config) as [[[[is_valid errors] warnings] c']|[]];
    cbn in Hcall; try done.
  injection Hcall as <- <-.
  apply proc_bind_Done_inv in Hrest as (ev3 & [] & ev4 & _ & Hrest & _).
  destruct is_valid; [by eauto|]. cbn [negb] in Hrest.
  apply proc_bind_Done_inv in Hrest as (? & [] & ? & _ & Hrest & _).
  by apply proc_bind_Done_inv in Hrest as (? & [] & ? & _ & Hrest & _).
Qed.

(** X14: with [--validate], [main] hands no matrix to the output unless the
    validation passed: otherwise the run stops (with exit status 1 when
    [validate_config] returned [ok = false]) before [generate_matrix] is
    called. *)
Theorem unvalidated_matrix_is_not_emitted writable args config :
  arg_help args = false →
  arg_validate args = true →
  (∀ errors warnings c',
     validate_config config ≠ Ok (true, errors, warnings, c')) →
  emits_no_matrix (main writable args config) ∧
  (main writable args config).2 ≠ Done () ∧
  (arg_verbose args = false →
   ∀ errors warnings c',
     validate_config config = Ok (false, errors, warnings, c') →
     main writable args config
     = (Print [Lit "Configuration validation failed:"]
          :: ((λ error, Print [Lit ("  " +:+ error)]) <$> errors),
        Stopped (Exit 1))).
Proof.
  intros Hhelp Hvalidate Hfails. unfold main. rewrite Hhelp, Hvalidate.
  cbn [only_if].
  pose proof (report_configuration_no_matrix config) as Hq1.
  pose proof (run_validation_no_matrix (arg_verbose args) config) as Hq2.
  pose proof (run_validation_Done (arg_verbose args) config) as Hdone.
  split; [|split].
  - destruct (only_if (arg_verbose args) (report_configuration config))
      as [ev1 [[]|s]] eqn:H1; cbn.
    2:{ assert (emits_no_matrix (only_if (arg_verbose args) (report_configuration config)))
          as H by by apply emits_no_matrix_only_if.
        by rewrite H1 in H. }
    assert (emits_no_matrix (only_if (arg_verbose args) (report_configuration config)))
      as Hev1 by by apply emits_no_matrix_only_if.
    rewrite H1 in Hev1.
    destruct (run_validation (arg_verbose args) config) as [ev2 [[]|s]] eqn:H2; cbn.
    + destruct (Hdone ev2 eq_refl) as (es & ws & c' & Hok). by destruct (Hfails es ws c').
    + apply Forall_app. split; [exact Hev1 | exact Hq2].
  - destruct (only_if (arg_verbose args) (report_configuration config))
      as [ev1 [[]|s]] eqn:H1; cbn; [|done].
    destruct (run_validation (arg_verbose args) config) as [ev2 [[]|s]] eqn:H2; cbn;
      [|done].
    destruct (Hdone ev2 eq_refl) as (es & ws & c' & Hok). by destruct (Hfails es ws c').
  - intros -> errors warnings c' Hval. cbn [only_if].
    unfold run_validation. rewrite Hval. cbn [call only_if negb].
    unfold mbind, mret, proc_bind, proc_ret. cbn -[each say].
    rewrite (each_say errors (λ error, [Lit ("  " +:+ error)])). cbn.
    by rewrite app_nil_r.
Qed.

Lemma unvalidated_matrix_is_not_emitted_witness :
  let args := {| arg_help := false; arg_output := None; arg_format := Json;
                 arg_filter := None; arg_verbose := false; arg_validate := true |} in
  emits_no_matrix (main (λ _, true) args invalid_apps_config) ∧
  (main (λ _, true) args invalid_apps_config).2 ≠ Done () ∧
  (arg_verbose args = false →
   ∀ errors warnings c',
     validate_config invalid_apps_config = Ok (false, errors, warnings, c') →
     main (λ _, true) args invalid_apps_config
     = (Print [Lit "Configuration validation failed:"]
          :: ((λ error, Print [Lit ("  " +:+ error)]) <$> errors),
        Stopped (Exit 1))).
Proof.
  apply (unvalidated_matrix_is_not_emitted (λ _, true)
           {| arg_help := false; arg_output := None; arg_format := Json;
              arg_filter := None; arg_verbose := false; arg_validate := true |}
           invalid_apps_config eq_refl eq_refl).
  intros errors warnings c'. vm_compute. discriminate.
Defined.

Lemma emits_no_matrix_events {A} (m : proc event A) events o :
  emits_no_matrix m → m = (events, o) →
  Forall (λ ev, is_matrix_event ev = false) events.
Proof. by intros H ->. Qed.

(** X15: a run of [main] that comes to its end hands the matrix to the
    output exactly once, as its last action (followed only by the line
    [Matrix written to ...] when it writes a file): the include list of
    [generate_matrix], narrowed to the app of [--filter] when that option
    is given; and with [--validate] the configuration passed the
    validation. *)
Theorem main_emits_the_matrix_once writable args config events :
  main writable args config = (events, Done ()) →
  ∃ include before,
    generate_matrix config = Ok include ∧
    (arg_validate args = true →
     ∃ errors warnings c', validate_config config = Ok (true, errors, warnings, c')) ∧
    Forall (λ ev, is_matrix_event ev = false) before ∧
    events = before ++ output_events args (shown_include args include).
Proof.
  unfold main. destruct (arg_help args); [done|].
  intros (ev1 & [] & ? & H1 & H & ->)%proc_bind_Done_inv.
  apply proc_bind_Done_inv in H as (ev2 & [] & ? & H2 & H & ->).
  apply proc_bind_Done_inv in H as (ev3 & [] & ? & H3 & H & ->).
  apply proc_bind_Done_inv in H as (ev4 & include0 & ? & H4 & H & ->).
  apply proc_bind_Done_inv in H as (ev5 & [] & ? & H5 & H & ->).
  apply proc_bind_Done_inv in H as (ev6 & shown & out & H6 & H & ->).
  destruct (generate_matrix config) as [include|[]] eqn:Hgen; cbn in H4; try done.
  injection H4 as <- <-.
  assert (shown = shown_include args include ∧
          Forall (λ ev, is_matrix_event ev = false) ev6) as [-> Hev6].
  { unfold shown_include. destruct (given (arg_filter args)).
    - apply proc_bind_Done_inv in H6 as (ev & [] & ? & Hsay & [= <- <-] & ->).
      split; [done|]. rewrite app_nil_r.
      eapply emits_no_matrix_events; [|exact Hsay]. no_matrix.
    - by injection H6 as <- <-. }
  assert (out = output_events args (shown_include args include)) as ->.
  { unfold output_events. destruct (given (arg_output args)).
    - destruct (writable _); [|done].
      apply proc_bind_Done_inv in H as (? & [] & ? & [= <-] & [= <-] & ->). done.
    - by injection H as <-. }
  exists include, (ev1 ++ ev2 ++ ev3 ++ [] ++ ev5 ++ ev6).
  split; [done|]. split; [|split].
  - intros Hval. rewrite Hval in H2. cbn [only_if] in H2.
    by apply run_validation_Done in H2.
  - repeat apply Forall_app_2; try done.
    + eapply emits_no_matrix_events; [|exact H1].
      apply emits_no_matrix_only_if, report_configuration_no_matrix.
    + eapply emits_no_matrix_events; [|exact H2].
      apply emits_no_matrix_only_if, run_validation_no_matrix.
    + eapply emits_no_matrix_events; [|exact H3]. no_matrix.
    + eapply emits_no_matrix_events; [|exact H5]. no_matrix.
  - by rewrite <- !app_assoc.
Qed.

Lemma main_emits_the_matrix_once_witness :
  ∃ include before,
    generate_matrix flat_excluded_config = Ok include ∧
    (true = true →
     ∃ errors warnings c',
       validate_config flat_excluded_config = Ok (true, errors, warnings, c')) ∧
    Forall (λ ev, is_matrix_event ev = false) before ∧
    [Print [Lit "Configuration validation passed"];
     Print [Lit "  4 warnings found"];
     Print [];
     WriteMatrix "matrix.json" Json [];
     Print [Lit "Matrix written to matrix.json"]]
    = before
      ++ output_events
           {| arg_help := false; arg_output := Some "matrix.json"; arg_format := Json;
              arg_filter := Some "adc_test"; arg_verbose := false;
              arg_validate := true |}
           (shown_include
              {| arg_help := false; arg_output := Some "matrix.json";
                 arg_format := Json; arg_filter := Some "adc_test";
                 arg_verbose := false; arg_validate := true |}
              include).
Proof.
  apply (main_emits_the_matrix_once (λ _, true)
           {| arg_help := false; arg_output := Some "matrix.json"; arg_format := Json;
              arg_filter := Some "adc_test"; arg_verbose := false;
              arg_validate := true |}
           flat_excluded_config).
  vm_compute. reflexivity.
Defined.

(** *** [--filter] *)

Lemma for_each_ext {A S} (xs : list A) (f g : A → S → result S) s :
  (∀ x t, f x t = g x t) → for_each xs f s = for_each xs g s.
Proof.
  intros Hfg. revert s. induction xs as [|x xs IH]; intros s; [done|].
  rewrite !for_each_cons, Hfg. destruct (g x s); [|done].
  rewrite !bind_Ok. by apply IH.
Qed.

(** What [generate_matrix] computes before its loop over the apps: the
    table of the global build types, the global versions and the exclusion
    list. *)
Lemma generate_matrix_loop c apps include :
  dict_get "apps" c = Some (YDict apps) →
  generate_matrix (YDict c) = Ok include →
  ∃ m tbl versions excl,
    dict_get "metadata" c = Some (YDict m) ∧
    (∀ c' apps',
       dict_get "metadata" c' = dict_get "metadata" c →
       dict_get "ci_config" c' = dict_get "ci_config" c →
       dict_get "apps" c' = Some (YDict apps') →
       generate_matrix (YDict c')
       = for_each apps'
           (λ '(name, app) include,
              app_entries (YDict c) tbl versions excl name app include) []) ∧
    for_each apps
      (λ '(name, app) include,
         app_entries (YDict c) tbl versions excl name app include) [] = Ok include.
Proof.
  intros Happs Hgen.
  assert (∃ m, dict_get "metadata" c = Some (YDict m)) as [m Hm].
  { apply generate_matrix_inv in Hgen as (? & m & ? & ? & ? & ? & [= <-] & ? & _).
    by exists m. }
  revert Hgen. unfold generate_matrix at 1. cbn [py_getitem]. rewrite Hm, Happs, !bind_Ok.
  destruct (py_get (YDict m) "idf_versions" _) as [versions|] eqn:Hv; [|done].
  rewrite !bind_Ok.
  destruct (py_get (YDict m) "build_types" _) as [bts|] eqn:Hbts; [|done].
  rewrite !bind_Ok.
  destruct (build_idf_to_build_types versions bts) as [tbl|] eqn:Htbl; [|done].
  rewrite !bind_Ok. cbn [py_get]. rewrite !bind_Ok.
  destruct (py_get (default (YDict []) (dict_get "ci_config" c)) _ _)
    as [excludes|] eqn:Hex; [|done].
  rewrite !bind_Ok. cbn [py_items]. rewrite !bind_Ok. intros Hloop.
  exists m, tbl, versions, (if truthy excludes then excludes else YList []).
  split; [done|]. split; [|done].
  intros c' apps' Hm' Hci' Happs'. unfold generate_matrix. cbn [py_getitem].
  rewrite Hm', Happs', !bind_Ok, Hv, !bind_Ok, Hbts, !bind_Ok, Htbl, !bind_Ok.
  cbn [py_get]. rewrite !bind_Ok, Hci', Hex, !bind_Ok. cbn [py_items].
  rewrite !bind_Ok.
  apply for_each_ext. intros [name app] t. unfold app_entries.
  destruct (py_get app "ci_enabled" _); [|done]. rewrite !bind_Ok.
  destruct (negb _); [done|].
  destruct (py_get app "idf_versions" versions); [|done]. rewrite !bind_Ok.
  destruct (effective_combinations _ _ _); [|done]. rewrite !bind_Ok.
  unfold generate_entries. apply for_each_ext. intros [v bt] t'.
  by rewrite (make_candidate_ext c' c) by congruence.
Qed.

Lemma filter_include_app name l1 l2 :
  filter_include name (l1 ++ l2) = filter_include name l1 ++ filter_include name l2.
Proof. apply filter_app. Qed.

Lemma filter_include_all name l :
  Forall (λ e, app_name e = name) l → filter_include name l = l.
Proof.
  unfold filter_include. induction 1 as [|e l He _ IH]; [done|].
  by rewrite filter_cons, decide_True, IH.
Qed.

Lemma filter_include_none name l :
  Forall (λ e, app_name e ≠ name) l → filter_include name l = [].
Proof.
  unfold filter_include. induction 1 as [|e l He _ IH]; [done|].
  by rewrite filter_cons, decide_False.
Qed.

(** The parts of the apps with another name hold no entry of that name. *)
Lemma filter_include_other_parts c m tbl versions excl apps parts name :
  dict_get "metadata" c = Some (YDict m) →
  Forall2 (λ '(name, app) part,
             app_entries (YDict c) tbl versions excl name app [] = Ok part)
    apps parts →
  name ∉ apps.*1 →
  filter_include name (concat parts) = [].
Proof.
  intros Hm. induction 1 as [|[n a] part apps parts Hpart _ IH]; [done|].
  rewrite fmap_cons. cbn [fst concat]. intros [Hn Hrest]%not_elem_of_cons.
  rewrite filter_include_app, IH, app_nil_r by done.
  apply filter_include_none.
  destruct (app_entries_contribution c m tbl versions excl n a part Hm Hpart)
    as (a' & -> & _ & Hall).
  eapply Forall_impl; [exact Hall|]. intros e ->. cbn. congruence.
Qed.

(** X16: [--filter] shows the matrix of the one app: the filtered include
    list is what [generate_matrix] returns for the configuration with that
    app alone, and it is empty for a name that is not an app. *)
Theorem filter_is_the_matrix_of_one_app c apps name include :
  generate_matrix (YDict c) = Ok include →
  dict_get "apps" c = Some (YDict apps) →
  NoDup apps.*1 →
  (name ∉ apps.*1 → filter_include name include = []) ∧
  (∀ app c',
     (name, app) ∈ apps →
     dict_get "metadata" c' = dict_get "metadata" c →
     dict_get "ci_config" c' = dict_get "ci_config" c →
     dict_get "apps" c' = Some (YDict [(name, app)]) →
     generate_matrix (YDict c') = Ok (filter_include name include)).
Proof.
  intros Hgen Happs Hnd.
  destruct (generate_matrix_loop c apps include Happs Hgen)
    as (m & tbl & versions & excl & Hm & Hother & Hloop).
  rewrite (for_each_collect apps _
    (λ '(name, app), app_entries (YDict c) tbl versions excl name app [])) in Hloop.
  2:{ intros [n a] acc _. apply app_entries_from_empty. }
  apply bind_Ok_inv in Hloop as (parts & Hparts & [= <-]).
  apply for_each_parts in Hparts as (new & -> & Hnew). cbn [app].
  assert (Forall2 (λ '(name, app) part,
                     app_entries (YDict c) tbl versions excl name app [] = Ok part)
            apps new) as Hparts.
  { eapply Forall2_impl; [exact Hnew|]. by intros [n a] part. }
  clear Hnew. split.
  { intros Hname. by eapply filter_include_other_parts. }
  intros app c' Hin Hm' Hci' Happs'.
  rewrite (Hother c' [(name, app)] Hm' Hci' Happs'). rewrite for_each_cons.
  cbn [for_each]. clear Hother Hgen Happs Happs'.
  induction Hparts as [|[n a] part apps parts Hpart Hparts IH]; [by apply elem_of_nil in Hin|].
  rewrite fmap_cons in Hnd. cbn [fst] in Hnd. apply NoDup_cons in Hnd as [Hn Hnd].
  cbn [concat]. rewrite filter_include_app.
  destruct (app_entries_contribution c m tbl versions excl n a part Hm Hpart)
    as (a' & -> & _ & Hall).
  apply elem_of_cons in Hin as [[= -> ->]|Hin].
  - rewrite Hpart, bind_Ok.
    rewrite (filter_include_other_parts c m tbl versions excl apps parts n)
      by done.
    rewrite app_nil_r, filter_include_all; [done|].
    eapply Forall_impl; [exact Hall|]. by intros e ->.
  - rewrite IH by done. f_equal.
    rewrite (filter_include_none name part); [done|].
    eapply Forall_impl; [exact Hall|]. intros e -> Heq. cbn in Heq. subst n.
    apply Hn. apply list_elem_of_fmap. by exists (name, app).
Qed.

Lemma filter_is_the_matrix_of_one_app_witness :
  ("gpio_test" ∉ ["adc_test"; "gpio_test"] →
   filter_include "gpio_test"
     [entry_of (YStr "esp32c6") "adc_test" "global" ("release/v5.5", YStr "Debug");
      entry_of (YStr "esp32c6") "adc_test" "global" ("release/v5.5", YStr "Release");
      entry_of (YStr "esp32c6") "gpio_test" "app" ("release/v5.5", YStr "Release")]
   = []) ∧
  (∀ app c',
     ("gpio_test", app)
       ∈ [("adc_test", YDict []);
          ("gpio_test", YDict [("build_types", YList [YStr "Release"])])] →
     dict_get "metadata" c'
       = Some (YDict [("idf_versions", YList [YStr "release/v5.5"])]) →
     dict_get "ci_config" c' = None →
     dict_get "apps" c' = Some (YDict [("gpio_test", app)]) →
     generate_matrix (YDict c')
     = Ok [entry_of (YStr "esp32c6") "gpio_test" "app" ("release/v5.5", YStr "Release")]).
Proof.
  apply (filter_is_the_matrix_of_one_app
    [ ("metadata", YDict [("idf_versions", YList [YStr "release/v5.5"])]);
      ("apps",
       YDict [("adc_test", YDict []);
              ("gpio_test", YDict [("build_types", YList [YStr "Release"])])]) ]
    [("adc_test", YDict []);
     ("gpio_test", YDict [("build_types", YList [YStr "Release"])])]
    "gpio_test"
    [entry_of (YStr "esp32c6") "adc_test" "global" ("release/v5.5", YStr "Debug");
     entry_of (YStr "esp32c6") "adc_test" "global" ("release/v5.5", YStr "Release");
     entry_of (YStr "esp32c6") "gpio_test" "app" ("release/v5.5", YStr "Release")]).
  - vm_compute. reflexivity.
  - reflexivity.
  - cbn. apply (bool_decide_unpack (NoDup ["adc_test"; "gpio_test"])).
    vm_compute. reflexivity.
Defined.

(** *** Runs that come to their end *)






End generate_matrix_main.

(** ** The run of [main] of [get_app_info.py] *)

Section get_app_info_main.
Import GetAppInfoMain.

Lemma given_Some s : s ≠ "" → given (Some s) = true.
Proof. intros Hs. unfold given. by rewrite bool_decide_eq_false_2. Qed.



(** X19: the errors of the command line are reported before the
    configuration is looked at: without a command, or with [--help], the
    run shows the help and exits with status 0; a command other than
    [source_file], [list] and [validate] is reported as unknown, and
    [source_file] or [validate] without an app type gets the usage line,
    both on the error stream with exit status 1. *)
Theorem command_line_errors args config :
  (arg_help args = true ∨ given (arg_command args) = false →
   main args config = ([Help], Stopped (Exit 0))) ∧
  (∀ command,
     arg_help args = false →
     arg_command args = Some command →
     command ≠ "" →
     (command ∉ ["source_file"; "list"; "validate"] →
      main args config
        = ([Stderr ("Error: Unknown command: " +:+ command)], Stopped (Exit 1))) ∧
     (command ∈ ["source_file"; "validate"] →
      given (arg_app_type args) = false →
      main args config
        = ([Stderr ("Usage: get_app_info.py " +:+ command +:+ " <app_type>")],
           Stopped (Exit 1)))).
Proof.
  split.
  - intros H. unfold main.
    assert (arg_help args || negb (given (arg_command args)) = true) as ->; [|done].
    destruct H as [-> | ->]; [done | apply orb_true_r].
  - intros command Hhelp Hcmd Hne. unfold main. rewrite Hhelp, Hcmd.
    rewrite given_Some by done. cbn [default from_option id orb negb]. split.
    + intros Hnot. rewrite !not_elem_of_cons in Hnot. destruct Hnot as (? & ? & ? & _).
      by rewrite !decide_False by done.
    + intros Hin Happ. rewrite Happ. cbn [negb].
      rewrite !elem_of_cons in Hin. destruct Hin as [-> | [-> | Hin]].
      * done.
      * done.
      * by apply elem_of_nil in Hin.
Qed.

Lemma command_line_errors_witness :
  main {| arg_help := true; arg_command := Some "list"; arg_app_type := None |} YNull
    = ([Help], Stopped (Exit 0)) ∧
  main {| arg_help := false; arg_command := Some "info";
          arg_app_type := Some "gpio_test" |} YNull
    = ([Stderr "Error: Unknown command: info"], Stopped (Exit 1)) ∧
  main {| arg_help := false; arg_command := Some "validate";
          arg_app_type := None |} YNull
    = ([Stderr "Usage: get_app_info.py validate <app_type>"], Stopped (Exit 1)).
Proof.
  split; [|split].
  - apply (proj1 (command_line_errors
                    {| arg_help := true; arg_command := Some "list";
                       arg_app_type := None |} YNull)).
    left. reflexivity.
  - apply (proj1 (proj2 (command_line_errors
                           {| arg_help := false; arg_command := Some "info";
                              arg_app_type := Some "gpio_test" |} YNull)
                    "info" eq_refl eq_refl ltac:(discriminate))).
    apply (bool_decide_unpack ("info" ∉ ["source_file"; "list"; "validate"])).
    vm_compute. reflexivity.
  - apply (proj2 (proj2 (command_line_errors
                           {| arg_help := false; arg_command := Some "validate";
                              arg_app_type := None |} YNull)
                    "validate" eq_refl eq_refl ltac:(discriminate))).
    + apply (bool_decide_unpack ("validate" ∈ ["source_file"; "validate"])).
      vm_compute. reflexivity.
    + reflexivity.
Defined.

End get_app_info_main.

(** ** Missing sections *)

(** X20: a configuration that lacks a required section is rejected at once:
    [validate_config] returns [ok = false] with one error for each missing
    section, [metadata] first, and no warning; and [generate_matrix] does
    not return on such a configuration. *)
Theorem missing_sections_reported c :
  dict_get "metadata" c = None ∨ dict_get "apps" c = None →
  validate_config (YDict c)
  = Ok (false,
        (if dict_has "metadata" c then []
         else ["Missing required 'metadata' section"]) ++
        (if dict_has "apps" c then []
         else ["Missing required 'apps' section"]),
        [], YDict c) ∧
  ∀ entries, generate_matrix (YDict c) ≠ Ok entries.
Proof.
  intros Hmissing. split.
  - unfold validate_config, validate_config_body.
    rewrite the_config_bind. cbn [st_config py_in]. rewrite lift_bind.
    destruct Hmissing as [H|H]; rewrite (dict_has_false _ _ H).
    + cbn [negb when_]. by destruct (dict_has "apps" c).
    + by destruct (dict_has "metadata" c).
  - intros entries
      (c' & m & apps & _ & _ & _ & [= <-] & Hm & Happs & _)%generate_matrix_inv.
    destruct Hmissing; congruence.
Qed.

Lemma missing_sections_reported_witness :
  validate_config (YDict [("ci_config", YDict [])])
  = Ok (false,
        ["Missing required 'metadata' section"; "Missing required 'apps' section"],
        [], YDict [("ci_config", YDict [])]) ∧
  ∀ entries, generate_matrix (YDict [("ci_config", YDict [])]) ≠ Ok entries.
Proof.
  apply (missing_sections_reported [("ci_config", YDict [])]). left. reflexivity.
Defined.
